(** * AuthWave backend: controllers over a document store

    A shallow embedding of the admin, project and security-log controllers
    of the AuthWave backend (Express handlers over Mongoose models), and the
    properties of the tenant lifecycle, the admin session and the log-query
    contract that hold of them.

    Each Mongoose collection is a finite map from [_id] to a document.  A
    handler is a function of the request and the store that either sends a
    reply or throws, and leaves a new store. *)

From Stdlib Require Import ZArith.
From stdpp Require Import gmap strings list fin_maps sorting.

Open Scope Z_scope.

(** ** JavaScript values the handlers test *)

Module Js.

(** A document field that Mongoose may leave unset, set to [null], or
    fill. *)
Inductive nullable (A : Type) : Type :=
| undefined
| null
| val (a : A).
Arguments undefined {A}.
Arguments null {A}.
Arguments val {A} a.

(** [!s] on an optional string: [undefined] and the empty string are
    falsy. *)
Definition falsy (s : option string) : bool :=
  match s with
  | None => true
  | Some s => bool_decide (s = "")
  end.

(** [a || b] on optional strings. *)
Definition or_else (a b : option string) : option string :=
  if falsy a then b else a.

(** [d < new Date()] for a stored date [d], the clock reading [now] in
    milliseconds: the relational operator turns [null] into [0] and
    [undefined] into [NaN], which compares false. *)
Definition date_lt (d : nullable Z) (now : Z) : bool :=
  match d with
  | undefined => false
  | null => 0 <? now
  | val t => t <? now
  end.

(** Strings are the UTF-8 text of the JavaScript string.  What
    [String.prototype.trim] strips is the white space and the line
    terminators of ECMAScript: in one byte U+0009 to U+000D and U+0020; in
    two bytes U+00A0; in three bytes U+1680, U+2000 to U+200A, U+2028,
    U+2029, U+202F, U+205F, U+3000 and U+FEFF. *)
Definition is_space (c : Ascii.ascii) : bool :=
  let n := Ascii.nat_of_ascii c in
  ((9 <=? n)%nat && (n <=? 13)%nat) || (n =? 32)%nat.

Definition is_space2 (a b : Ascii.ascii) : bool :=
  let a := Ascii.nat_of_ascii a in
  let b := Ascii.nat_of_ascii b in
  (a =? 194)%nat && (b =? 160)%nat.

Definition is_space3 (a b c : Ascii.ascii) : bool :=
  let a := Ascii.nat_of_ascii a in
  let b := Ascii.nat_of_ascii b in
  let c := Ascii.nat_of_ascii c in
  ((a =? 225)%nat && (b =? 154)%nat && (c =? 128)%nat)
  || ((a =? 226)%nat && (b =? 128)%nat
      && (((128 <=? c)%nat && (c <=? 138)%nat)
          || (c =? 168)%nat || (c =? 169)%nat || (c =? 175)%nat))
  || ((a =? 226)%nat && (b =? 129)%nat && (c =? 159)%nat)
  || ((a =? 227)%nat && (b =? 128)%nat && (c =? 128)%nat)
  || ((a =? 239)%nat && (b =? 187)%nat && (c =? 191)%nat).

(** Dropping the white space a text starts with; [sp2] and [sp3] say
    which two and three bytes are one white-space character, in the order
    in which the text is read. *)
Fixpoint drop_spaces (sp2 : Ascii.ascii -> Ascii.ascii -> bool)
    (sp3 : Ascii.ascii -> Ascii.ascii -> Ascii.ascii -> bool) (s : string)
    : string :=
  match s with
  | String a r1 =>
      if is_space a then drop_spaces sp2 sp3 r1
      else
        match r1 with
        | String b r2 =>
            if sp2 a b then drop_spaces sp2 sp3 r2
            else
              match r2 with
              | String c r3 =>
                  if sp3 a b c then drop_spaces sp2 sp3 r3 else s
              | EmptyString => s
              end
        | EmptyString => s
        end
  | EmptyString => EmptyString
  end.

Definition trim_start (s : string) : string :=
  drop_spaces is_space2 is_space3 s.

Fixpoint rev_string (s acc : string) : string :=
  match s with
  | String c r => rev_string r (String c acc)
  | EmptyString => acc
  end.

(** The end of the text is trimmed on the reversed bytes, where the bytes
    of a character come last byte first. *)
Definition trim_end (s : string) : string :=
  rev_string
    (drop_spaces (fun a b => is_space2 b a) (fun a b c => is_space3 c b a)
       (rev_string s ""))
    "".

Definition trim (s : string) : string := trim_end (trim_start s).

(** [s.startsWith(p)] returning the rest of [s]. *)
Fixpoint strip_prefix (p s : string) : option string :=
  match p, s with
  | EmptyString, _ => Some s
  | String a p', String b s' =>
      if bool_decide (a = b) then strip_prefix p' s' else None
  | String _ _, EmptyString => None
  end.

(** [s.replace(p, "")]: the first occurrence of [p] is removed. *)
Fixpoint remove_first (p s : string) : string :=
  match strip_prefix p s with
  | Some rest => rest
  | None =>
      match s with
      | String c r => String c (remove_first p r)
      | EmptyString => EmptyString
      end
  end.

End Js.

(** ** Replies and errors ([constants.ts], [ApiError], [ApiResponse])

    The members of [responseType]; [CREATED], [DELETED],
    [VALIDATION_ERROR] and [INCORRECT_PASSWORD] are the four the controllers
    name that the constants file at hand does not list. *)

Inductive ResponseType : Type :=
| SUCCESSFUL | PASSWORD_RESETTED | CONNECTION_SUCCESSFUL
| SESSION_CREATED | ACCOUNT_CREATED | CREATED | DELETED
| EMAIL_VERIFIED | SESSION_DELETED | ACCOUNT_DELETED
| TOKEN_EXPIRED | REFRESH_TOKEN_EXPIRED | ACCESS_TOKEN_EXPIRED
| TOKEN_INVALID | REFRESH_TOKEN_INVALID | ACCESS_TOKEN_INVALID
| INVALID_API_KEY | UNSUSCCESSFUL | ALREADY_EXISTS | INVALID_FORMAT
| INCORRECT_PASSWORD | VALIDATION_ERROR | ADMIN_PERMISSION_REQUIRED | NOT_FOUND
| ACCOUNT_LOCKED | API_LIMIT_EXCEEDED | DATABASE_ERROR | SERVER_ERROR
| SERVICE_UNAVAILABLE.

(** What a handler can throw: an [ApiError] of some response type, the
    [TypeError] of reading a property of [null] or [undefined], or the
    driver's duplicate-key error. *)
Inductive Exn : Type :=
| ApiError (t : ResponseType)
| TypeError
| MongoServerError.

Inductive Result (A : Type) : Type :=
| Ok (a : A)
| Throw (e : Exn).
Arguments Ok {A} a.
Arguments Throw {A} e.

(** ** Documents *)

(** An [_id], and every reference to one, as the text of the ObjectId.  The
    ids a handler receives are taken to be ones the driver can cast. *)
Abbreviation ObjectId := string.

Record Admin : Type := mkAdmin {
  admin_name : string;
  admin_email : string;
  admin_password : string;
  refreshToken : Js.nullable string;
  refreshTokenExpiry : Js.nullable Z;
  accessToken : Js.nullable string;
  accessTokenExpiry : Js.nullable Z;
  verificationToken : Js.nullable string;
  verificationTokenExpiry : Js.nullable Z;
  resetPasswordToken : Js.nullable string;
  resetPasswordTokenExpiry : Js.nullable Z
}.

Record Security : Type := mkSecurity {
  userLimit : Z;
  userSessionLimit : Z
}.

Record Config : Type := mkConfig {
  loginMethods : gmap string bool;
  security : Security;
  emailTemplates : gmap string string
}.

Record Project : Type := mkProject {
  projectName : string;
  owner : ObjectId;
  appName : string;
  appEmail : string;
  config : Config;
  projectKey : string
}.

Record User : Type := mkUser {
  user_projectId : ObjectId;
  user_email : string;
  user_password : string;
  isVerified : bool
}.

Record Session : Type := mkSession {
  session_userId : ObjectId;
  session_projectId : ObjectId;
  session_accessToken : string;
  session_refreshToken : string
}.

Record Log : Type := mkLog {
  log_projectId : ObjectId;
  log_userId : option ObjectId;
  log_eventCode : string;
  log_createdAt : Z
}.

(** The database: one finite map per collection, keyed by [_id]. *)
Record Store : Type := mkStore {
  admins : gmap ObjectId Admin;
  projects : gmap ObjectId Project;
  users : gmap ObjectId User;
  sessions : gmap ObjectId Session;
  logs : gmap ObjectId Log
}.

(** ** The handler monad: state and exceptions *)

Definition Handler (A : Type) : Type := Store -> Result A * Store.

Definition ret {A} (a : A) : Handler A := fun s => (Ok a, s).

Definition throw {A} (e : Exn) : Handler A := fun s => (Throw e, s).

Definition bind {A B} (m : Handler A) (k : A -> Handler B) : Handler B :=
  fun s =>
    match m s with
    | (Ok a, s') => k a s'
    | (Throw e, s') => (Throw e, s')
    end.

Declare Scope handler_scope.
Delimit Scope handler_scope with handler.
Notation "x <- m ;; k" := (bind m (fun x => k))
  (at level 100, m at next level, right associativity) : handler_scope.
Notation "m ;;; k" := (bind m (fun _ => k))
  (at level 100, right associativity) : handler_scope.

(** [if (c) throw new ApiError(t.code, t.type, ...)]. *)
Definition throw_if (c : bool) (t : ResponseType) : Handler unit :=
  if c then throw (ApiError t) else ret tt.

Definition get {A} (f : Store -> A) : Handler A := fun s => (Ok (f s), s).

Definition modify (f : Store -> Store) : Handler unit := fun s => (Ok tt, f s).

(** ** Writes of the deletion cascade *)

(** The four awaited calls of a cascade, each one write to one
    collection. *)
Inductive DbWrite : Type :=
| Project_findByIdAndDelete (projectId : ObjectId)
| User_deleteMany (projectId : ObjectId)
| Session_deleteMany (projectId : ObjectId)
| Log_deleteMany (projectId : ObjectId).

Definition exec (w : DbWrite) (s : Store) : Store :=
  match w with
  | Project_findByIdAndDelete p =>
      mkStore (admins s) (delete p (projects s)) (users s) (sessions s) (logs s)
  | User_deleteMany p =>
      mkStore (admins s) (projects s)
        (filter (fun kv => user_projectId kv.2 <> p) (users s))
        (sessions s) (logs s)
  | Session_deleteMany p =>
      mkStore (admins s) (projects s) (users s)
        (filter (fun kv => session_projectId kv.2 <> p) (sessions s))
        (logs s)
  | Log_deleteMany p =>
      mkStore (admins s) (projects s) (users s) (sessions s)
        (filter (fun kv => log_projectId kv.2 <> p) (logs s))
  end.

(** Awaiting the writes one after the other. *)
Definition run_writes (ws : list DbWrite) (s : Store) : Store :=
  fold_left (fun s w => exec w s) ws s.

(** The sequence of [deleteProject]: the project document first, then its
    users, sessions and logs. *)
Definition cascade (projectId : ObjectId) : list DbWrite :=
  [ Project_findByIdAndDelete projectId;
    User_deleteMany projectId;
    Session_deleteMany projectId;
    Log_deleteMany projectId ].

(** What a reply carries. *)
Inductive Payload : Type :=
| Empty
| OfProject (p : Project)
| OfAdmin (a : Admin)
| OfUser (u : User) (sessionCount : nat) (ss : list (ObjectId * Session))
| OfLogs (page : list Log).

Record Reply : Type := mkReply {
  status : ResponseType;
  data : Payload
}.

(** ** [project.controller]: deleteProject *)

Definition deleteProject (projectId : option ObjectId) : Handler Reply :=
  (throw_if (Js.falsy projectId) INVALID_FORMAT ;;;
   modify (run_writes (cascade (default "" projectId))) ;;;
   ret (mkReply DELETED Empty))%handler.

(** No document of project [p] is left in any of the four collections. *)
Definition purged (p : ObjectId) (s : Store) : Prop :=
  projects s !! p = None /\
  (forall i u, users s !! i = Some u -> user_projectId u <> p) /\
  (forall i x, sessions s !! i = Some x -> session_projectId x <> p) /\
  (forall i l, logs s !! i = Some l -> log_projectId l <> p).

(** The state a cascade is in when it stops after [k] writes. *)
Definition stopped_after (k : nat) (p : ObjectId) (s : Store) : Store :=
  run_writes (take k (cascade p)) s.

(** ** Imports whose source is not part of the tree

    The handlers call validators, token helpers and the log feature of
    modules that are imported but not present.  They enter as the fields of
    one class; the handlers are generic in it. *)

(** The object handed to [validateLogInput]: a key can be left out of the
    object literal, or be there with an [undefined] value. *)
Inductive Key (A : Type) : Type :=
| absent
| present (v : option A).
Arguments absent {A}.
Arguments present {A} v.

Record LogInput : Type := mkLogInput {
  li_eventCode : Key string;
  li_page : option Z;
  li_itemLimit : option Z;
  li_startDate : option Z;
  li_endDate : option Z;
  li_projectId : Key ObjectId;
  li_userId : Key ObjectId
}.

(** The argument object of the three [securityLog] queries. *)
Record LogQuery : Type := mkLogQuery {
  q_projectId : option ObjectId;
  q_userId : option ObjectId;
  q_eventCode : option string;
  q_page : option Z;
  q_queryItemCount : option Z;
  q_startDate : option Z;
  q_endDate : option Z
}.

(** The payload [jwt.decode] returns. *)
Record Claims : Type := mkClaims {
  claim_adminId : option string
}.

Class External : Type := {
  (* schema/zod.schema: [Z*.safeParse(x).success] *)
  ZProjectName : string -> bool;
  ZAppName : string -> bool;
  ZEmail : string -> bool;
  (* utils/project-config-validator: the error it throws, if any *)
  validateProjectConfig : Config -> option Exn;
  (* jsonwebtoken: [jwt.sign({projectId, owner}, env.secret.projectKeyGeneration)] *)
  signProjectKey : ObjectId -> ObjectId -> string;
  (* jsonwebtoken: [jwt.decode(token)], [None] for [null] *)
  jwt_decode : string -> option Claims;
  (* utils/token-generator: [generateToken({adminId, email}, secret, expiry)]
     with the access-token secret and expiry *)
  generateAccessToken : ObjectId -> string -> string;
  (* types/model-types/project.types: [Object.values(EmailTemplateName)] *)
  EmailTemplateName : list string;
  (* types/types: the members of [EventCode] *)
  EventCode : list string;
  (* schema/validation: [validateLogInput(x).success] *)
  validateLogInput : LogInput -> bool;
  (* features/security-log *)
  getLogsByUserID : LogQuery -> Store -> list Log;
  getAllLogsByEvent : LogQuery -> Store -> list Log;
  getUserLogsByEvent : LogQuery -> Store -> list Log
}.

(** ** Collection reads *)

(** [Model.findOne(filter)]: a document that matches, if there is one. *)
Definition findOne {A} (P : ObjectId * A -> Prop) `{!forall x, Decision (P x)}
    (m : gmap ObjectId A) : option (ObjectId * A) :=
  head (map_to_list (filter P m)).

(** [Project.aggregate([{$match: {owner}}, {$project: {_id: 1}}])]. *)
Definition owned_ids (adminId : ObjectId) (s : Store) : list ObjectId :=
  (map_to_list (filter (fun kv => owner kv.2 = adminId) (projects s))).*1.

(** ** [project.controller] *)

Record ProjectBody : Type := mkProjectBody {
  body_projectName : option string;
  body_config : option Config;
  body_appName : option string;
  body_appEmail : option string
}.

(** [!x.trim()]: reading [trim] of [undefined] throws. *)
Definition blank (x : option string) : Handler bool :=
  match x with
  | None => throw TypeError
  | Some x => ret (Js.falsy (Some (Js.trim x)))
  end.

(** [a || b] where both sides may throw: [b] runs only if [a] is false. *)
Definition orelse (a b : Handler bool) : Handler bool :=
  (x <- a ;; if x : bool then ret true else b)%handler.

Definition set_projectKey (k : string) (p : Project) : Project :=
  mkProject (projectName p) (owner p) (appName p) (appEmail p) (config p) k.

Definition set_config (c : Config) (p : Project) : Project :=
  mkProject (projectName p) (owner p) (appName p) (appEmail p) c (projectKey p).

Definition put_project (i : ObjectId) (p : Project) (s : Store) : Store :=
  mkStore (admins s) (<[i := p]> (projects s)) (users s) (sessions s) (logs s).

Section Controllers.

Context {E : External}.

(** [createProject]; [newId] is the [_id] the driver gives the new
    document and [rnd] the text of [Math.random()].  [Project.create] on
    an [_id] the collection already holds is the driver's duplicate-key
    error. *)
Definition createProject (adminId : ObjectId) (body : ProjectBody)
    (newId : ObjectId) (rnd : string) : Handler Reply :=
  (missing <- orelse (blank (body_projectName body))
                (orelse (blank (body_appName body))
                        (blank (body_appEmail body))) ;;
   throw_if missing NOT_FOUND ;;;
   match body_config body with
   | None => throw (ApiError INVALID_FORMAT)
   | Some cfg =>
       let pName := default "" (body_projectName body) in
       let aName := default "" (body_appName body) in
       let aEmail := default "" (body_appEmail body) in
       throw_if (negb (ZProjectName pName)) INVALID_FORMAT ;;;
       throw_if (negb (ZAppName aName)) INVALID_FORMAT ;;;
       throw_if (negb (ZEmail aEmail)) INVALID_FORMAT ;;;
       match validateProjectConfig cfg with
       | Some e => throw e
       | None =>
           projectFromDB <- get (fun s =>
             findOne (fun kv => projectName kv.2 = pName
                                /\ owner kv.2 = adminId) (projects s)) ;;
           throw_if (bool_decide (is_Some projectFromDB)) ALREADY_EXISTS ;;;
           let createdProject :=
             mkProject pName adminId aName aEmail cfg
               ("temporary-project-key-" +:+ rnd) in
           taken <- get (fun s => bool_decide (is_Some (projects s !! newId))) ;;
           (if taken : bool then throw MongoServerError else ret tt) ;;;
           modify (put_project newId createdProject) ;;;
           let createdProject :=
             set_projectKey (signProjectKey newId adminId) createdProject in
           modify (put_project newId createdProject) ;;;
           ret (mkReply CREATED (OfProject createdProject))
       end
   end)%handler.

(** [resetEmailTemplateToDefault]; [projectId] is [req.project.id] as
    the project-validation middleware left it. *)
Definition resetEmailTemplateToDefault (projectId : ObjectId)
    (emailTemplate : string) : Handler Reply :=
  (throw_if (negb (bool_decide (emailTemplate ∈ EmailTemplateName)))
     INVALID_FORMAT ;;;
   projectFromDB <- get (fun s => projects s !! projectId) ;;
   let emailTemplatesObject :=
     default ∅ ((fun p => emailTemplates (config p)) <$> projectFromDB) in
   let updatedEmailTemplates := delete emailTemplate emailTemplatesObject in
   match projectFromDB with
   | None => throw TypeError
   | Some p =>
       let c := config p in
       modify (put_project projectId
                 (set_config (mkConfig (loginMethods c) (security c)
                                updatedEmailTemplates) p)) ;;;
       ret (mkReply SUCCESSFUL Empty)
   end)%handler.

End Controllers.

(** [resetSecuritySettingToDefault]. *)
Definition resetSecuritySettingToDefault (projectId : ObjectId) : Handler Reply :=
  (projectFromDB <- get (fun s => projects s !! projectId) ;;
   match projectFromDB with
   | None => throw TypeError
   | Some p =>
       let c := config p in
       modify (put_project projectId
                 (set_config (mkConfig (loginMethods c) (mkSecurity 1000 5)
                                (emailTemplates c)) p)) ;;;
       ret (mkReply SUCCESSFUL Empty)
   end)%handler.

(** [deleteAllProjects].  [forEach] calls the async callback once per
    project and drops the promise it returns; the handler then goes on to
    send the reply in the same turn of the event loop.  What it leaves
    behind is one detached chain of awaited writes per project, none of
    which has run when the reply is sent, and whose rejection no one
    handles. *)
Record Detached : Type := mkDetached {
  sent : Result Reply * Store;
  pending : list (list DbWrite)
}.

Definition deleteAllProjects (adminId : ObjectId) (s : Store) : Detached :=
  let allProjectIDs := owned_ids adminId s in
  mkDetached (Ok (mkReply DELETED Empty), s) (map cascade allProjectIDs).

(** The store once every detached chain has run to its end, one chain
    after the other. *)
Definition settle (chains : list (list DbWrite)) (s : Store) : Store :=
  fold_left (fun s ws => run_writes ws s) chains s.

(** One turn of the event loop after the reply.  Some pending chain is
    resumed: its next write is done, or that write is rejected, which ends
    the chain there with a rejection that no one handles.  The chains of
    different projects interleave in any order. *)
Inductive turn : Store * list (list DbWrite) -> Store * list (list DbWrite) -> Prop :=
| turn_write s pre w ws post :
    turn (s, pre ++ (w :: ws) :: post) (exec w s, pre ++ ws :: post)
| turn_reject s pre w ws post :
    turn (s, pre ++ (w :: ws) :: post) (s, pre ++ [] :: post).

(** The turns in which no write is rejected. *)
Inductive advance : Store * list (list DbWrite) -> Store * list (list DbWrite) -> Prop :=
| advance_write s pre w ws post :
    advance (s, pre ++ (w :: ws) :: post) (exec w s, pre ++ ws :: post).

(** How far the cascade of [p] has got in [s] when [k] of its writes are
    done. *)
Definition progress (k : nat) (p : ObjectId) (s : Store) : Prop :=
  ((1 <= k)%nat -> projects s !! p = None) /\
  ((2 <= k)%nat -> forall i u, users s !! i = Some u -> user_projectId u <> p) /\
  ((3 <= k)%nat -> forall i x, sessions s !! i = Some x -> session_projectId x <> p) /\
  ((4 <= k)%nat -> forall i l, logs s !! i = Some l -> log_projectId l <> p).

(** Each pending chain is what is left of the cascade of its project, and
    the store shows the writes already done. *)
Definition in_flight (ids : list ObjectId) (c : Store * list (list DbWrite)) : Prop :=
  Forall2 (fun p ws => exists k, ws = drop k (cascade p) /\ progress k p c.1)
    ids c.2.

(** ** [admin.controller] *)

Definition put_admin (i : ObjectId) (a : Admin) (s : Store) : Store :=
  mkStore (<[i := a]> (admins s)) (projects s) (users s) (sessions s) (logs s).

Definition put_user (i : ObjectId) (u : User) (s : Store) : Store :=
  mkStore (admins s) (projects s) (<[i := u]> (users s)) (sessions s) (logs s).

(** The update document of [deleteLoginSession]. *)
Definition clear_tokens (a : Admin) : Admin :=
  mkAdmin (admin_name a) (admin_email a) (admin_password a)
    Js.null Js.null Js.null Js.null
    (verificationToken a) (verificationTokenExpiry a)
    (resetPasswordToken a) (resetPasswordTokenExpiry a).

(** [deleteLoginSession]: [Admin.findByIdAndUpdate(adminId, {...: null})]. *)
Definition deleteLoginSession (adminId : ObjectId) : Handler Reply :=
  (modify (fun s =>
     mkStore (alter clear_tokens adminId (admins s)) (projects s) (users s)
       (sessions s) (logs s)) ;;;
   ret (mkReply SESSION_DELETED Empty))%handler.

(** [.select("-password")] and [filterObject(doc, [], ["password"])].  A
    field that a projection leaves out of a document is shown empty: the
    empty text, or [undefined]. *)
Definition without_password (a : Admin) : Admin :=
  mkAdmin (admin_name a) (admin_email a) ""
    (refreshToken a) (refreshTokenExpiry a) (accessToken a) (accessTokenExpiry a)
    (verificationToken a) (verificationTokenExpiry a)
    (resetPasswordToken a) (resetPasswordTokenExpiry a).

Definition set_access (t : string) (e : Z) (a : Admin) : Admin :=
  mkAdmin (admin_name a) (admin_email a) (admin_password a)
    (refreshToken a) (refreshTokenExpiry a) (Js.val t) (Js.val e)
    (verificationToken a) (verificationTokenExpiry a)
    (resetPasswordToken a) (resetPasswordTokenExpiry a).

Record RefreshRequest : Type := mkRefreshRequest {
  authorization : option string;
  cookie_admin_refresh_token : option string
}.

(** The refresh token the request presents:
    [authorization?.replace("Bearer ", "") || cookies["admin-refresh-token"]]. *)
Definition presented (req : RefreshRequest) : option string :=
  Js.or_else (Js.remove_first "Bearer " <$> authorization req)
             (cookie_admin_refresh_token req).

Definition day : Z := 24 * 60 * 60 * 1000.

Section AdminControllers.

Context {E : External}.

(** [refreshAccessToken]; [now] and [now'] are the two readings of
    [new Date()], at the expiry test and at the minting. *)
Definition refreshAccessToken (req : RefreshRequest) (now now' : Z)
    : Handler Reply :=
  (let refreshToken := presented req in
   throw_if (Js.falsy refreshToken) REFRESH_TOKEN_INVALID ;;;
   let decodedToken := jwt_decode (default "" refreshToken) in
   throw_if (Js.falsy (decodedToken ≫= claim_adminId)) REFRESH_TOKEN_INVALID ;;;
   let adminId := default "" (decodedToken ≫= claim_adminId) in
   adminFromDB <- get (fun s => admins s !! adminId) ;;
   match adminFromDB with
   | None => throw (ApiError NOT_FOUND)
   | Some a =>
       throw_if (Js.date_lt (refreshTokenExpiry a) now) REFRESH_TOKEN_EXPIRED ;;;
       let accessToken := generateAccessToken adminId (admin_email a) in
       let accessTokenExpiry := now' + day in
       let a' := set_access accessToken accessTokenExpiry a in
       modify (put_admin adminId a') ;;;
       ret (mkReply SUCCESSFUL (OfAdmin (without_password a')))
   end)%handler.

End AdminControllers.

(** [.select("-password")] on a user. *)
Definition user_without_password (u : User) : User :=
  mkUser (user_projectId u) (user_email u) "" (isVerified u).

(** The [$project] stage of the session pipeline: [projectId],
    [accessToken] and [refreshToken] are left out. *)
Definition session_shown (x : Session) : Session :=
  mkSession (session_userId x) "" "" "".

(** [getUserFromConsole]; [projectId] is [req.project.id], [userId] is
    [req.params.userId]. *)
Definition getUserFromConsole (projectId : ObjectId) (userId : option string)
    : Handler Reply :=
  (throw_if (Js.falsy userId) NOT_FOUND ;;;
   let userId := default "" userId in
   userFromDB <- get (fun s => users s !! userId) ;;
   match userFromDB with
   | None => throw (ApiError NOT_FOUND)
   | Some u =>
       let userFromDB := user_without_password u in
       sessionsFromDB <- get (fun s =>
         prod_map id session_shown
           <$> map_to_list (filter (fun kv => session_userId kv.2 = userId)
                              (sessions s))) ;;
       ret (mkReply SUCCESSFUL
              (OfUser userFromDB (length sessionsFromDB) sessionsFromDB))
   end)%handler.

Definition set_verified (u : User) : User :=
  mkUser (user_projectId u) (user_email u) (user_password u) true.

(** [verifyUserFromConsole]; [userId] and [email] come from the request
    body.  A key enters the filter only if its value is truthy. *)
Definition verifyUserFromConsole (projectId : ObjectId)
    (userId email : option string) : Handler Reply :=
  (throw_if (Js.falsy userId && Js.falsy email) NOT_FOUND ;;;
   userFromDB <- get (fun s =>
     findOne (fun kv => (Js.falsy userId = false -> Some kv.1 = userId)
                        /\ (Js.falsy email = false -> Some (user_email kv.2) = email))
       (users s)) ;;
   match userFromDB with
   | None => throw (ApiError NOT_FOUND)
   | Some (i, u) =>
       modify (put_user i (set_verified u)) ;;;
       ret (mkReply SUCCESSFUL Empty)
   end)%handler.

(** ** [security-log.controller] *)

Record LogBody : Type := mkLogBody {
  body_userId : option ObjectId;
  body_page : option Z;
  body_itemLimit : option Z;
  body_startDate : option Z;
  body_endDate : option Z
}.

(** What the middlewares and the parsers leave on the request. *)
Record LogRequest : Type := mkLogRequest {
  req_user_id : option ObjectId;
  req_project_id : option ObjectId;
  req_query_eventCode : option string;
  req_body : LogBody
}.

(** The object each handler passes to [validateLogInput], and the one it
    passes to the query, from the request. *)
Module Args.

(** [let userId = req.user?.id; if (!userId) userId = req.body.userId]. *)
Definition userId (req : LogRequest) : option ObjectId :=
  if Js.falsy (req_user_id req) then body_userId (req_body req)
  else req_user_id req.

Definition input_byUser (req : LogRequest) : LogInput :=
  let b := req_body req in
  mkLogInput absent (body_page b) (body_itemLimit b)
    (body_startDate b) (body_endDate b) absent (present (userId req)).

Definition query_byUser (req : LogRequest) : LogQuery :=
  let b := req_body req in
  mkLogQuery (req_project_id req) (userId req) None
    (body_page b) (body_itemLimit b) (body_startDate b) (body_endDate b).

Definition input_byEvent (req : LogRequest) : LogInput :=
  let b := req_body req in
  mkLogInput (present (req_query_eventCode req)) (body_page b) (body_itemLimit b)
    (body_startDate b) (body_endDate b) (present (req_project_id req)) absent.

Definition query_byEvent (req : LogRequest) : LogQuery :=
  let b := req_body req in
  mkLogQuery (req_project_id req) None (req_query_eventCode req)
    (body_page b) (body_itemLimit b) (body_startDate b) (body_endDate b).

Definition input_byUserEvent (req : LogRequest) : LogInput :=
  let b := req_body req in
  mkLogInput (present (req_query_eventCode req)) (body_page b) (body_itemLimit b)
    (body_startDate b) (body_endDate b) (present (req_project_id req))
    (present (req_user_id req)).

Definition query_byUserEvent (req : LogRequest) : LogQuery :=
  let b := req_body req in
  mkLogQuery (req_project_id req) (req_user_id req) (req_query_eventCode req)
    (body_page b) (body_itemLimit b) (body_startDate b) (body_endDate b).

End Args.

Section LogControllers.

Context {E : External}.

(** [getLogsByUserId]: the user id of the user-auth middleware, or else
    the one in the body. *)
Definition getLogsByUserId (req : LogRequest) : Handler Reply :=
  (throw_if (negb (validateLogInput (Args.input_byUser req)))
     VALIDATION_ERROR ;;;
   logsFromDB <- get (getLogsByUserID (Args.query_byUser req)) ;;
   ret (mkReply SUCCESSFUL (OfLogs logsFromDB)))%handler.

(** [getLogsByEventCode]: the event code is [req.query.eventCode]. *)
Definition getLogsByEventCode (req : LogRequest) : Handler Reply :=
  (throw_if (Js.falsy (req_query_eventCode req)) NOT_FOUND ;;;
   throw_if (negb (validateLogInput (Args.input_byEvent req)))
     VALIDATION_ERROR ;;;
   logsFromDB <- get (getAllLogsByEvent (Args.query_byEvent req)) ;;
   ret (mkReply SUCCESSFUL (OfLogs logsFromDB)))%handler.

(** [getUserLogsByEventCode]: the user id is the one of the user-auth
    middleware. *)
Definition getUserLogsByEventCode (req : LogRequest) : Handler Reply :=
  (throw_if (Js.falsy (req_query_eventCode req)) NOT_FOUND ;;;
   throw_if (negb (validateLogInput (Args.input_byUserEvent req)))
     VALIDATION_ERROR ;;;
   logsFromDB <- get (getUserLogsByEvent (Args.query_byUserEvent req)) ;;
   ret (mkReply SUCCESSFUL (OfLogs logsFromDB)))%handler.

End LogControllers.

(** A log document answers a query when the project, the user and the
    event code the query names are its own. *)
Definition answers (q : LogQuery) (l : Log) : bool :=
  match q_projectId q with
  | Some p => bool_decide (log_projectId l = p)
  | None => true
  end
  && match q_userId q with
     | Some u => bool_decide (log_userId l = Some u)
     | None => true
     end
  && match q_eventCode q with
     | Some c => bool_decide (log_eventCode l = c)
     | None => true
     end.

(** No document of the collection answers the query. *)
Definition no_rows (q : LogQuery) (s : Store) : Prop :=
  forall i l, logs s !! i = Some l -> answers q l = false.

(** ** The absent modules, after the specification *)

Module Model.

(** Modelled from the spec: the access-token check of the admin-auth
    middleware ([middlewares/admin-auth]), which is imported by the routes
    but is not in the tree.  A presented token is validated against the
    admin record: it must be the stored access token, and the stored
    expiry, not the one the token encodes, must not have passed. *)
Definition stored_access_valid (a : Admin) (token : string) (now : Z) : bool :=
  match accessToken a, accessTokenExpiry a with
  | Js.val t, Js.val e => bool_decide (t = token) && (now <? e)
  | _, _ => false
  end.

(** Modelled from the spec: [validateLogInput] of [schema/validation].
    [page] and [itemLimit] are positive, [endDate] is not before
    [startDate], an event code that is passed is a member of
    [EventCode], and a user id that is passed is not [undefined]. *)
Definition validate (codes : list string) (i : LogInput) : bool :=
  match li_page i, li_itemLimit i with
  | Some p, Some n => (0 <? p) && (0 <? n)
  | _, _ => false
  end
  && match li_startDate i, li_endDate i with
     | Some a, Some b => a <=? b
     | _, _ => true
     end
  && match li_eventCode i with
     | absent => true
     | present None => false
     | present (Some c) => bool_decide (c ∈ codes)
     end
  && match li_userId i with
     | present None => false
     | _ => true
     end.

(** Modelled from the spec: the optional, inclusive bounds [startDate] and
    [endDate] of a query of [features/security-log]. *)
Definition in_range (q : LogQuery) (l : Log) : bool :=
  match q_startDate q with
  | Some a => a <=? log_createdAt l
  | None => true
  end
  && match q_endDate q with
     | Some b => log_createdAt l <=? b
     | None => true
     end.

(** Modelled from the spec: the order of a page of
    [features/security-log], by timestamp descending. *)
Definition newer (a b : Log) : Prop := log_createdAt b <= log_createdAt a.

#[local] Instance newer_dec : RelDecision newer :=
  fun a b => decide (log_createdAt b <= log_createdAt a).

(** Modelled from the spec: the queries of [features/security-log].  The
    documents that answer the query within the inclusive date bounds,
    newest first, cut to the 1-indexed page. *)
Definition query (q : LogQuery) (s : Store) : list Log :=
  let rows :=
    List.filter (fun l => answers q l && in_range q l)
      (map_to_list (logs s)).*2 in
  let sorted := merge_sort newer rows in
  let n := Z.to_nat (default 0 (q_queryItemCount q)) in
  let p := Z.to_nat (default 1 (q_page q) - 1) in
  take n (drop (p * n)%nat sorted).

(** Modelled from the spec: the enumeration [EventCode] of [types/types]
    is not in the tree; three event codes stand for its members. *)
Definition codes : list string :=
  ["PASSWORD_LOGIN"; "LOGOUT"; "PASSWORD_RESET"].

(** Modelled from the spec: the enumeration [EmailTemplateName] of
    [types/model-types/project.types] is not in the tree; [welcome], which
    the specification names, and two more stand for its members. *)
Definition templates : list string :=
  ["welcome"; "userVerification"; "resetPassword"].

(** Modelled from the spec: [ZProjectName] and [ZAppName] of
    [schema/zod.schema]; a name is non-empty and trimmed. *)
Definition name_ok (x : string) : bool :=
  negb (bool_decide (x = "")) && bool_decide (Js.trim x = x).

(** Modelled from the spec: [ZEmail] of [schema/zod.schema]; an address
    has an [@] in it. *)
Definition email_ok (x : string) : bool :=
  negb (bool_decide (Js.remove_first "@" x = x)).

(** Modelled from the spec: [validateProjectConfig] of
    [utils/project-config-validator]; the two security limits are
    positive, or the configuration is refused as [INVALID_FORMAT]. *)
Definition config_ok (c : Config) : option Exn :=
  if (0 <? userLimit (security c)) && (0 <? userSessionLimit (security c))
  then None else Some (ApiError INVALID_FORMAT).

(** Modelled from the spec: [jwt.decode] for the tokens of
    [utils/token-generator], taken to be [jwt.] followed by the admin id
    they claim. *)
Definition decode (t : string) : option Claims :=
  (fun i => mkClaims (Some i)) <$> Js.strip_prefix "jwt." t.

(** Modelled from the spec: the absent imports together, as one instance
    of the class the handlers are generic in. *)
Definition ext : External := {|
  ZProjectName := name_ok;
  ZAppName := name_ok;
  ZEmail := email_ok;
  validateProjectConfig := config_ok;
  signProjectKey := fun p o => "key." +:+ p +:+ "." +:+ o;
  jwt_decode := decode;
  generateAccessToken := fun i e => "jwt." +:+ i;
  EmailTemplateName := templates;
  EventCode := codes;
  validateLogInput := validate codes;
  getLogsByUserID := query;
  getAllLogsByEvent := query;
  getUserLogsByEvent := query
|}.

End Model.

(** ** A small database for the examples

    Two admins, each owning a project named [shop]; one user, one session
    and one log per project. *)

Module Sample.

Definition alice : Admin :=
  mkAdmin "Alice" "alice@example.org" "hash-a"
    (Js.val "jwt.a1") (Js.val 5000000) (Js.val "jwt.a1") (Js.val 2000000)
    (Js.val "vt-a") (Js.val 3000000) Js.undefined Js.undefined.

Definition bob : Admin :=
  mkAdmin "Bob" "bob@example.org" "hash-b"
    Js.undefined Js.undefined Js.undefined Js.undefined
    Js.undefined Js.undefined Js.undefined Js.undefined.

Definition cfg : Config :=
  mkConfig {[ "emailPassword" := true ]} (mkSecurity 50 2)
    {[ "welcome" := "Hello!"; "resetPassword" := "Reset it" ]}.

Definition shop1 : Project :=
  mkProject "shop" "a1" "Shop" "shop@example.org" cfg "key.p1.a1".

Definition shop2 : Project :=
  mkProject "shop" "a2" "Shop" "shop@example.com" cfg "key.p2.a2".

Definition u1 : User := mkUser "p1" "ann@example.org" "hash-1" false.
Definition u2 : User := mkUser "p2" "ben@example.org" "hash-2" false.

Definition s1 : Session := mkSession "u1" "p1" "at-1" "rt-1".
Definition s2 : Session := mkSession "u2" "p2" "at-2" "rt-2".

Definition l1 : Log := mkLog "p1" (Some "u1") "PASSWORD_LOGIN" 1000.
Definition l2 : Log := mkLog "p2" (Some "u2") "PASSWORD_LOGIN" 2000.

Definition db : Store :=
  mkStore {[ "a1" := alice; "a2" := bob ]}
          {[ "p1" := shop1; "p2" := shop2 ]}
          {[ "u1" := u1; "u2" := u2 ]}
          {[ "s1" := s1; "s2" := s2 ]}
          {[ "l1" := l1; "l2" := l2 ]}.

Definition body (name : string) : ProjectBody :=
  mkProjectBody (Some name) (Some cfg) (Some "Shop") (Some "shop@example.org").

(** The same database after the first admin has opened a second project,
    [p3], with a user, a session and a log of its own. *)
Definition shop3 : Project :=
  mkProject "store" "a1" "Store" "store@example.org" cfg "key.p3.a1".

Definition u3 : User := mkUser "p3" "cat@example.org" "hash-3" false.

Definition s3 : Session := mkSession "u3" "p3" "at-3" "rt-3".

Definition l3 : Log := mkLog "p3" (Some "u3") "PASSWORD_LOGIN" 3000.

Definition db3 : Store :=
  mkStore {[ "a1" := alice; "a2" := bob ]}
          {[ "p1" := shop1; "p2" := shop2; "p3" := shop3 ]}
          {[ "u1" := u1; "u2" := u2; "u3" := u3 ]}
          {[ "s1" := s1; "s2" := s2; "s3" := s3 ]}
          {[ "l1" := l1; "l2" := l2; "l3" := l3 ]}.

(** An order in which the event loop can run the writes of the two
    chains that [deleteAllProjects] starts for the first admin on [db3]:
    the chains of [p1] and [p3] take turns. *)
Definition taking_turns : list DbWrite :=
  [ Project_findByIdAndDelete "p1"; Project_findByIdAndDelete "p3";
    User_deleteMany "p3"; User_deleteMany "p1";
    Session_deleteMany "p1"; Session_deleteMany "p3";
    Log_deleteMany "p3"; Log_deleteMany "p1" ].

Definition log_body : LogBody := mkLogBody None (Some 1) (Some 10) None None.

End Sample.

(** ** Properties the statements speak of *)

(** Project [p] has no document, yet a user, a session or a log still
    names it. *)
Definition orphaned (p : ObjectId) (s : Store) : Prop :=
  projects s !! p = None /\
  ((exists i u, users s !! i = Some u /\ user_projectId u = p) \/
   (exists i x, sessions s !! i = Some x /\ session_projectId x = p) \/
   (exists i l, logs s !! i = Some l /\ log_projectId l = p)).

(** No two project documents share owner and name. *)
Definition unique_names (s : Store) : Prop :=
  forall i j p q,
    projects s !! i = Some p -> projects s !! j = Some q ->
    owner p = owner q -> projectName p = projectName q -> i = j.

(** The body passes every check that [createProject] makes before it reads
    the database. *)
Definition accepted `{External} (body : ProjectBody)
    (pName aName aEmail : string) (cfg : Config) : Prop :=
  body = mkProjectBody (Some pName) (Some cfg) (Some aName) (Some aEmail) /\
  Js.trim pName <> "" /\ Js.trim aName <> "" /\ Js.trim aEmail <> "" /\
  ZProjectName pName = true /\ ZAppName aName = true /\ ZEmail aEmail = true /\
  validateProjectConfig cfg = None.

(** The four token fields of an admin document are [null]. *)
Definition tokens_null (a : Admin) : Prop :=
  refreshToken a = Js.null /\ refreshTokenExpiry a = Js.null /\
  accessToken a = Js.null /\ accessTokenExpiry a = Js.null.

Definition empty_db : Store := mkStore ∅ ∅ ∅ ∅ ∅.

(** Modelled from the spec: what the specification asks of the absent
    [validateLogInput] about event codes.  It rejects an event code that
    is not a member of [EventCode]. *)
Definition rejects_unknown_codes `{External} : Prop :=
  forall i c,
    li_eventCode i = present (Some c) -> c ∉ EventCode ->
    validateLogInput i = false.

(** Modelled from the spec: what the specification asks of the absent
    [validateLogInput] about user ids.  It rejects the input of a
    user-scoped query, the one that passes a [userId], when that user id
    is [undefined]. *)
Definition rejects_missing_user `{External} : Prop :=
  forall i, li_userId i = present None -> validateLogInput i = false.

(** Modelled from the spec: what the specification asks of the absent
    queries of [securityLog].  A page holds documents of the collection
    that answer the query. *)
Definition pages_hold_rows `{External} : Prop :=
  forall q s l,
    l ∈ getLogsByUserID q s \/ l ∈ getAllLogsByEvent q s
    \/ l ∈ getUserLogsByEvent q s ->
    exists i, logs s !! i = Some l /\ answers q l = true.

(** * The other handlers of the controllers *)

(** ** Their imports whose source is not part of the tree *)

Class Imports : Type := {
  (* schema/validation: [validateSignupInput({username, password, email}).success],
     the user name being left out by the login handler *)
  validateSignupInput : option string -> string -> string -> bool;
  (* models/admin.model: what the model stores for a password it is given *)
  storedPassword : string -> string;
  (* models/admin.model: [doc.validatePassword(candidate)] on the stored one *)
  validatePassword : string -> string -> bool;
  (* utils/token-generator: [generateToken({adminId, email}, secret, expiry)]
     with the refresh-token secret and expiry *)
  generateRefreshToken : ObjectId -> string -> string;
  (* utils/project-config-validator: the error each one throws, if any *)
  validateLoginMethods : gmap string bool -> option Exn;
  validateSecurityObject : gmap string Z -> option Exn;
  validateEmailTemplates : gmap string string -> option Exn;
  (* models/project.model: what the schema stores for [config.security] *)
  castSecurity : gmap string Z -> Security
}.

(** A reply whose payload is not one of [Payload]. *)
Record Answer (A : Type) : Type := mkAnswer {
  answer_status : ResponseType;
  answer_data : A
}.
Arguments mkAnswer {A} _ _.
Arguments answer_status {A} _.
Arguments answer_data {A} _.

(** [!xs] for an array: an array, even an empty one, is truthy. *)
Definition array_falsy {A} (xs : list A) : bool := false.

(** ** [project.controller], continued *)

Definition set_appName (v : string) (p : Project) : Project :=
  mkProject (projectName p) (owner p) v (appEmail p) (config p) (projectKey p).

Definition set_appEmail (v : string) (p : Project) : Project :=
  mkProject (projectName p) (owner p) (appName p) v (config p) (projectKey p).

Definition set_loginMethods (v : gmap string bool) (p : Project) : Project :=
  set_config (mkConfig v (security (config p)) (emailTemplates (config p))) p.

Definition set_security (v : Security) (p : Project) : Project :=
  set_config (mkConfig (loginMethods (config p)) v (emailTemplates (config p))) p.

Definition set_emailTemplates (v : gmap string string) (p : Project) : Project :=
  set_config (mkConfig (loginMethods (config p)) (security (config p)) v) p.

(** The tail the update handlers share: [Project.findById], [NOT_FOUND]
    if there is none, the assignment, [save()], and the reply with the
    document. *)
Definition save_project (projectId : ObjectId) (change : Project -> Project)
    (t : ResponseType) : Handler Reply :=
  (projectFromDB <- get (fun s => projects s !! projectId) ;;
   match projectFromDB with
   | None => throw (ApiError NOT_FOUND)
   | Some p =>
       modify (put_project projectId (change p)) ;;;
       ret (mkReply t (OfProject (change p)))
   end)%handler.

(** [getProject]; [projectId] is [req.params.projectId]. *)
Definition getProject (projectId : option ObjectId) : Handler Reply :=
  (throw_if (Js.falsy projectId) INVALID_FORMAT ;;;
   projectFromDB <- get (fun s => projects s !! default "" projectId) ;;
   match projectFromDB with
   | None => throw (ApiError NOT_FOUND)
   | Some p => ret (mkReply SUCCESSFUL (OfProject p))
   end)%handler.

(** [Project.find({owner: adminId})]. *)
Definition projects_of (adminId : ObjectId) (s : Store) : list (ObjectId * Project) :=
  map_to_list (filter (fun kv => owner kv.2 = adminId) (projects s)).

(** [getAllProjects]. *)
Definition getAllProjects (adminId : ObjectId)
    : Handler (Answer (list (ObjectId * Project))) :=
  (projectsFromDB <- get (projects_of adminId) ;;
   throw_if (array_falsy projectsFromDB) NOT_FOUND ;;;
   ret (mkAnswer SUCCESSFUL projectsFromDB))%handler.

(** [dashboard] of the admin controller. *)
Definition dashboard (adminId : ObjectId)
    : Handler (Answer (list (ObjectId * Project))) :=
  (projectsFromDB <- get (projects_of adminId) ;;
   ret (mkAnswer SUCCESSFUL projectsFromDB))%handler.

(** [projectOverview]: [User.countDocuments({projectId})]. *)
Definition projectOverview (projectId : ObjectId) : Handler (Answer nat) :=
  (uniqueUserCount <- get (fun s =>
     size (filter (fun kv => user_projectId kv.2 = projectId) (users s))) ;;
   ret (mkAnswer SUCCESSFUL uniqueUserCount))%handler.

Section ProjectUpdates.

Context {E : External} {I : Imports}.

(** [createNewProjectKey]. *)
Definition createNewProjectKey (projectId : ObjectId) : Handler Reply :=
  save_project projectId
    (fun p => set_projectKey (signProjectKey projectId (owner p)) p) CREATED.

(** [updateAppName]; [appName] is [req.body.appName]. *)
Definition updateAppName (projectId : ObjectId) (appName : option string)
    : Handler Reply :=
  (throw_if (Js.falsy appName) INVALID_FORMAT ;;;
   throw_if (negb (ZAppName (default "" appName))) INVALID_FORMAT ;;;
   save_project projectId (set_appName (default "" appName)) SUCCESSFUL)%handler.

(** [updateAppEmail]. *)
Definition updateAppEmail (projectId : ObjectId) (appEmail : option string)
    : Handler Reply :=
  (throw_if (Js.falsy appEmail) INVALID_FORMAT ;;;
   throw_if (negb (ZEmail (default "" appEmail))) INVALID_FORMAT ;;;
   save_project projectId (set_appEmail (default "" appEmail)) SUCCESSFUL)%handler.

(** The head the three configuration updates share: the object is there,
    it has a key, and its validator does not throw. *)
Definition checked_object {A} (body : option (gmap string A))
    (validate : gmap string A -> option Exn) : Handler (gmap string A) :=
  match body with
  | None => throw (ApiError INVALID_FORMAT)
  | Some o =>
      (throw_if (bool_decide (o = ∅)) INVALID_FORMAT ;;;
       match validate o with
       | Some e => throw e
       | None => ret o
       end)%handler
  end.

(** [updateLoginMethods]. *)
Definition updateLoginMethods (projectId : ObjectId)
    (loginMethods : option (gmap string bool)) : Handler Reply :=
  (o <- checked_object loginMethods validateLoginMethods ;;
   save_project projectId (set_loginMethods o) SUCCESSFUL)%handler.

(** [updateSecurity]; the body's object maps the names of the limits to
    numbers, and the schema casts it on assignment. *)
Definition updateSecurity (projectId : ObjectId)
    (security : option (gmap string Z)) : Handler Reply :=
  (o <- checked_object security validateSecurityObject ;;
   save_project projectId (set_security (castSecurity o)) SUCCESSFUL)%handler.

(** [updateEmailTemplates]. *)
Definition updateEmailTemplates (projectId : ObjectId)
    (emailTemplates : option (gmap string string)) : Handler Reply :=
  (o <- checked_object emailTemplates validateEmailTemplates ;;
   save_project projectId (set_emailTemplates o) SUCCESSFUL)%handler.

End ProjectUpdates.

(** ** [admin.controller], continued *)

Record AccountBody : Type := mkAccountBody {
  body_name : option string;
  body_email : option string;
  body_password : option string
}.

(** [Admin.findOne({email})]. *)
Definition admin_by_email (email : string) (s : Store) : option (ObjectId * Admin) :=
  findOne (fun kv => admin_email kv.2 = email) (admins s).

(** [.select("-refreshToken -refreshTokenExpiry -accessToken
    -accessTokenExpiry -__v")]. *)
Definition without_tokens (a : Admin) : Admin :=
  mkAdmin (admin_name a) (admin_email a) (admin_password a)
    Js.undefined Js.undefined Js.undefined Js.undefined
    (verificationToken a) (verificationTokenExpiry a)
    (resetPasswordToken a) (resetPasswordTokenExpiry a).

(** The cookies a reply sets. *)
Record Cookies : Type := mkCookies {
  admin_access_token : string;
  admin_refresh_token : string
}.

(** The documents [deleteAccount] removes from a dependent collection:
    [{projectId: {$in: ids}}]. *)
Definition outside (ids : list ObjectId) (p : ObjectId) : Prop := p ∉ ids.

Definition after_deleteAccount (adminId : ObjectId) (s : Store) : Store :=
  let s1 :=
    mkStore (delete adminId (admins s)) (projects s) (users s) (sessions s)
      (logs s) in
  let projectsToBeDeleted := owned_ids adminId s1 in
  let s2 :=
    mkStore (admins s1)
      (filter (fun kv => owner kv.2 <> adminId) (projects s1))
      (users s1) (sessions s1) (logs s1) in
  let s3 :=
    mkStore (admins s2) (projects s2)
      (filter (fun kv => outside projectsToBeDeleted (user_projectId kv.2)) (users s2))
      (sessions s2) (logs s2) in
  let s4 :=
    mkStore (admins s3) (projects s3) (users s3)
      (filter (fun kv => outside projectsToBeDeleted (session_projectId kv.2))
         (sessions s3))
      (logs s3) in
  mkStore (admins s4) (projects s4) (users s4) (sessions s4)
    (filter (fun kv => outside projectsToBeDeleted (log_projectId kv.2)) (logs s4)).

(** [deleteAccount]: the admin document, the projects it owns, then the
    users, sessions and logs of those projects. *)
Definition deleteAccount (adminId : ObjectId) : Handler Reply :=
  (modify (after_deleteAccount adminId) ;;;
   ret (mkReply ACCOUNT_DELETED Empty))%handler.

(** [.select("-password -verificationToken -verificationTokenExpiry
    -resetPasswordToken -resetPasswordTokenExpiry")]: the four fields of
    the session stay in. *)
Definition without_secrets (a : Admin) : Admin :=
  mkAdmin (admin_name a) (admin_email a) ""
    (refreshToken a) (refreshTokenExpiry a) (accessToken a) (accessTokenExpiry a)
    Js.undefined Js.undefined Js.undefined Js.undefined.

(** [getCurrentAdmin]. *)
Definition getCurrentAdmin (adminId : ObjectId) : Handler Reply :=
  (adminFromDB <- get (fun s => admins s !! adminId) ;;
   match adminFromDB with
   | None => throw (ApiError NOT_FOUND)
   | Some a => ret (mkReply SUCCESSFUL (OfAdmin (without_secrets a)))
   end)%handler.

Section Accounts.

Context {E : External} {I : Imports}.

(** [createAccount]; [newId] is the [_id] the driver gives the new
    document.  The fields the call does not name are left unset. *)
Definition createAccount (body : AccountBody) (newId : ObjectId) : Handler Reply :=
  (throw_if (Js.falsy (body_name body) || Js.falsy (body_email body)
             || Js.falsy (body_password body)) INVALID_FORMAT ;;;
   let name := default "" (body_name body) in
   let email := default "" (body_email body) in
   let password := default "" (body_password body) in
   throw_if (negb (validateSignupInput (Some name) password email))
     INVALID_FORMAT ;;;
   adminFromDB <- get (admin_by_email email) ;;
   throw_if (bool_decide (is_Some adminFromDB)) ALREADY_EXISTS ;;;
   let createdAdmin :=
     mkAdmin name email (storedPassword password)
       Js.undefined Js.undefined Js.undefined Js.undefined
       Js.undefined Js.undefined Js.undefined Js.undefined in
   taken <- get (fun s => bool_decide (is_Some (admins s !! newId))) ;;
   (if taken : bool then throw MongoServerError else ret tt) ;;;
   modify (put_admin newId createdAdmin) ;;;
   ret (mkReply ACCOUNT_CREATED (OfAdmin (without_password createdAdmin))))%handler.

(** The three conditional assignments of [updateAdminAccount]. *)
Definition edit_admin (body : AccountBody) (a : Admin) : Admin :=
  mkAdmin
    (if Js.falsy (body_name body) then admin_name a
     else default "" (body_name body))
    (if Js.falsy (body_email body) then admin_email a
     else default "" (body_email body))
    (if Js.falsy (body_password body) then admin_password a
     else storedPassword (default "" (body_password body)))
    (refreshToken a) (refreshTokenExpiry a) (accessToken a) (accessTokenExpiry a)
    (verificationToken a) (verificationTokenExpiry a)
    (resetPasswordToken a) (resetPasswordTokenExpiry a).

(** [updateAdminAccount]: the assignments go through [adminFromDB!]. *)
Definition updateAdminAccount (adminId : ObjectId) (body : AccountBody)
    : Handler Reply :=
  (throw_if (Js.falsy (body_name body) && Js.falsy (body_email body)
             && Js.falsy (body_password body)) NOT_FOUND ;;;
   adminFromDB <- get (fun s => admins s !! adminId) ;;
   match adminFromDB with
   | None => throw TypeError
   | Some a =>
       modify (put_admin adminId (edit_admin body a)) ;;;
       ret (mkReply SUCCESSFUL (OfAdmin (without_tokens (edit_admin body a))))
   end)%handler.

Definition set_session (rt : string) (re : Z) (at_ : string) (ae : Z)
    (a : Admin) : Admin :=
  mkAdmin (admin_name a) (admin_email a) (admin_password a)
    (Js.val rt) (Js.val re) (Js.val at_) (Js.val ae)
    (verificationToken a) (verificationTokenExpiry a)
    (resetPasswordToken a) (resetPasswordTokenExpiry a).

(** [createLoginSession]; [now] and [now'] are the two readings of
    [new Date().getTime()], for the expiry of the access token and for that
    of the refresh token. *)
Definition createLoginSession (body : AccountBody) (now now' : Z)
    : Handler (Reply * Cookies) :=
  (throw_if (Js.falsy (body_email body) || Js.falsy (body_password body))
     INVALID_FORMAT ;;;
   let email := default "" (body_email body) in
   let password := default "" (body_password body) in
   throw_if (negb (validateSignupInput None password email)) INVALID_FORMAT ;;;
   adminFromDB <- get (admin_by_email email) ;;
   match adminFromDB with
   | None => throw (ApiError NOT_FOUND)
   | Some (adminId, a) =>
       throw_if (negb (validatePassword (admin_password a) password))
         INCORRECT_PASSWORD ;;;
       let accessToken := generateAccessToken adminId (admin_email a) in
       let refreshToken := generateRefreshToken adminId (admin_email a) in
       let accessTokenExpiry := now + day in
       let refreshTokenExpiry := now' + 30 * day in
       let a' :=
         set_session refreshToken refreshTokenExpiry accessToken
           accessTokenExpiry a in
       modify (put_admin adminId a') ;;;
       ret (mkReply SESSION_CREATED (OfAdmin (without_password a')),
            mkCookies accessToken refreshToken)
   end)%handler.

End Accounts.

(** ** [admin.route], [user.route] and [app] *)

Inductive Middleware : Type :=
| authenticateAdmin
| validateProject
| authenticateUser.

Inductive Verb : Type := GET | POST | PUT | DELETE_.

Record Route : Type := mkRoute {
  route_path : string;
  route_verb : Verb;
  route_chain : list Middleware;
  route_handler : string
}.

Definition adminRouter : list Route :=
  [ mkRoute "/account/create" POST [] "createAccount";
    mkRoute "/account/login" POST [] "createLoginSession";
    mkRoute "/account/logout" PUT [authenticateAdmin] "deleteLoginSession";
    mkRoute "/account/delete" DELETE_ [authenticateAdmin] "deleteAccount";
    mkRoute "/access-token/refresh" POST [] "refreshAccessToken";
    mkRoute "/get-user/:userId" GET [authenticateAdmin; validateProject]
      "getUserFromConsole";
    mkRoute "/verify-user" PUT [authenticateAdmin; validateProject]
      "verifyUserFromConsole";
    mkRoute "/create-user" POST [authenticateAdmin; validateProject]
      "createUserAccount";
    mkRoute "/delete-user/:userId" DELETE_ [authenticateAdmin; validateProject]
      "deleteUserAccount";
    mkRoute "/get-user-sessions/:userId" GET [authenticateAdmin; validateProject]
      "getAllUserLoginSessions";
    mkRoute "/delete-user-session/:sessionId" DELETE_
      [authenticateAdmin; validateProject] "deleteUserLoginSession";
    mkRoute "/clear-user-sessions/:userId" DELETE_
      [authenticateAdmin; validateProject] "deleteAllUserLoginSessions" ].

Definition userRouter : list Route :=
  [ mkRoute "/" GET [authenticateUser] "getCurrentUser";
    mkRoute "/create" POST [] "createAccount";
    mkRoute "/delete" DELETE_ [authenticateUser] "deleteAccount";
    mkRoute "/access-token/refresh" POST [] "refreshAccessToken";
    mkRoute "/session/create" POST [] "createLoginSession";
    mkRoute "/session/delete" DELETE_ [authenticateUser]
      "deleteCurrentLoginSession";
    mkRoute "/session/delete/:sessionId" DELETE_ [authenticateUser]
      "deleteLoginSessionByID";
    mkRoute "/sessions" GET [authenticateUser] "getAllLoginSessions";
    mkRoute "/sessions/delete" DELETE_ [authenticateUser]
      "deleteAllLoginSessions";
    mkRoute "/verify" POST [authenticateUser] "verifyEmail";
    mkRoute "/reset-password" POST [authenticateUser] "resetPassword";
    mkRoute "/auth/magic-url" POST [] "magicURLAuth";
    mkRoute "/auth/otp-on-email" POST [] "emailOTPAuth" ].

Definition API_VERSION : string := "v1".

(** [app.use(prefix, ...middlewares, router)]. *)
Record Mount : Type := mkMount {
  mount_prefix : string;
  mount_chain : list Middleware;
  mount_router : list Route
}.

(** The four mounts of [app]; the two project routers are of
    [routes/project.route], which is not in the tree. *)
Definition app (projectRouter multipleProjectsRouter : list Route) : list Mount :=
  [ mkMount ("/api/" +:+ API_VERSION +:+ "/user") [validateProject] userRouter;
    mkMount ("/api/" +:+ API_VERSION +:+ "/admin") [] adminRouter;
    mkMount ("/api/" +:+ API_VERSION +:+ "/project") [authenticateAdmin]
      projectRouter;
    mkMount ("/api/" +:+ API_VERSION +:+ "/projects") [authenticateAdmin]
      multipleProjectsRouter ].

(** The endpoints of a mount: the middlewares of the mount run before
    those of the route. *)
Definition endpoints (m : Mount) : list Route :=
  map (fun r =>
         mkRoute (mount_prefix m +:+ route_path r) (route_verb r)
           (mount_chain m ++ route_chain r) (route_handler r))
      (mount_router m).

Definition is_authenticateAdmin (m : Middleware) : bool :=
  match m with authenticateAdmin => true | _ => false end.

Definition is_validateProject (m : Middleware) : bool :=
  match m with validateProject => true | _ => false end.

(** In a chain, every [validateProject] comes after an
    [authenticateAdmin]. *)
Fixpoint admin_before_project (chain : list Middleware) : bool :=
  match chain with
  | [] => true
  | authenticateAdmin :: _ => true
  | validateProject :: _ => false
  | authenticateUser :: rest => admin_before_project rest
  end.

(** ** Sample imports for the examples *)

Module More.

(** Modelled from the spec: the security limits of
    [validateSecurityObject] are positive integers. *)
Definition security_ok (o : gmap string Z) : option Exn :=
  match o !! "userLimit", o !! "userSessionLimit" with
  | Some a, Some b =>
      if (0 <? a) && (0 <? b) then None else Some (ApiError INVALID_FORMAT)
  | _, _ => Some (ApiError INVALID_FORMAT)
  end.

(** Modelled from the spec: the keys of the email templates are drawn
    from the enumeration of template names. *)
Definition templates_ok (o : gmap string string) : option Exn :=
  if bool_decide (map_Forall (fun k _ => k ∈ Model.templates) o)
  then None else Some (ApiError INVALID_FORMAT).

(** Modelled from the spec: the password hash is a black box; here the
    stored password is the given one behind a prefix. *)
Definition hash (password : string) : string := "hash-" +:+ password.

(** Modelled from the spec: the absent imports of the further handlers
    together, as one instance of their class. *)
Definition imports : Imports := {|
  validateSignupInput := fun _ password email =>
    Model.email_ok email && negb (bool_decide (password = ""));
  storedPassword := hash;
  validatePassword := fun stored candidate => bool_decide (stored = hash candidate);
  generateRefreshToken := fun i e => "jwt." +:+ i;
  validateLoginMethods := fun _ => None;
  validateSecurityObject := security_ok;
  validateEmailTemplates := templates_ok;
  castSecurity := fun o =>
    mkSecurity (default 0 (o !! "userLimit")) (default 0 (o !! "userSessionLimit"))
|}.

End More.

(** ** Properties the further statements speak of *)

(** No two admin documents share an email. *)
Definition unique_emails (s : Store) : Prop :=
  forall i j a b,
    admins s !! i = Some a -> admins s !! j = Some b ->
    admin_email a = admin_email b -> i = j.

(** Every user, session and log names a project that has a document. *)
Definition no_orphans (s : Store) : Prop :=
  (forall i u, users s !! i = Some u -> is_Some (projects s !! user_projectId u)) /\
  (forall i x, sessions s !! i = Some x -> is_Some (projects s !! session_projectId x)) /\
  (forall i l, logs s !! i = Some l -> is_Some (projects s !! log_projectId l)).

(** The handler [h] writes at most the project [projectId]: on every
    store it throws and leaves the store as it was, or the project is there
    and it replies, with the status [t], with the document that the store
    then holds in its place, which relates to the one before as [kept]
    says, every other document being as it was. *)
Definition updates_project (projectId : ObjectId) (h : Handler Reply)
    (t : ResponseType) (kept : Project -> Project -> Prop) : Prop :=
  forall s,
    (exists e, h s = (Throw e, s)) \/
    (exists p p',
       projects s !! projectId = Some p /\
       h s = (Ok (mkReply t (OfProject p')), put_project projectId p' s) /\
       projects (snd (h s)) !! projectId = Some p' /\
       (forall q, q <> projectId -> projects (snd (h s)) !! q = projects s !! q) /\
       admins (snd (h s)) = admins s /\ users (snd (h s)) = users s /\
       sessions (snd (h s)) = sessions s /\ logs (snd (h s)) = logs s /\
       kept p p').

(** What the handler [h] replies with on success is the document that
    [getProject] then returns for [projectId]. *)
Definition read_back (projectId : ObjectId) (h : Handler Reply) : Prop :=
  forall s r s',
    h s = (Ok r, s') ->
    exists p',
      data r = OfProject p' /\
      getProject (Some projectId) s' = (Ok (mkReply SUCCESSFUL (OfProject p')), s').

(** A request to one of the handlers that write to the store. *)
Inductive Call : Type :=
| CreateProject (adminId : ObjectId) (body : ProjectBody) (newId : ObjectId)
    (rnd : string)
| CreateNewProjectKey (projectId : ObjectId)
| UpdateAppName (projectId : ObjectId) (v : option string)
| UpdateAppEmail (projectId : ObjectId) (v : option string)
| UpdateLoginMethods (projectId : ObjectId) (v : option (gmap string bool))
| UpdateSecurity (projectId : ObjectId) (v : option (gmap string Z))
| UpdateEmailTemplates (projectId : ObjectId) (v : option (gmap string string))
| ResetEmailTemplate (projectId : ObjectId) (emailTemplate : string)
| ResetSecurity (projectId : ObjectId)
| DeleteProject (projectId : option ObjectId)
| DeleteAllProjects (adminId : ObjectId)
| DeleteAccount (adminId : ObjectId)
| CreateAccount (body : AccountBody) (newId : ObjectId)
| UpdateAdminAccount (adminId : ObjectId) (body : AccountBody)
| CreateLoginSession (body : AccountBody) (now now' : Z)
| DeleteLoginSession (adminId : ObjectId)
| RefreshAccessToken (req : RefreshRequest) (now now' : Z)
| VerifyUser (projectId : ObjectId) (userId email : option string).

(** The store a call leaves; for [deleteAllProjects], the one its chains
    leave when all of them have run. *)
Definition after `{External} `{Imports} (c : Call) (s : Store) : Store :=
  match c with
  | CreateProject adminId body newId rnd =>
      snd (createProject adminId body newId rnd s)
  | CreateNewProjectKey projectId => snd (createNewProjectKey projectId s)
  | UpdateAppName projectId v => snd (updateAppName projectId v s)
  | UpdateAppEmail projectId v => snd (updateAppEmail projectId v s)
  | UpdateLoginMethods projectId v => snd (updateLoginMethods projectId v s)
  | UpdateSecurity projectId v => snd (updateSecurity projectId v s)
  | UpdateEmailTemplates projectId v => snd (updateEmailTemplates projectId v s)
  | ResetEmailTemplate projectId t => snd (resetEmailTemplateToDefault projectId t s)
  | ResetSecurity projectId => snd (resetSecuritySettingToDefault projectId s)
  | DeleteProject projectId => snd (deleteProject projectId s)
  | DeleteAllProjects adminId => settle (pending (deleteAllProjects adminId s)) s
  | DeleteAccount adminId => snd (deleteAccount adminId s)
  | CreateAccount body newId => snd (createAccount body newId s)
  | UpdateAdminAccount adminId body => snd (updateAdminAccount adminId body s)
  | CreateLoginSession body now now' => snd (createLoginSession body now now' s)
  | DeleteLoginSession adminId => snd (deleteLoginSession adminId s)
  | RefreshAccessToken req now now' => snd (refreshAccessToken req now now' s)
  | VerifyUser projectId userId email =>
      snd (verifyUserFromConsole projectId userId email s)
  end.

(** * Proofs *)

(** ** The handler monad *)

Lemma bind_ok {A B} (m : Handler A) (k : A -> Handler B) s a s' :
  m s = (Ok a, s') -> bind m k s = k a s'.
Proof. intros H. unfold bind. now rewrite H. Qed.

Lemma falsy_Some_false (x : string) : x <> "" -> Js.falsy (Some x) = false.
Proof. intros H. unfold Js.falsy. now apply bool_decide_eq_false. Qed.

(** ** The cascade *)

Lemma run_cascade p s :
  run_writes (cascade p) s =
  mkStore (admins s) (delete p (projects s))
    (filter (fun kv => user_projectId kv.2 <> p) (users s))
    (filter (fun kv => session_projectId kv.2 <> p) (sessions s))
    (filter (fun kv => log_projectId kv.2 <> p) (logs s)).
Proof. reflexivity. Qed.

Lemma filter_twice {A} (P : ObjectId * A -> Prop) `{!forall x, Decision (P x)}
    (m : gmap ObjectId A) :
  filter P (filter P m) = filter P m.
Proof.
  apply map_eq. intros i. apply option_eq. intros x.
  rewrite !map_lookup_filter_Some. tauto.
Qed.

Lemma purged_run_cascade p s : purged p (run_writes (cascade p) s).
Proof.
  rewrite run_cascade. unfold purged; simpl. split; [apply lookup_delete_eq|].
  repeat split; intros i x Hx; apply map_lookup_filter_Some in Hx as [_ H];
    exact H.
Qed.

(** Wherever the cascade stopped, running it again from there ends in the
    state the uninterrupted cascade ends in. *)
Lemma rerun_stopped k p s :
  run_writes (cascade p) (stopped_after k p s) = run_writes (cascade p) s.
Proof.
  unfold stopped_after, run_writes, cascade.
  do 4 (destruct k as [|k];
        [cbn; f_equal; rewrite ?delete_delete_eq, ?filter_twice; reflexivity|]).
  cbn; rewrite take_nil.
  cbn; f_equal; rewrite ?delete_delete_eq, ?filter_twice; reflexivity.
Qed.

Lemma deleteProject_run p s :
  p <> "" ->
  deleteProject (Some p) s = (Ok (mkReply DELETED Empty), run_writes (cascade p) s).
Proof.
  intros Hp. unfold deleteProject.
  rewrite (bind_ok _ _ s tt s) by (rewrite falsy_Some_false by exact Hp; reflexivity).
  reflexivity.
Qed.

(** The cascade of [p] touches nothing else: the admins, the other
    projects and the documents of other projects stay. *)
Lemma run_cascade_frame p s :
  admins (run_writes (cascade p) s) = admins s /\
  (forall q, q <> p -> projects (run_writes (cascade p) s) !! q = projects s !! q) /\
  (forall i u, users s !! i = Some u -> user_projectId u <> p ->
               users (run_writes (cascade p) s) !! i = Some u) /\
  (forall i x, sessions s !! i = Some x -> session_projectId x <> p ->
               sessions (run_writes (cascade p) s) !! i = Some x) /\
  (forall i l, logs s !! i = Some l -> log_projectId l <> p ->
               logs (run_writes (cascade p) s) !! i = Some l).
Proof.
  rewrite run_cascade; simpl. split; [reflexivity|].
  split; [intros q Hq; now apply lookup_delete_ne|].
  repeat split; intros i x Hx Hne; now apply map_lookup_filter_Some.
Qed.

(** C1: for a project id [p], [deleteProject(p)] replies [DELETED] and
    leaves no Project document [p] and no User, Session or Log document
    whose [projectId] is [p]; called again on the store it left, or on the
    store an interrupted cascade left, it replies [DELETED] again without
    error and ends in the same store. *)
Theorem deleteProject_complete_idempotent (p : ObjectId) (s : Store) :
  p <> "" ->
  exists s',
    deleteProject (Some p) s = (Ok (mkReply DELETED Empty), s') /\
    purged p s' /\
    deleteProject (Some p) s' = (Ok (mkReply DELETED Empty), s') /\
    forall k,
      deleteProject (Some p) (stopped_after k p s)
      = (Ok (mkReply DELETED Empty), s').
Proof.
  intros Hp. exists (run_writes (cascade p) s).
  split; [now apply deleteProject_run|].
  split; [apply purged_run_cascade|].
  split.
  - rewrite deleteProject_run by exact Hp.
    now rewrite <- (rerun_stopped 4 p s) at 2.
  - intros k. rewrite deleteProject_run by exact Hp. now rewrite rerun_stopped.
Qed.

Lemma deleteProject_complete_idempotent_witness :
  "p1" <> "" /\
  exists s',
    deleteProject (Some "p1") Sample.db = (Ok (mkReply DELETED Empty), s') /\
    purged "p1" s' /\
    deleteProject (Some "p1") s' = (Ok (mkReply DELETED Empty), s') /\
    forall k,
      deleteProject (Some "p1") (stopped_after k "p1" Sample.db)
      = (Ok (mkReply DELETED Empty), s').
Proof.
  split; [discriminate|].
  apply (deleteProject_complete_idempotent "p1" Sample.db). discriminate.
Defined.

(** ** The order of the cascade *)

Lemma stopped_projects k p s :
  (1 <= k)%nat -> projects (stopped_after k p s) = delete p (projects s).
Proof.
  intros Hk. unfold stopped_after, run_writes, cascade.
  destruct k as [|k]; [lia|].
  do 3 (destruct k as [|k]; [reflexivity|]).
  cbn. rewrite take_nil. reflexivity.
Qed.

Lemma stopped_users k p s :
  (k < 2)%nat -> users (stopped_after k p s) = users s.
Proof.
  intros Hk. do 2 (destruct k as [|k]; [reflexivity|]). lia.
Qed.

Lemma stopped_sessions k p s :
  (k < 3)%nat -> sessions (stopped_after k p s) = sessions s.
Proof.
  intros Hk. do 3 (destruct k as [|k]; [reflexivity|]). lia.
Qed.

Lemma stopped_logs k p s :
  (k < 4)%nat -> logs (stopped_after k p s) = logs s.
Proof.
  intros Hk. do 4 (destruct k as [|k]; [reflexivity|]). lia.
Qed.

(** C2, as stated, fails: the project document is not the last write of
    the cascade, and the cascade of [p1] stopped after its first write has
    lost the project while the user [u1] still names it. *)
Lemma cascade_leaves_orphans :
  last (cascade "p1") <> Some (Project_findByIdAndDelete "p1") /\
  is_Some (projects Sample.db !! "p1") /\
  orphaned "p1" (stopped_after 1 "p1" Sample.db).
Proof.
  split; [discriminate|].
  split; [exists Sample.shop1; reflexivity|].
  split; [reflexivity|].
  left. exists "u1", Sample.u1. split; reflexivity.
Qed.

(** C2, amended: the project document is the first write of the cascade,
    then the users, the sessions and the logs of [p] in that order.  Once
    one write has run the project is gone; the users stay until the second
    write, the sessions until the third and the logs until the fourth, so a
    cascade stopped after one to three writes leaves every log of [p] an
    orphan; after the fourth write nothing of [p] is left. *)
Theorem cascade_project_first (p : ObjectId) (s : Store) (k : nat)
    (i : ObjectId) (l : Log) :
  (1 <= k < 4)%nat ->
  logs s !! i = Some l -> log_projectId l = p ->
  cascade p = [ Project_findByIdAndDelete p; User_deleteMany p;
                Session_deleteMany p; Log_deleteMany p ] /\
  projects (stopped_after k p s) !! p = None /\
  (k < 2 -> users (stopped_after k p s) = users s)%nat /\
  (k < 3 -> sessions (stopped_after k p s) = sessions s)%nat /\
  logs (stopped_after k p s) = logs s /\
  orphaned p (stopped_after k p s) /\
  purged p (stopped_after 4 p s).
Proof.
  intros [Hk1 Hk4] Hl Hp.
  assert (Hproj : projects (stopped_after k p s) !! p = None)
    by (rewrite stopped_projects by exact Hk1; apply lookup_delete_eq).
  split; [reflexivity|].
  split; [exact Hproj|].
  split; [apply stopped_users|].
  split; [apply stopped_sessions|].
  split; [now apply stopped_logs|].
  split.
  - split; [exact Hproj|]. right; right. exists i, l.
    rewrite stopped_logs by exact Hk4. now split.
  - apply (purged_run_cascade p s).
Qed.

Lemma cascade_project_first_witness :
  (1 <= 2 < 4)%nat /\
  logs Sample.db !! "l1" = Some Sample.l1 /\ log_projectId Sample.l1 = "p1" /\
  projects (stopped_after 2 "p1" Sample.db) !! "p1" = None /\
  orphaned "p1" (stopped_after 2 "p1" Sample.db) /\
  purged "p1" (stopped_after 4 "p1" Sample.db).
Proof.
  assert (H1 : (1 <= 2 < 4)%nat) by lia.
  assert (H2 : logs Sample.db !! "l1" = Some Sample.l1) by reflexivity.
  assert (H3 : log_projectId Sample.l1 = "p1") by reflexivity.
  destruct (cascade_project_first "p1" Sample.db 2 "l1" Sample.l1 H1 H2 H3)
    as (_ & Hp & _ & _ & _ & Ho & Hz).
  exact (conj H1 (conj H2 (conj H3 (conj Hp (conj Ho Hz))))).
Defined.

(** ** Deleting every project of an admin *)

Lemma purged_exec p w s : purged p s -> purged p (exec w s).
Proof.
  intros (Hp & Hu & Hs & Hl).
  destruct w as [q|q|q|q]; unfold purged; simpl;
    (split; [try exact Hp|split; [try exact Hu|split; [try exact Hs|try exact Hl]]]).
  - apply lookup_delete_None. now right.
  - intros i u Hi. apply map_lookup_filter_Some in Hi as [Hi _]. exact (Hu i u Hi).
  - intros i x Hi. apply map_lookup_filter_Some in Hi as [Hi _]. exact (Hs i x Hi).
  - intros i l Hi. apply map_lookup_filter_Some in Hi as [Hi _]. exact (Hl i l Hi).
Qed.

Lemma purged_run_writes p ws s : purged p s -> purged p (run_writes ws s).
Proof.
  revert s. induction ws as [|w ws IH]; intros s Hs; [exact Hs|].
  apply (IH (exec w s)). now apply purged_exec.
Qed.

Lemma purged_settle p chains s : purged p s -> purged p (settle chains s).
Proof.
  revert s. induction chains as [|c chains IH]; intros s Hs; [exact Hs|].
  apply (IH (run_writes c s)). now apply purged_run_writes.
Qed.

(** Once every detached chain has run, each project the admin owned is
    gone with its dependents. *)
Lemma deleteAllProjects_settles adminId s p :
  p ∈ owned_ids adminId s ->
  purged p (settle (pending (deleteAllProjects adminId s)) s).
Proof.
  unfold deleteAllProjects; simpl.
  generalize (owned_ids adminId s). intros ids. revert s.
  induction ids as [|q ids IH]; intros s Hin; [now apply elem_of_nil in Hin|].
  apply elem_of_cons in Hin as [->|Hin]; simpl.
  - apply purged_settle, purged_run_cascade.
  - now apply IH.
Qed.

(** *** Interleaved chains

    A write only deletes, so what a cascade has achieved is never undone
    by the writes of another. *)
Lemma progress_exec k p w s : progress k p s -> progress k p (exec w s).
Proof.
  intros (Hp & Hu & Hs & Hl).
  destruct w as [q|q|q|q]; unfold progress; simpl;
    (split; [try exact Hp|split; [try exact Hu|split; [try exact Hs|try exact Hl]]]).
  - intros Hk. apply lookup_delete_None. right. now apply Hp.
  - intros Hk i u Hi. apply map_lookup_filter_Some in Hi as [Hi _].
    exact (Hu Hk i u Hi).
  - intros Hk i x Hi. apply map_lookup_filter_Some in Hi as [Hi _].
    exact (Hs Hk i x Hi).
  - intros Hk i l Hi. apply map_lookup_filter_Some in Hi as [Hi _].
    exact (Hl Hk i l Hi).
Qed.

Lemma progress_next k p w ws s :
  w :: ws = drop k (cascade p) -> progress k p s ->
  ws = drop (S k) (cascade p) /\ progress (S k) p (exec w s).
Proof.
  intros Hd (Hp & Hu & Hs & Hl).
  do 4 (destruct k as [|k];
        [injection Hd as -> ->; split; [reflexivity|];
         unfold progress; simpl;
         repeat split; intros Hk; try lia;
         first [ apply lookup_delete_eq
               | apply Hp; lia
               | intros i x Hi; apply map_lookup_filter_Some in Hi as [Hi Hne];
                 first [exact Hne | eapply Hu; [lia|exact Hi]
                       | eapply Hs; [lia|exact Hi]]
               | apply Hu; lia | apply Hs; lia ]|]).
  simpl in Hd. rewrite drop_nil in Hd. discriminate.
Qed.

Lemma progress_purged k p s : (4 <= k)%nat -> progress k p s -> purged p s.
Proof.
  intros Hk (Hp & Hu & Hs & Hl).
  repeat split; [apply Hp|apply Hu|apply Hs|apply Hl]; lia.
Qed.

Lemma in_flight_start ids s : in_flight ids (s, map cascade ids).
Proof.
  unfold in_flight; simpl. induction ids as [|p ids IH]; constructor; [|exact IH].
  exists 0%nat. split; [reflexivity|]. repeat split; intros Hk; lia.
Qed.

Lemma in_flight_advance ids c c' :
  in_flight ids c -> advance c c' -> in_flight ids c'.
Proof.
  intros Hin Hstep. destruct Hstep as [s pre w ws post].
  unfold in_flight in *; simpl in *.
  apply Forall2_app_inv_r in Hin as (ids1 & ids2 & Hpre & Hrest & ->).
  apply Forall2_cons_inv_r in Hrest as (p & ids3 & (k & Hk & Hprog) & Hpost & ->).
  destruct (progress_next k p w ws s Hk Hprog) as [Hws Hnext].
  apply Forall2_app; [|constructor].
  - eapply Forall2_impl; [exact Hpre|].
    intros q vs (j & -> & Hj). exists j. split; [reflexivity|].
    now apply progress_exec.
  - exists (S k). now split.
  - eapply Forall2_impl; [exact Hpost|].
    intros q vs (j & -> & Hj). exists j. split; [reflexivity|].
    now apply progress_exec.
Qed.

Lemma in_flight_rtc ids c c' :
  rtc advance c c' -> in_flight ids c -> in_flight ids c'.
Proof.
  induction 1 as [|c c1 c' Hstep _ IH]; intros Hin; [exact Hin|].
  apply IH. exact (in_flight_advance ids c c1 Hin Hstep).
Qed.

(** X3: in whatever order the detached chains of [deleteAllProjects]
    interleave, if no write is rejected and every chain has run to its
    end, each project the admin owned is gone with its users, sessions and
    logs. *)
Lemma deleteAllProjects_interleaved adminId s s' chains p :
  rtc advance (s, pending (deleteAllProjects adminId s)) (s', chains) ->
  Forall (fun ws => ws = []) chains ->
  p ∈ owned_ids adminId s ->
  purged p s'.
Proof.
  intros Hrun Hend Hp.
  pose proof (in_flight_rtc (owned_ids adminId s) _ _ Hrun
                (in_flight_start _ s)) as Hin.
  unfold in_flight in Hin; simpl in Hin.
  apply list_elem_of_lookup in Hp as [n Hn].
  destruct (Forall2_lookup_l _ _ _ n p Hin Hn) as (ws & Hws & k & Hk & Hprog).
  rewrite Forall_lookup in Hend. specialize (Hend n ws Hws). subst ws.
  apply (progress_purged k); [|exact Hprog].
  symmetry in Hk. apply drop_nil_inv in Hk.
  exact Hk.
Qed.

Lemma deleteAllProjects_sent adminId s :
  sent (deleteAllProjects adminId s) = (Ok (mkReply DELETED Empty), s).
Proof. reflexivity. Qed.

(** C3, on the code: for the admin [a1], who owns project [p1], the
    handler replies [DELETED] with an empty payload while the store it
    replies over is the one it was given: project [p1], its user, its
    session and its log are all still there, and the cascade of [p1] is a
    detached chain of writes that has yet to run.  The reply is fixed
    before any write runs: when the first write of the chain is then
    rejected, the chain ends with the whole of [p1] still stored, and the
    reply that was sent is [DELETED] all the same. *)
Theorem deleteAllProjects_replies_before_cascade :
  sent (deleteAllProjects "a1" Sample.db)
    = (Ok (mkReply DELETED Empty), Sample.db) /\
  pending (deleteAllProjects "a1" Sample.db) = [cascade "p1"] /\
  projects (snd (sent (deleteAllProjects "a1" Sample.db))) !! "p1"
    = Some Sample.shop1 /\
  users (snd (sent (deleteAllProjects "a1" Sample.db))) !! "u1"
    = Some Sample.u1 /\
  sessions (snd (sent (deleteAllProjects "a1" Sample.db))) !! "s1"
    = Some Sample.s1 /\
  logs (snd (sent (deleteAllProjects "a1" Sample.db))) !! "l1"
    = Some Sample.l1 /\
  ~ purged "p1" (snd (sent (deleteAllProjects "a1" Sample.db))) /\
  turn (Sample.db, pending (deleteAllProjects "a1" Sample.db))
       (Sample.db, [[]]).
Proof.
  assert (pending (deleteAllProjects "a1" Sample.db) = [cascade "p1"]) as Hp
    by (vm_compute; reflexivity).
  split; [reflexivity|].
  split; [exact Hp|].
  do 4 (split; [reflexivity|]).
  split.
  - intros [H _]. discriminate H.
  - rewrite Hp. exact (turn_reject Sample.db [] _ _ []).
Qed.

(** ** Console reads and writes of users *)

(** The console handlers do not depend on the validated project. *)
Lemma getUserFromConsole_any_project p p' userId s :
  getUserFromConsole p userId s = getUserFromConsole p' userId s.
Proof. reflexivity. Qed.

Lemma verifyUserFromConsole_any_project p p' userId email s :
  verifyUserFromConsole p userId email s = verifyUserFromConsole p' userId email s.
Proof. reflexivity. Qed.

(** C4, on the code: with [p1] as the validated project of the request,
    [getUserFromConsole] returns the user [u2] of project [p2] together
    with that user's session, and [verifyUserFromConsole] sets
    [isVerified] on [u2]. *)
Theorem console_crosses_tenants :
  user_projectId Sample.u2 <> "p1" /\
  getUserFromConsole "p1" (Some "u2") Sample.db
    = (Ok (mkReply SUCCESSFUL
             (OfUser (user_without_password Sample.u2) 1
                [("s2", session_shown Sample.s2)])),
       Sample.db) /\
  fst (verifyUserFromConsole "p1" (Some "u2") None Sample.db)
    = Ok (mkReply SUCCESSFUL Empty) /\
  isVerified Sample.u2 = false /\
  users (snd (verifyUserFromConsole "p1" (Some "u2") None Sample.db)) !! "u2"
    = Some (set_verified Sample.u2).
Proof.
  split; [discriminate|].
  split; [vm_compute; reflexivity|].
  split; [vm_compute; reflexivity|].
  split; [reflexivity|].
  vm_compute; reflexivity.
Qed.

(** ** The admin session *)

Lemma date_lt_val (t now : Z) : Js.date_lt (Js.val t) now = true <-> t < now.
Proof. simpl. apply Z.ltb_lt. Qed.

Lemma date_lt_null (now : Z) : Js.date_lt Js.null now = true <-> 0 < now.
Proof. simpl. apply Z.ltb_lt. Qed.

Section Refresh.

Context {E : External}.

Lemma refresh_no_token req now now' s :
  Js.falsy (presented req) = true ->
  refreshAccessToken req now now' s
  = (Throw (ApiError REFRESH_TOKEN_INVALID), s).
Proof. intros H. unfold refreshAccessToken, bind. now rewrite H. Qed.

Lemma refresh_no_admin_id req now now' s t :
  presented req = Some t -> t <> "" ->
  Js.falsy (jwt_decode t ≫= claim_adminId) = true ->
  refreshAccessToken req now now' s
  = (Throw (ApiError REFRESH_TOKEN_INVALID), s).
Proof.
  intros Ht Hne H. unfold refreshAccessToken, bind.
  rewrite Ht, (falsy_Some_false t Hne). simpl. now rewrite H.
Qed.

(** Past the two token checks the handler is the lookup of the admin
    followed by the test of the stored expiry. *)
Lemma refresh_decoded req now now' s t adminId :
  presented req = Some t -> t <> "" ->
  jwt_decode t ≫= claim_adminId = Some adminId -> adminId <> "" ->
  refreshAccessToken req now now' s =
  match admins s !! adminId with
  | None => (Throw (ApiError NOT_FOUND), s)
  | Some a =>
      if Js.date_lt (refreshTokenExpiry a) now
      then (Throw (ApiError REFRESH_TOKEN_EXPIRED), s)
      else
        let a' := set_access (generateAccessToken adminId (admin_email a))
                    (now' + day) a in
        (Ok (mkReply SUCCESSFUL (OfAdmin (without_password a'))),
         put_admin adminId a' s)
  end.
Proof.
  intros Ht Hne Hd Hid. unfold refreshAccessToken, bind.
  rewrite Ht, (falsy_Some_false t Hne). simpl.
  rewrite Hd, (falsy_Some_false adminId Hid). simpl.
  destruct (admins s !! adminId) as [a|]; [|reflexivity].
  simpl. now destruct (Js.date_lt (refreshTokenExpiry a) now).
Qed.

(** C5: [refreshAccessToken] throws [REFRESH_TOKEN_INVALID] when no
    refresh token is presented or no admin id is decoded from it,
    [NOT_FOUND] when no admin document has that id,
    [REFRESH_TOKEN_EXPIRED] when the stored [refreshTokenExpiry] is before
    the current time, each time leaving the store as it was; otherwise,
    so for a stored expiry [e] with [now <= e], it replies [SUCCESSFUL] and
    the admin document that the store then holds under that id has a new
    access token and an expiry one day ahead, its refresh token, its
    refresh-token expiry and its other fields being those it had, and
    nothing else of the store has changed. *)
Theorem refreshAccessToken_contract (req : RefreshRequest) (now now' : Z)
    (s : Store) :
  (Js.falsy (presented req) = true ->
   refreshAccessToken req now now' s
   = (Throw (ApiError REFRESH_TOKEN_INVALID), s)) /\
  (forall t,
     presented req = Some t -> t <> "" ->
     Js.falsy (jwt_decode t ≫= claim_adminId) = true ->
     refreshAccessToken req now now' s
     = (Throw (ApiError REFRESH_TOKEN_INVALID), s)) /\
  (forall t adminId,
     presented req = Some t -> t <> "" ->
     jwt_decode t ≫= claim_adminId = Some adminId -> adminId <> "" ->
     (admins s !! adminId = None ->
      refreshAccessToken req now now' s = (Throw (ApiError NOT_FOUND), s)) /\
     (forall a,
        admins s !! adminId = Some a ->
        (Js.date_lt (refreshTokenExpiry a) now = true ->
         refreshAccessToken req now now' s
         = (Throw (ApiError REFRESH_TOKEN_EXPIRED), s)) /\
        (forall e, refreshTokenExpiry a = Js.val e -> e < now ->
         refreshAccessToken req now now' s
         = (Throw (ApiError REFRESH_TOKEN_EXPIRED), s)) /\
        ((exists e, refreshTokenExpiry a = Js.val e /\ now <= e)
         \/ Js.date_lt (refreshTokenExpiry a) now = false ->
         exists a' s',
           refreshAccessToken req now now' s
           = (Ok (mkReply SUCCESSFUL (OfAdmin (without_password a'))), s') /\
           admins s' !! adminId = Some a' /\
           (forall j, j <> adminId -> admins s' !! j = admins s !! j) /\
           projects s' = projects s /\ users s' = users s /\
           sessions s' = sessions s /\ logs s' = logs s /\
           accessToken a' = Js.val (generateAccessToken adminId (admin_email a)) /\
           accessTokenExpiry a' = Js.val (now' + day) /\
           refreshToken a' = refreshToken a /\
           refreshTokenExpiry a' = refreshTokenExpiry a /\
           admin_name a' = admin_name a /\
           admin_email a' = admin_email a /\
           admin_password a' = admin_password a /\
           verificationToken a' = verificationToken a /\
           verificationTokenExpiry a' = verificationTokenExpiry a /\
           resetPasswordToken a' = resetPasswordToken a /\
           resetPasswordTokenExpiry a' = resetPasswordTokenExpiry a))).
Proof.
  split; [apply refresh_no_token|].
  split; [intros t; apply refresh_no_admin_id|].
  intros t adminId Ht Hne Hd Hid.
  pose proof (refresh_decoded req now now' s t adminId Ht Hne Hd Hid) as R.
  split.
  - intros Hnone. now rewrite Hnone in R.
  - intros a Ha. rewrite Ha in R. split; [|split].
    + intros Hlt. now rewrite Hlt in R.
    + intros e He Hlt.
      assert (Js.date_lt (refreshTokenExpiry a) now = true) as Hd'
        by (rewrite He; now apply date_lt_val).
      now rewrite Hd' in R.
    + intros Hge.
      assert (Js.date_lt (refreshTokenExpiry a) now = false) as Hd'.
      { destruct Hge as [(e & He & Hle)|Hge]; [|exact Hge].
        rewrite He. simpl. now apply Z.ltb_ge. }
      rewrite Hd' in R. eexists. eexists. split; [exact R|].
      split; [cbn; apply lookup_insert_eq|].
      split; [intros j Hj; cbn; now apply lookup_insert_ne|].
      repeat split.
Qed.

End Refresh.

Lemma refreshAccessToken_contract_witness :
  refreshAccessToken (E := Model.ext) (mkRefreshRequest None None)
    1000 1000 Sample.db
  = (Throw (ApiError REFRESH_TOKEN_INVALID), Sample.db) /\
  refreshAccessToken (E := Model.ext) (mkRefreshRequest (Some "Bearer x.y.z") None)
    1000 1000 Sample.db
  = (Throw (ApiError REFRESH_TOKEN_INVALID), Sample.db) /\
  refreshAccessToken (E := Model.ext) (mkRefreshRequest (Some "Bearer jwt.a9") None)
    1000 1000 Sample.db
  = (Throw (ApiError NOT_FOUND), Sample.db) /\
  refreshAccessToken (E := Model.ext) (mkRefreshRequest None (Some "jwt.a1"))
    6000000 6000000 Sample.db
  = (Throw (ApiError REFRESH_TOKEN_EXPIRED), Sample.db) /\
  exists a' s',
    refreshAccessToken (E := Model.ext) (mkRefreshRequest None (Some "jwt.a1"))
      5000000 5000001 Sample.db
    = (Ok (mkReply SUCCESSFUL (OfAdmin (without_password a'))), s') /\
    admins s' !! "a1" = Some a' /\
    accessTokenExpiry a' = Js.val (5000001 + day) /\
    refreshToken a' = Js.val "jwt.a1" /\
    refreshTokenExpiry a' = Js.val 5000000.
Proof.
  split.
  { apply (refreshAccessToken_contract (E := Model.ext)). reflexivity. }
  split.
  { apply (proj1 (proj2 (refreshAccessToken_contract (E := Model.ext)
                           (mkRefreshRequest (Some "Bearer x.y.z") None)
                           1000 1000 Sample.db)) "x.y.z");
      [reflexivity | discriminate | reflexivity]. }
  split.
  { apply (proj2 (proj2 (refreshAccessToken_contract (E := Model.ext)
                           (mkRefreshRequest (Some "Bearer jwt.a9") None)
                           1000 1000 Sample.db)) "jwt.a9" "a9");
      [reflexivity | discriminate | reflexivity | discriminate | reflexivity]. }
  split.
  { destruct (proj2 (proj2 (refreshAccessToken_contract (E := Model.ext)
                              (mkRefreshRequest None (Some "jwt.a1"))
                              6000000 6000000 Sample.db)) "jwt.a1" "a1")
      as [_ H]; [reflexivity | discriminate | reflexivity | discriminate |].
    destruct (H Sample.alice) as (_ & H' & _); [reflexivity|].
    apply (H' 5000000); [reflexivity | lia]. }
  destruct (proj2 (proj2 (refreshAccessToken_contract (E := Model.ext)
                            (mkRefreshRequest None (Some "jwt.a1"))
                            5000000 5000001 Sample.db)) "jwt.a1" "a1")
    as [_ H]; [reflexivity | discriminate | reflexivity | discriminate |].
  destruct (H Sample.alice) as (_ & _ & H'); [reflexivity|].
  destruct H' as (a' & s' & Hr & Hst & _ & _ & _ & _ & _ & _ & He & Ht & Hx & _).
  { left. exists 5000000. split; [reflexivity|lia]. }
  exists a', s'. exact (conj Hr (conj Hst (conj He (conj Ht Hx)))).
Defined.

Lemma alter_found {A} (f : A -> A) (m : gmap ObjectId A) i a :
  m !! i = Some a -> alter f i m = <[i := f a]> m.
Proof.
  intros H. apply map_eq. intros j.
  rewrite lookup_alter, lookup_insert.
  destruct (decide (i = j)) as [<-|]; [now rewrite H | reflexivity].
Qed.

Lemma deleteLoginSession_found adminId s a :
  admins s !! adminId = Some a ->
  deleteLoginSession adminId s
  = (Ok (mkReply SESSION_DELETED Empty), put_admin adminId (clear_tokens a) s).
Proof.
  intros H. unfold deleteLoginSession, bind, modify, ret, put_admin. simpl.
  now rewrite (alter_found _ _ _ _ H).
Qed.

(** C6: after [deleteLoginSession] the admin document has [null] in
    [accessToken], [accessTokenExpiry], [refreshToken] and
    [refreshTokenExpiry], and is otherwise what it was.  No access token
    passes the check against the stored fields, whatever the time and
    whatever expiry the token itself encodes; and a refresh with a token
    that decodes to this admin throws [REFRESH_TOKEN_EXPIRED] at any time
    after the epoch. *)
Theorem deleteLoginSession_revokes (adminId : ObjectId) (s : Store) (a : Admin) :
  admins s !! adminId = Some a ->
  exists a',
    deleteLoginSession adminId s
    = (Ok (mkReply SESSION_DELETED Empty), put_admin adminId a' s) /\
    admins (put_admin adminId a' s) !! adminId = Some a' /\
    tokens_null a' /\
    admin_name a' = admin_name a /\ admin_email a' = admin_email a /\
    admin_password a' = admin_password a /\
    (forall token now, Model.stored_access_valid a' token now = false) /\
    (forall (E : External) req now now' t,
       presented req = Some t -> t <> "" ->
       jwt_decode t ≫= claim_adminId = Some adminId -> adminId <> "" ->
       0 < now ->
       refreshAccessToken req now now' (put_admin adminId a' s)
       = (Throw (ApiError REFRESH_TOKEN_EXPIRED), put_admin adminId a' s)).
Proof.
  intros Ha. exists (clear_tokens a).
  split; [now apply deleteLoginSession_found|].
  split; [apply lookup_insert_eq|].
  split; [repeat split|].
  do 3 (split; [reflexivity|]).
  split; [reflexivity|].
  intros E req now now' t Ht Hne Hd Hid Hnow.
  rewrite (refresh_decoded req now now' _ t adminId Ht Hne Hd Hid).
  unfold put_admin; simpl. rewrite lookup_insert_eq. simpl.
  now apply Z.ltb_lt in Hnow as ->.
Qed.

Lemma deleteLoginSession_revokes_witness :
  admins Sample.db !! "a1" = Some Sample.alice /\
  Model.stored_access_valid Sample.alice "jwt.a1" 1000 = true /\
  exists a',
    deleteLoginSession "a1" Sample.db
    = (Ok (mkReply SESSION_DELETED Empty), put_admin "a1" a' Sample.db) /\
    tokens_null a' /\
    Model.stored_access_valid a' "jwt.a1" 1000 = false /\
    refreshAccessToken (E := Model.ext) (mkRefreshRequest None (Some "jwt.a1"))
      1000 1000 (put_admin "a1" a' Sample.db)
    = (Throw (ApiError REFRESH_TOKEN_EXPIRED), put_admin "a1" a' Sample.db).
Proof.
  assert (H : admins Sample.db !! "a1" = Some Sample.alice) by reflexivity.
  split; [exact H|].
  split; [reflexivity|].
  destruct (deleteLoginSession_revokes "a1" Sample.db Sample.alice H)
    as (a' & Hr & _ & Hn & _ & _ & _ & Hv & Hf).
  exists a'. split; [exact Hr|]. split; [exact Hn|]. split; [apply Hv|].
  apply (Hf Model.ext _ 1000 1000 "jwt.a1");
    [reflexivity | discriminate | reflexivity | discriminate | lia].
Defined.

(** ** Project names *)

Lemma findOne_None {A} (P : ObjectId * A -> Prop) `{!forall x, Decision (P x)}
    (m : gmap ObjectId A) :
  findOne P m = None <-> forall i x, m !! i = Some x -> ~ P (i, x).
Proof.
  unfold findOne. rewrite head_None, map_to_list_empty_iff, map_empty.
  split.
  - intros Hall i x Hx HP.
    specialize (Hall i). apply map_lookup_filter_None in Hall as [Hn|Hn].
    + congruence.
    + now apply (Hn x).
  - intros Hall i. apply map_lookup_filter_None. right.
    intros x Hx. now apply Hall.
Qed.

Lemma findOne_Some {A} (P : ObjectId * A -> Prop) `{!forall x, Decision (P x)}
    (m : gmap ObjectId A) i x :
  findOne P m = Some (i, x) -> m !! i = Some x /\ P (i, x).
Proof.
  unfold findOne. intros Hh. apply head_Some_elem_of in Hh.
  apply elem_of_map_to_list in Hh. now apply map_lookup_filter_Some in Hh.
Qed.

Lemma findOne_is_Some {A} (P : ObjectId * A -> Prop) `{!forall x, Decision (P x)}
    (m : gmap ObjectId A) i x :
  m !! i = Some x -> P (i, x) -> is_Some (findOne P m).
Proof.
  intros Hx HP. destruct (findOne P m) as [r|] eqn:Hf; [now exists r|].
  exfalso. rewrite findOne_None in Hf. exact (Hf i x Hx HP).
Qed.

Lemma put_project_twice i p q s :
  put_project i q (put_project i p s) = put_project i q s.
Proof. unfold put_project; simpl. now rewrite insert_insert_eq. Qed.

Section CreateProject.

Context {E : External}.

(** Past its checks of the body, [createProject] is the lookup of the
    pair of owner and name followed by the insertion. *)
Lemma createProject_accepted adminId body newId rnd s pName aName aEmail cfg :
  accepted body pName aName aEmail cfg ->
  createProject adminId body newId rnd s =
  match findOne (fun kv => projectName kv.2 = pName /\ owner kv.2 = adminId)
          (projects s) with
  | Some _ => (Throw (ApiError ALREADY_EXISTS), s)
  | None =>
      match projects s !! newId with
      | Some _ => (Throw MongoServerError, s)
      | None =>
          let created :=
            mkProject pName adminId aName aEmail cfg
              (signProjectKey newId adminId) in
          (Ok (mkReply CREATED (OfProject created)),
           put_project newId created s)
      end
  end.
Proof.
  intros (-> & Hp & Ha & He & Zp & Za & Ze & Hc).
  unfold createProject, orelse, blank, bind, ret, get, modify. simpl.
  rewrite (bool_decide_eq_false_2 _ Hp), (bool_decide_eq_false_2 _ Ha),
    (bool_decide_eq_false_2 _ He). simpl.
  rewrite Zp, Za, Ze, Hc. simpl.
  destruct (findOne _ (projects s)) as [r|]; simpl; [reflexivity|].
  destruct (projects s !! newId) as [q|]; simpl; [reflexivity|].
  now rewrite put_project_twice.
Qed.

(** Whatever else the request holds, [createProject] throws and writes
    nothing when a document has its owner and its name. *)
Lemma createProject_taken adminId body newId rnd s i q :
  projects s !! i = Some q -> owner q = adminId ->
  body_projectName body = Some (projectName q) ->
  exists e, createProject adminId body newId rnd s = (Throw e, s).
Proof.
  intros Hq Ho Hn.
  assert (is_Some (findOne (fun kv => projectName kv.2 = projectName q
                                      /\ owner kv.2 = adminId) (projects s)))
    as Hdup by (apply (findOne_is_Some _ _ i q Hq); now split).
  destruct body as [pn [cfg|] [an|] [ae|]]; simpl in Hn; subst pn;
    unfold createProject, orelse, blank, bind, ret, get, modify, throw_if, throw;
    simpl;
    repeat match goal with
           | |- context [if ?b then _ else _] => destruct b eqn:?; simpl
           | |- context [validateProjectConfig ?c] =>
               destruct (validateProjectConfig c); simpl
           end; eauto;
    match goal with
    | H : bool_decide (is_Some (findOne _ _)) = false |- _ =>
        apply bool_decide_eq_false in H; contradiction
    end.
Qed.

(** Whatever the request, the store [createProject] leaves is the one it
    was given, or that one with a single new document whose id was free
    and whose pair of owner and name no document had. *)
Lemma createProject_store adminId body newId rnd s :
  snd (createProject adminId body newId rnd s) = s \/
  exists created,
    snd (createProject adminId body newId rnd s) = put_project newId created s /\
    owner created = adminId /\
    projects s !! newId = None /\
    forall i q, projects s !! i = Some q ->
                ~ (projectName q = projectName created /\ owner q = adminId).
Proof.
  destruct body as [[pn|] [cfg|] [an|] [ae|]];
    unfold createProject, orelse, blank, bind, ret, get, modify, throw_if, throw;
    simpl;
    repeat match goal with
           | |- context [if ?b then _ else _] => destruct b eqn:?; simpl
           | |- context [validateProjectConfig ?c] =>
               destruct (validateProjectConfig c); simpl
           end; auto.
  right. eexists. split; [apply put_project_twice|].
  split; [reflexivity|].
  repeat match goal with
         | H : bool_decide _ = false |- _ => apply bool_decide_eq_false in H
         end.
  split.
  - destruct (projects s !! newId) as [q|] eqn:Hid; [|reflexivity].
    exfalso. eauto.
  - intros i q Hq HP.
    match goal with
    | H : ~ is_Some (findOne _ _) |- _ =>
        apply H; exact (findOne_is_Some _ _ i q Hq HP)
    end.
Qed.

End CreateProject.

Lemma unique_names_put i created s :
  unique_names s ->
  (forall j q, projects s !! j = Some q ->
               ~ (projectName q = projectName created /\ owner q = owner created)) ->
  unique_names (put_project i created s).
Proof.
  intros Hu Hfree a b p q. unfold put_project; simpl.
  rewrite !lookup_insert.
  destruct (decide (i = a)) as [<-|Ha], (decide (i = b)) as [<-|Hb];
    intros Hp Hq Ho Hn; simplify_eq.
  - reflexivity.
  - exfalso. apply (Hfree b q Hq). now split.
  - exfalso. apply (Hfree a p Hp). now split.
  - exact (Hu a b p q Hp Hq Ho Hn).
Qed.

Lemma unique_names_empty : unique_names empty_db.
Proof.
  intros i j p q Hp. unfold empty_db in Hp; simpl in Hp.
  now rewrite lookup_empty in Hp.
Qed.

Section CreateProjectClaim.

Context {E : External}.

Lemma createProject_keeps_unique adminId body newId rnd s :
  unique_names s ->
  unique_names (snd (createProject adminId body newId rnd s)).
Proof.
  intros Hu.
  destruct (createProject_store adminId body newId rnd s)
    as [->|(created & -> & Ho & _ & Hfree)]; [exact Hu|].
  apply unique_names_put; [exact Hu|]. now rewrite Ho.
Qed.

(** C7: for a request that passes the checks of the body,
    [createProject] throws [ALREADY_EXISTS], leaving the store as it was,
    whenever some project document has the owner and the name of the
    request, and replies [CREATED] with the new document stored when the
    documents of that name all have another owner; and whatever the
    request, it throws and writes nothing when a document has its owner
    and its name, a store in which the pairs of owner and name are unique
    is left with unique pairs, and so is every store built from the empty
    one by calls of [createProject]. *)
Theorem createProject_unique_per_owner (adminId : ObjectId)
    (body : ProjectBody) (newId : ObjectId) (rnd : string) (s : Store)
    (pName aName aEmail : string) (cfg : Config) :
  accepted body pName aName aEmail cfg ->
  ((exists i q, projects s !! i = Some q /\
                owner q = adminId /\ projectName q = pName) ->
   createProject adminId body newId rnd s
   = (Throw (ApiError ALREADY_EXISTS), s)) /\
  ((forall i q, projects s !! i = Some q ->
                projectName q = pName -> owner q <> adminId) ->
   projects s !! newId = None ->
   exists created,
     createProject adminId body newId rnd s
     = (Ok (mkReply CREATED (OfProject created)), put_project newId created s) /\
     projectName created = pName /\ owner created = adminId /\
     projects (put_project newId created s) !! newId = Some created) /\
  (forall body' i q,
     projects s !! i = Some q -> owner q = adminId ->
     body_projectName body' = Some (projectName q) ->
     exists e, createProject adminId body' newId rnd s = (Throw e, s)) /\
  (forall adminId' body' newId' rnd',
     unique_names s ->
     unique_names (snd (createProject adminId' body' newId' rnd' s))) /\
  (forall calls : list (ObjectId * ProjectBody * ObjectId * string),
     unique_names
       (fold_left
          (fun s c => snd (createProject c.1.1.1 c.1.1.2 c.1.2 c.2 s))
          calls empty_db)).
Proof.
  intros Hacc.
  pose proof (createProject_accepted adminId body newId rnd s _ _ _ _ Hacc) as R.
  split; [|split; [|split; [|split]]].
  - intros (i & q & Hq & Ho & Hn).
    destruct (findOne_is_Some
                (fun kv => projectName kv.2 = pName /\ owner kv.2 = adminId)
                (projects s) i q Hq (conj Hn Ho)) as [r Hr].
    now rewrite Hr in R.
  - intros Hother Hfree.
    assert (findOne (fun kv => projectName kv.2 = pName /\ owner kv.2 = adminId)
              (projects s) = None) as Hf.
    { apply findOne_None. intros i q Hq [Hn Ho]. exact (Hother i q Hq Hn Ho). }
    rewrite Hf, Hfree in R. eexists. split; [exact R|].
    split; [reflexivity|]. split; [reflexivity|]. apply lookup_insert_eq.
  - intros body' i q. apply createProject_taken.
  - intros adminId' body' newId' rnd'. apply createProject_keeps_unique.
  - intros calls.
    assert (forall s0, unique_names s0 ->
              unique_names
                (fold_left
                   (fun s c => snd (createProject c.1.1.1 c.1.1.2 c.1.2 c.2 s))
                   calls s0)) as Hall.
    { induction calls as [|c calls IH]; intros s0 H0; [exact H0|].
      simpl. apply IH. now apply createProject_keeps_unique. }
    apply Hall, unique_names_empty.
Qed.

End CreateProjectClaim.

Lemma createProject_unique_per_owner_witness :
  accepted (H := Model.ext) (Sample.body "shop")
    "shop" "Shop" "shop@example.org" Sample.cfg /\
  createProject (E := Model.ext) "a1" (Sample.body "shop") "p3" "0.42" Sample.db
  = (Throw (ApiError ALREADY_EXISTS), Sample.db) /\
  (exists created,
     createProject (E := Model.ext) "a3" (Sample.body "shop") "p3" "0.42" Sample.db
     = (Ok (mkReply CREATED (OfProject created)),
        put_project "p3" created Sample.db) /\
     projectName created = "shop" /\ owner created = "a3") /\
  unique_names
    (snd (createProject (E := Model.ext) "a1" (Sample.body "shop") "p3" "0.42"
            empty_db)).
Proof.
  assert (Hacc : accepted (H := Model.ext) (Sample.body "shop")
                   "shop" "Shop" "shop@example.org" Sample.cfg).
  { repeat split; try reflexivity; vm_compute; discriminate. }
  split; [exact Hacc|].
  split.
  { apply (createProject_unique_per_owner (E := Model.ext)
             "a1" _ "p3" "0.42" Sample.db _ _ _ _ Hacc).
    exists "p1", Sample.shop1. repeat split; reflexivity. }
  split.
  { destruct (createProject_unique_per_owner (E := Model.ext)
                "a3" _ "p3" "0.42" Sample.db _ _ _ _ Hacc)
      as (_ & Hnew & _).
    destruct Hnew as (created & Hr & Hn & Ho & _).
    - assert (map_Forall (fun _ q => owner q <> "a3") (projects Sample.db))
        as Hall by (eapply bool_decide_unpack; vm_compute; exact I).
      intros i q Hq _. exact (Hall i q Hq).
    - reflexivity.
    - exists created. exact (conj Hr (conj Hn Ho)). }
  apply (createProject_unique_per_owner (E := Model.ext)
           "a1" _ "p3" "0.42" empty_db _ _ _ _ Hacc).
  apply unique_names_empty.
Defined.

(** ** The log queries *)

Lemma no_rows_nil (q : LogQuery) (s : Store) (page : list Log) :
  (forall l, l ∈ page -> exists i, logs s !! i = Some l /\ answers q l = true) ->
  no_rows q s -> page = [].
Proof.
  intros Hrows Hnone. destruct page as [|l page]; [reflexivity|].
  destruct (Hrows l) as (i & Hi & Ha); [left|].
  rewrite (Hnone i l Hi) in Ha. discriminate.
Qed.

Section LogContract.

Context {E : External}.

Lemma getLogsByEventCode_no_code req s :
  Js.falsy (req_query_eventCode req) = true ->
  getLogsByEventCode req s = (Throw (ApiError NOT_FOUND), s).
Proof. intros H. unfold getLogsByEventCode, bind. now rewrite H. Qed.

Lemma getUserLogsByEventCode_no_code req s :
  Js.falsy (req_query_eventCode req) = true ->
  getUserLogsByEventCode req s = (Throw (ApiError NOT_FOUND), s).
Proof. intros H. unfold getUserLogsByEventCode, bind. now rewrite H. Qed.

(** Each handler, past the test of the event code, is the validator
    followed by the query. *)
Lemma getLogsByUserId_run req s :
  getLogsByUserId req s =
  if validateLogInput (Args.input_byUser req)
  then (Ok (mkReply SUCCESSFUL (OfLogs (getLogsByUserID (Args.query_byUser req) s))), s)
  else (Throw (ApiError VALIDATION_ERROR), s).
Proof.
  unfold getLogsByUserId, bind.
  now destruct (validateLogInput (Args.input_byUser req)).
Qed.

Lemma getLogsByEventCode_run req s :
  Js.falsy (req_query_eventCode req) = false ->
  getLogsByEventCode req s =
  if validateLogInput (Args.input_byEvent req)
  then (Ok (mkReply SUCCESSFUL (OfLogs (getAllLogsByEvent (Args.query_byEvent req) s))), s)
  else (Throw (ApiError VALIDATION_ERROR), s).
Proof.
  intros H. unfold getLogsByEventCode, bind. rewrite H. simpl.
  now destruct (validateLogInput (Args.input_byEvent req)).
Qed.

Lemma getUserLogsByEventCode_run req s :
  Js.falsy (req_query_eventCode req) = false ->
  getUserLogsByEventCode req s =
  if validateLogInput (Args.input_byUserEvent req)
  then (Ok (mkReply SUCCESSFUL
              (OfLogs (getUserLogsByEvent (Args.query_byUserEvent req) s))), s)
  else (Throw (ApiError VALIDATION_ERROR), s).
Proof.
  intros H. unfold getUserLogsByEventCode, bind. rewrite H. simpl.
  now destruct (validateLogInput (Args.input_byUserEvent req)).
Qed.

(** C8, amended: with a validator that rejects unknown event codes and
    missing user ids, and queries whose pages hold rows of the
    collection, the three handlers share this contract.  An absent event
    code throws [NOT_FOUND] in the two handlers that take one; an event
    code outside [EventCode] throws [VALIDATION_ERROR]; an absent user id
    throws [VALIDATION_ERROR] in the two user-scoped handlers (in
    [getUserLogsByEventCode] once the event code is there); whatever the
    validator rejects throws [VALIDATION_ERROR]; and an accepted query
    that no row answers replies [SUCCESSFUL] with the empty page. *)
Theorem log_query_contract (req : LogRequest) (s : Store) :
  rejects_unknown_codes -> rejects_missing_user -> pages_hold_rows ->
  (Js.falsy (req_query_eventCode req) = true ->
   getLogsByEventCode req s = (Throw (ApiError NOT_FOUND), s) /\
   getUserLogsByEventCode req s = (Throw (ApiError NOT_FOUND), s)) /\
  (forall c,
     req_query_eventCode req = Some c -> c <> "" -> c ∉ EventCode ->
     getLogsByEventCode req s = (Throw (ApiError VALIDATION_ERROR), s) /\
     getUserLogsByEventCode req s = (Throw (ApiError VALIDATION_ERROR), s)) /\
  (Args.userId req = None ->
   getLogsByUserId req s = (Throw (ApiError VALIDATION_ERROR), s)) /\
  (Js.falsy (req_query_eventCode req) = false -> req_user_id req = None ->
   getUserLogsByEventCode req s = (Throw (ApiError VALIDATION_ERROR), s)) /\
  (validateLogInput (Args.input_byUser req) = false ->
   getLogsByUserId req s = (Throw (ApiError VALIDATION_ERROR), s)) /\
  (Js.falsy (req_query_eventCode req) = false ->
   (validateLogInput (Args.input_byEvent req) = false ->
    getLogsByEventCode req s = (Throw (ApiError VALIDATION_ERROR), s)) /\
   (validateLogInput (Args.input_byUserEvent req) = false ->
    getUserLogsByEventCode req s = (Throw (ApiError VALIDATION_ERROR), s))) /\
  (validateLogInput (Args.input_byUser req) = true ->
   no_rows (Args.query_byUser req) s ->
   getLogsByUserId req s = (Ok (mkReply SUCCESSFUL (OfLogs [])), s)) /\
  (Js.falsy (req_query_eventCode req) = false ->
   validateLogInput (Args.input_byEvent req) = true ->
   no_rows (Args.query_byEvent req) s ->
   getLogsByEventCode req s = (Ok (mkReply SUCCESSFUL (OfLogs [])), s)) /\
  (Js.falsy (req_query_eventCode req) = false ->
   validateLogInput (Args.input_byUserEvent req) = true ->
   no_rows (Args.query_byUserEvent req) s ->
   getUserLogsByEventCode req s = (Ok (mkReply SUCCESSFUL (OfLogs [])), s)).
Proof.
  intros Hcodes Huser Hrows.
  split; [intros H; split;
          [now apply getLogsByEventCode_no_code
          |now apply getUserLogsByEventCode_no_code]|].
  split.
  { intros c Hc Hne Hout.
    assert (Js.falsy (req_query_eventCode req) = false) as Hf
      by (rewrite Hc; now apply falsy_Some_false).
    rewrite getLogsByEventCode_run, getUserLogsByEventCode_run by exact Hf.
    rewrite (Hcodes (Args.input_byEvent req) c),
      (Hcodes (Args.input_byUserEvent req) c);
      [now split | | | |]; try exact Hout;
      unfold Args.input_byEvent, Args.input_byUserEvent; simpl; now rewrite Hc. }
  split.
  { intros Hu. rewrite getLogsByUserId_run, Huser; [reflexivity|].
    unfold Args.input_byUser; simpl. now rewrite Hu. }
  split.
  { intros Hf Hu. rewrite getUserLogsByEventCode_run by exact Hf.
    rewrite Huser; [reflexivity|].
    unfold Args.input_byUserEvent; simpl. now rewrite Hu. }
  split.
  { intros Hv. now rewrite getLogsByUserId_run, Hv. }
  split.
  { intros Hf. split; intros Hv.
    - now rewrite getLogsByEventCode_run, Hv.
    - now rewrite getUserLogsByEventCode_run, Hv. }
  split.
  { intros Hv Hnone. rewrite getLogsByUserId_run, Hv.
    rewrite (no_rows_nil (Args.query_byUser req) s _); [reflexivity| |exact Hnone].
    intros l Hl. apply Hrows. now left. }
  split.
  { intros Hf Hv Hnone. rewrite getLogsByEventCode_run, Hv by exact Hf.
    rewrite (no_rows_nil (Args.query_byEvent req) s _); [reflexivity| |exact Hnone].
    intros l Hl. apply Hrows. right. now left. }
  intros Hf Hv Hnone. rewrite getUserLogsByEventCode_run, Hv by exact Hf.
  rewrite (no_rows_nil (Args.query_byUserEvent req) s _);
    [reflexivity| |exact Hnone].
  intros l Hl. apply Hrows. right. now right.
Qed.

End LogContract.

(** The validator and the query written after the specification meet the
    contract. *)
Lemma Model_rejects_unknown_codes : rejects_unknown_codes (H := Model.ext).
Proof.
  intros i c Hc Hout. simpl. unfold Model.validate. rewrite Hc.
  rewrite (bool_decide_eq_false_2 _ Hout).
  now rewrite andb_false_r.
Qed.

Lemma Model_rejects_missing_user : rejects_missing_user (H := Model.ext).
Proof.
  intros i Hu. simpl. unfold Model.validate. rewrite Hu.
  now rewrite andb_false_r.
Qed.

Lemma Model_query_rows q s l :
  l ∈ Model.query q s -> exists i, logs s !! i = Some l /\ answers q l = true.
Proof.
  unfold Model.query. intros Hl.
  apply subseteq_take, subseteq_drop in Hl.
  rewrite merge_sort_Permutation in Hl.
  apply list_elem_of_In, filter_In in Hl as [Hin Hok].
  apply list_elem_of_In, list_elem_of_fmap in Hin as ([i l'] & -> & Hin).
  apply elem_of_map_to_list in Hin.
  exists i. split; [exact Hin|].
  now apply andb_true_iff in Hok as [Hok _].
Qed.

Lemma Model_pages_hold_rows : pages_hold_rows (H := Model.ext).
Proof. intros q s l [H|[H|H]]; exact (Model_query_rows q s l H). Qed.

(** C8, as stated, fails: a request to [getLogsByEventCode] or to
    [getUserLogsByEventCode] that carries no event code is answered with
    [NOT_FOUND], not with [VALIDATION_ERROR]. *)
Lemma absent_eventCode_is_not_found :
  getLogsByEventCode (E := Model.ext)
    (mkLogRequest None (Some "p1") None Sample.log_body) Sample.db
  = (Throw (ApiError NOT_FOUND), Sample.db) /\
  getUserLogsByEventCode (E := Model.ext)
    (mkLogRequest (Some "u1") (Some "p1") None Sample.log_body) Sample.db
  = (Throw (ApiError NOT_FOUND), Sample.db) /\
  fst (getLogsByEventCode (E := Model.ext)
         (mkLogRequest None (Some "p1") None Sample.log_body) Sample.db)
  <> Throw (ApiError VALIDATION_ERROR).
Proof.
  split; [reflexivity|]. split; [reflexivity|]. discriminate.
Qed.

Lemma log_query_contract_witness :
  rejects_unknown_codes (H := Model.ext) /\
  rejects_missing_user (H := Model.ext) /\
  pages_hold_rows (H := Model.ext) /\
  getLogsByEventCode (E := Model.ext)
    (mkLogRequest None (Some "p1") None Sample.log_body) Sample.db
  = (Throw (ApiError NOT_FOUND), Sample.db) /\
  getLogsByEventCode (E := Model.ext)
    (mkLogRequest None (Some "p1") (Some "SIGNUP?") Sample.log_body) Sample.db
  = (Throw (ApiError VALIDATION_ERROR), Sample.db) /\
  getLogsByUserId (E := Model.ext)
    (mkLogRequest None (Some "p1") None Sample.log_body) Sample.db
  = (Throw (ApiError VALIDATION_ERROR), Sample.db) /\
  getLogsByEventCode (E := Model.ext)
    (mkLogRequest None (Some "p1") (Some "LOGOUT") Sample.log_body) Sample.db
  = (Ok (mkReply SUCCESSFUL (OfLogs [])), Sample.db).
Proof.
  pose proof Model_rejects_unknown_codes as H1.
  pose proof Model_rejects_missing_user as H2.
  pose proof Model_pages_hold_rows as H3.
  split; [exact H1|]. split; [exact H2|]. split; [exact H3|].
  split.
  { apply (log_query_contract (E := Model.ext) _ Sample.db H1 H2 H3).
    reflexivity. }
  split.
  { apply (proj1 (proj2 (log_query_contract (E := Model.ext)
                           (mkLogRequest None (Some "p1") (Some "SIGNUP?")
                              Sample.log_body)
                           Sample.db H1 H2 H3)) "SIGNUP?");
      [reflexivity | discriminate |].
    eapply bool_decide_unpack. vm_compute. exact I. }
  split.
  { apply (proj1 (proj2 (proj2 (log_query_contract (E := Model.ext)
                                  (mkLogRequest None (Some "p1") None
                                     Sample.log_body)
                                  Sample.db H1 H2 H3)))).
    reflexivity. }
  apply (proj1 (proj2 (proj2 (proj2 (proj2 (proj2 (proj2 (proj2
           (log_query_contract (E := Model.ext)
              (mkLogRequest None (Some "p1") (Some "LOGOUT") Sample.log_body)
              Sample.db H1 H2 H3))))))))).
  - reflexivity.
  - reflexivity.
  - assert (map_Forall (fun _ l => log_eventCode l <> "LOGOUT") (logs Sample.db))
      as Hall by (eapply bool_decide_unpack; vm_compute; exact I).
    intros i l Hl. unfold answers; simpl.
    rewrite (bool_decide_eq_false_2 _ (Hall i l Hl)). now rewrite andb_false_r.
Defined.

(** ** Resetting parts of the project configuration *)

Section Reset.

Context {E : External}.

Lemma resetEmailTemplate_found projectId emailTemplate s p :
  emailTemplate ∈ EmailTemplateName ->
  projects s !! projectId = Some p ->
  resetEmailTemplateToDefault projectId emailTemplate s
  = (Ok (mkReply SUCCESSFUL Empty),
     put_project projectId
       (set_config
          (mkConfig (loginMethods (config p)) (security (config p))
             (delete emailTemplate (emailTemplates (config p)))) p) s).
Proof.
  intros Hin Hp. unfold resetEmailTemplateToDefault, bind, get.
  rewrite (bool_decide_eq_true_2 _ Hin). simpl. now rewrite Hp.
Qed.

Lemma resetEmailTemplate_missing projectId emailTemplate s :
  emailTemplate ∈ EmailTemplateName ->
  projects s !! projectId = None ->
  resetEmailTemplateToDefault projectId emailTemplate s = (Throw TypeError, s).
Proof.
  intros Hin Hp. unfold resetEmailTemplateToDefault, bind, get.
  rewrite (bool_decide_eq_true_2 _ Hin). simpl. now rewrite Hp.
Qed.

(** C9: for a template name of [EmailTemplateName] and an existing
    project, [resetEmailTemplateToDefault] replies [SUCCESSFUL] and the
    stored project differs from the one before only in
    [config.emailTemplates], from which exactly the key [emailTemplate]
    is gone: every other override, the login methods, the security
    settings, the other fields of the project, the other projects and
    the other collections are what they were. *)
Theorem resetEmailTemplateToDefault_frame (projectId : ObjectId)
    (emailTemplate : string) (s : Store) (p : Project) :
  emailTemplate ∈ EmailTemplateName ->
  projects s !! projectId = Some p ->
  exists p' s',
    resetEmailTemplateToDefault projectId emailTemplate s
    = (Ok (mkReply SUCCESSFUL Empty), s') /\
    projects s' !! projectId = Some p' /\
    emailTemplates (config p') !! emailTemplate = None /\
    (forall k, k <> emailTemplate ->
               emailTemplates (config p') !! k = emailTemplates (config p) !! k) /\
    loginMethods (config p') = loginMethods (config p) /\
    security (config p') = security (config p) /\
    projectName p' = projectName p /\ owner p' = owner p /\
    appName p' = appName p /\ appEmail p' = appEmail p /\
    projectKey p' = projectKey p /\
    (forall j, j <> projectId -> projects s' !! j = projects s !! j) /\
    admins s' = admins s /\ users s' = users s /\
    sessions s' = sessions s /\ logs s' = logs s.
Proof.
  intros Hin Hp.
  pose proof (resetEmailTemplate_found projectId emailTemplate s p Hin Hp) as R.
  eexists. eexists. split; [exact R|].
  split; [apply lookup_insert_eq|].
  split; [apply lookup_delete_eq|].
  split; [intros k Hk; simpl; now apply lookup_delete_ne|].
  do 7 (split; [reflexivity|]).
  split; [intros j Hj; simpl; now apply lookup_insert_ne|].
  repeat split.
Qed.

Lemma resetSecurity_found projectId s p :
  projects s !! projectId = Some p ->
  resetSecuritySettingToDefault projectId s
  = (Ok (mkReply SUCCESSFUL Empty),
     put_project projectId
       (set_config
          (mkConfig (loginMethods (config p)) (mkSecurity 1000 5)
             (emailTemplates (config p))) p) s).
Proof.
  intros Hp. unfold resetSecuritySettingToDefault, bind, get. now rewrite Hp.
Qed.

Lemma resetSecurity_missing projectId s :
  projects s !! projectId = None ->
  resetSecuritySettingToDefault projectId s = (Throw TypeError, s).
Proof.
  intros Hp. unfold resetSecuritySettingToDefault, bind, get. now rewrite Hp.
Qed.

Lemma resetEmailTemplate_bad_name projectId emailTemplate s :
  emailTemplate ∉ EmailTemplateName ->
  resetEmailTemplateToDefault projectId emailTemplate s
  = (Throw (ApiError INVALID_FORMAT), s).
Proof.
  intros Hout. unfold resetEmailTemplateToDefault, bind.
  now rewrite (bool_decide_eq_false_2 _ Hout).
Qed.

(** C10: [resetSecuritySettingToDefault] and
    [resetEmailTemplateToDefault] have no [NOT_FOUND] branch.  When the
    project exists the first stores [{userLimit: 1000, userSessionLimit:
    5}] as its security settings and the second, for a template name of
    the enumeration, removes the template key, both replying
    [SUCCESSFUL]: the project document that the store then holds under
    the id shows the change, and its other fields are as they were; when
    it does not exist each throws the [TypeError] of
    reading [config] of [null] and leaves the store as it was; and on no
    input does either throw an [ApiError] of type [NOT_FOUND]. *)
Theorem reset_without_not_found (projectId : ObjectId)
    (emailTemplate : string) (s : Store) :
  (forall p,
     projects s !! projectId = Some p ->
     (exists p' s',
        resetSecuritySettingToDefault projectId s
        = (Ok (mkReply SUCCESSFUL Empty), s') /\
        s' = put_project projectId p' s /\
        projects s' !! projectId = Some p' /\
        security (config p') = mkSecurity 1000 5 /\
        loginMethods (config p') = loginMethods (config p) /\
        emailTemplates (config p') = emailTemplates (config p) /\
        projectName p' = projectName p /\ owner p' = owner p /\
        appName p' = appName p /\ appEmail p' = appEmail p /\
        projectKey p' = projectKey p) /\
     (emailTemplate ∈ EmailTemplateName ->
      exists p' s',
        resetEmailTemplateToDefault projectId emailTemplate s
        = (Ok (mkReply SUCCESSFUL Empty), s') /\
        s' = put_project projectId p' s /\
        projects s' !! projectId = Some p' /\
        emailTemplates (config p')
        = delete emailTemplate (emailTemplates (config p)) /\
        emailTemplates (config p') !! emailTemplate = None /\
        security (config p') = security (config p) /\
        loginMethods (config p') = loginMethods (config p) /\
        projectName p' = projectName p /\ owner p' = owner p /\
        appName p' = appName p /\ appEmail p' = appEmail p /\
        projectKey p' = projectKey p)) /\
  (projects s !! projectId = None ->
   resetSecuritySettingToDefault projectId s = (Throw TypeError, s) /\
   (emailTemplate ∈ EmailTemplateName ->
    resetEmailTemplateToDefault projectId emailTemplate s = (Throw TypeError, s))) /\
  fst (resetSecuritySettingToDefault projectId s) <> Throw (ApiError NOT_FOUND) /\
  fst (resetEmailTemplateToDefault projectId emailTemplate s)
  <> Throw (ApiError NOT_FOUND).
Proof.
  split; [|split; [|split]].
  - intros p Hp. split.
    + eexists. eexists. split; [exact (resetSecurity_found _ _ _ Hp)|].
      split; [reflexivity|].
      split; [cbn; apply lookup_insert_eq|]. repeat split.
    + intros Hin. eexists. eexists.
      split; [exact (resetEmailTemplate_found _ _ _ _ Hin Hp)|].
      split; [reflexivity|].
      split; [cbn; apply lookup_insert_eq|].
      split; [reflexivity|].
      split; [cbn; apply lookup_delete_eq|]. repeat split.
  - intros Hp. split; [now apply resetSecurity_missing|].
    intros Hin. now apply resetEmailTemplate_missing.
  - destruct (projects s !! projectId) as [p|] eqn:Hp.
    + now rewrite (resetSecurity_found _ _ _ Hp).
    + now rewrite (resetSecurity_missing _ _ Hp).
  - destruct (decide (emailTemplate ∈ EmailTemplateName)) as [Hin|Hout].
    + destruct (projects s !! projectId) as [p|] eqn:Hp.
      * now rewrite (resetEmailTemplate_found _ _ _ _ Hin Hp).
      * now rewrite (resetEmailTemplate_missing _ _ _ Hin Hp).
    + now rewrite (resetEmailTemplate_bad_name _ _ _ Hout).
Qed.

End Reset.

Lemma resetEmailTemplateToDefault_frame_witness :
  "welcome" ∈ EmailTemplateName (External := Model.ext) /\
  projects Sample.db !! "p1" = Some Sample.shop1 /\
  emailTemplates (config Sample.shop1) !! "welcome" = Some "Hello!" /\
  exists p' s',
    resetEmailTemplateToDefault (E := Model.ext) "p1" "welcome" Sample.db
    = (Ok (mkReply SUCCESSFUL Empty), s') /\
    projects s' !! "p1" = Some p' /\
    emailTemplates (config p') !! "welcome" = None /\
    emailTemplates (config p') !! "resetPassword" = Some "Reset it".
Proof.
  assert (H1 : "welcome" ∈ EmailTemplateName (External := Model.ext))
    by (eapply bool_decide_unpack; vm_compute; exact I).
  assert (H2 : projects Sample.db !! "p1" = Some Sample.shop1) by reflexivity.
  split; [exact H1|]. split; [exact H2|]. split; [reflexivity|].
  destruct (resetEmailTemplateToDefault_frame (E := Model.ext)
              "p1" "welcome" Sample.db Sample.shop1 H1 H2)
    as (p' & s' & Hr & Hp & Hgone & Hkeep & _).
  exists p', s'. split; [exact Hr|]. split; [exact Hp|]. split; [exact Hgone|].
  rewrite Hkeep by discriminate. reflexivity.
Defined.

Lemma reset_without_not_found_witness :
  "welcome" ∈ EmailTemplateName (External := Model.ext) /\
  projects Sample.db !! "p9" = None /\
  resetSecuritySettingToDefault "p9" Sample.db = (Throw TypeError, Sample.db) /\
  resetEmailTemplateToDefault (E := Model.ext) "p9" "welcome" Sample.db
  = (Throw TypeError, Sample.db) /\
  security (config Sample.shop1) = mkSecurity 50 2 /\
  (exists p' s',
     resetSecuritySettingToDefault "p1" Sample.db
     = (Ok (mkReply SUCCESSFUL Empty), s') /\
     projects s' !! "p1" = Some p' /\
     security (config p') = mkSecurity 1000 5) /\
  emailTemplates (config Sample.shop1) !! "welcome" = Some "Hello!" /\
  exists p' s',
    resetEmailTemplateToDefault (E := Model.ext) "p1" "welcome" Sample.db
    = (Ok (mkReply SUCCESSFUL Empty), s') /\
    projects s' !! "p1" = Some p' /\
    emailTemplates (config p') !! "welcome" = None.
Proof.
  assert (H1 : "welcome" ∈ EmailTemplateName (External := Model.ext))
    by (eapply bool_decide_unpack; vm_compute; exact I).
  assert (H2 : projects Sample.db !! "p9" = None) by reflexivity.
  split; [exact H1|]. split; [exact H2|].
  destruct (reset_without_not_found (E := Model.ext) "p9" "welcome" Sample.db)
    as (_ & Hmiss & _).
  destruct (Hmiss H2) as (Hs & He).
  split; [exact Hs|]. split; [exact (He H1)|].
  destruct (reset_without_not_found (E := Model.ext) "p1" "welcome" Sample.db)
    as (Hfound & _).
  destruct (Hfound Sample.shop1)
    as [(p' & s' & Hr & _ & Hst & Hsec & _) Htpl]; [reflexivity|].
  split; [reflexivity|].
  split; [exists p', s'; exact (conj Hr (conj Hst Hsec))|].
  split; [reflexivity|].
  destruct (Htpl H1) as (p2 & s2 & Hr2 & _ & Hst2 & _ & Hgone & _).
  exists p2, s2. exact (conj Hr2 (conj Hst2 Hgone)).
Defined.

(** * Further properties of the handlers *)

(** ** Deleting projects *)

Lemma filter_swap {A} (P Q : ObjectId * A -> Prop)
    `{!forall x, Decision (P x)} `{!forall x, Decision (Q x)}
    (m : gmap ObjectId A) :
  filter P (filter Q m) = filter Q (filter P m).
Proof.
  apply map_eq. intros i. apply option_eq. intros x.
  rewrite !map_lookup_filter_Some. tauto.
Qed.

Lemma filter_lookup_inv {A} (P : ObjectId * A -> Prop)
    `{!forall x, Decision (P x)} (m : gmap ObjectId A) i x :
  filter P m !! i = Some x -> m !! i = Some x.
Proof. intros Hx. now apply map_lookup_filter_Some in Hx. Qed.

(** X1: [deleteProject(p)] touches nothing but project [p] and the users,
    sessions and logs that name it.  The admins, the other projects and
    the documents of other projects are kept as they are, and no document
    appears that was not there. *)
Theorem deleteProject_frame (p : ObjectId) (s : Store) :
  p <> "" ->
  exists s',
    deleteProject (Some p) s = (Ok (mkReply DELETED Empty), s') /\
    admins s' = admins s /\
    (forall q, q <> p -> projects s' !! q = projects s !! q) /\
    (forall i u, users s' !! i = Some u <->
                 users s !! i = Some u /\ user_projectId u <> p) /\
    (forall i x, sessions s' !! i = Some x <->
                 sessions s !! i = Some x /\ session_projectId x <> p) /\
    (forall i l, logs s' !! i = Some l <->
                 logs s !! i = Some l /\ log_projectId l <> p).
Proof.
  intros Hp. exists (run_writes (cascade p) s).
  split; [now apply deleteProject_run|].
  rewrite run_cascade; simpl.
  split; [reflexivity|].
  split; [intros q Hq; now apply lookup_delete_ne|].
  split; [intros i u; apply map_lookup_filter_Some|].
  split; [intros i x; apply map_lookup_filter_Some|].
  intros i l; apply map_lookup_filter_Some.
Qed.

Lemma deleteProject_frame_witness :
  "p1" <> "" /\
  exists s',
    deleteProject (Some "p1") Sample.db = (Ok (mkReply DELETED Empty), s') /\
    projects s' !! "p2" = Some Sample.shop2 /\
    users s' !! "u2" = Some Sample.u2 /\
    users s' !! "u1" = None.
Proof.
  split; [discriminate|].
  destruct (deleteProject_frame "p1" Sample.db) as (s' & Hr & _ & Hp & Hu & _);
    [discriminate|].
  exists s'. split; [exact Hr|].
  split; [rewrite Hp by discriminate; reflexivity|].
  split; [apply Hu; split; [reflexivity|discriminate]|].
  destruct (users s' !! "u1") as [u|] eqn:Hu1; [|reflexivity].
  apply Hu in Hu1 as [Hin Hne]. vm_compute in Hin. injection Hin as <-.
  now contradiction Hne.
Defined.

Lemma run_cascade_swap p q s :
  run_writes (cascade q) (run_writes (cascade p) s)
  = run_writes (cascade p) (run_writes (cascade q) s).
Proof.
  rewrite !run_cascade; simpl. f_equal;
    first [apply delete_delete | apply filter_swap].
Qed.

(** X2: two projects can be deleted in either order: [deleteProject(p)]
    followed by [deleteProject(q)] leaves the store that
    [deleteProject(q)] followed by [deleteProject(p)] leaves, and both
    reply [DELETED] each time. *)
Theorem deleteProject_commutes (p q : ObjectId) (s : Store) :
  p <> "" -> q <> "" ->
  exists sp sq s',
    deleteProject (Some p) s = (Ok (mkReply DELETED Empty), sp) /\
    deleteProject (Some q) sp = (Ok (mkReply DELETED Empty), s') /\
    deleteProject (Some q) s = (Ok (mkReply DELETED Empty), sq) /\
    deleteProject (Some p) sq = (Ok (mkReply DELETED Empty), s') /\
    purged p s' /\ purged q s'.
Proof.
  intros Hp Hq.
  exists (run_writes (cascade p) s), (run_writes (cascade q) s),
    (run_writes (cascade q) (run_writes (cascade p) s)).
  rewrite !deleteProject_run by assumption.
  split; [reflexivity|]. split; [reflexivity|]. split; [reflexivity|].
  split; [now rewrite run_cascade_swap|].
  split.
  - apply purged_run_writes, purged_run_cascade.
  - apply purged_run_cascade.
Qed.

Lemma deleteProject_commutes_witness :
  "p1" <> "" /\ "p2" <> "" /\
  exists sp sq s',
    deleteProject (Some "p1") Sample.db = (Ok (mkReply DELETED Empty), sp) /\
    deleteProject (Some "p2") sp = (Ok (mkReply DELETED Empty), s') /\
    deleteProject (Some "p2") Sample.db = (Ok (mkReply DELETED Empty), sq) /\
    deleteProject (Some "p1") sq = (Ok (mkReply DELETED Empty), s').
Proof.
  split; [discriminate|]. split; [discriminate|].
  destruct (deleteProject_commutes "p1" "p2" Sample.db)
    as (sp & sq & s' & H1 & H2 & H3 & H4 & _); [discriminate|discriminate|].
  exists sp, sq, s'. exact (conj H1 (conj H2 (conj H3 H4))).
Defined.

Lemma deleteAllProjects_interleaved_witness :
  pending (deleteAllProjects "a1" Sample.db3) = [cascade "p3"; cascade "p1"] /\
  rtc advance (Sample.db3, pending (deleteAllProjects "a1" Sample.db3))
      (run_writes Sample.taking_turns Sample.db3, [[]; []]) /\
  purged "p1" (run_writes Sample.taking_turns Sample.db3) /\
  purged "p3" (run_writes Sample.taking_turns Sample.db3).
Proof.
  assert (Hids : owned_ids "a1" Sample.db3 = ["p3"; "p1"])
    by (vm_compute; reflexivity).
  assert (Hrun : rtc advance
                   (Sample.db3, pending (deleteAllProjects "a1" Sample.db3))
                   (run_writes Sample.taking_turns Sample.db3, [[]; []])).
  { unfold deleteAllProjects; simpl. rewrite Hids.
    change (map cascade ["p3"; "p1"]) with [cascade "p3"; cascade "p1"].
    unfold cascade, Sample.taking_turns, run_writes. cbn [fold_left].
    eapply rtc_l; [exact (advance_write _ [_] _ _ [])|].
    eapply rtc_l; [exact (advance_write _ [] _ _ [_])|].
    eapply rtc_l; [exact (advance_write _ [] _ _ [_])|].
    eapply rtc_l; [exact (advance_write _ [_] _ _ [])|].
    eapply rtc_l; [exact (advance_write _ [_] _ _ [])|].
    eapply rtc_l; [exact (advance_write _ [] _ _ [_])|].
    eapply rtc_l; [exact (advance_write _ [] _ _ [_])|].
    eapply rtc_l; [exact (advance_write _ [_] _ _ [])|].
    apply rtc_refl. }
  split; [unfold deleteAllProjects; simpl; now rewrite Hids|].
  split; [exact Hrun|].
  split.
  - apply (deleteAllProjects_interleaved "a1" Sample.db3 _ [[]; []] "p1" Hrun);
      [repeat constructor | rewrite Hids; right; left].
  - apply (deleteAllProjects_interleaved "a1" Sample.db3 _ [[]; []] "p3" Hrun);
      [repeat constructor | rewrite Hids; left].
Defined.

(** ** Deleting an admin account *)

Lemma elem_of_owned_ids adminId s p :
  p ∈ owned_ids adminId s <->
  exists q, projects s !! p = Some q /\ owner q = adminId.
Proof.
  unfold owned_ids. rewrite list_elem_of_fmap. split.
  - intros ([i q] & -> & Hin). apply elem_of_map_to_list in Hin.
    apply map_lookup_filter_Some in Hin as [Hq Ho]. now exists q.
  - intros (q & Hq & Ho). exists (p, q). split; [reflexivity|].
    apply elem_of_map_to_list. now apply map_lookup_filter_Some.
Qed.

Lemma after_deleteAccount_eq adminId s :
  after_deleteAccount adminId s =
  mkStore (delete adminId (admins s))
    (filter (fun kv => owner kv.2 <> adminId) (projects s))
    (filter (fun kv => outside (owned_ids adminId s) (user_projectId kv.2)) (users s))
    (filter (fun kv => outside (owned_ids adminId s) (session_projectId kv.2))
       (sessions s))
    (filter (fun kv => outside (owned_ids adminId s) (log_projectId kv.2)) (logs s)).
Proof. reflexivity. Qed.

(** X4: [deleteAccount] replies [ACCOUNT_DELETED] and leaves no document
    of the admin, no project the admin owned, and no user, session or log
    of a project the admin owned. *)
Theorem deleteAccount_complete (adminId : ObjectId) (s : Store) :
  exists s',
    deleteAccount adminId s = (Ok (mkReply ACCOUNT_DELETED Empty), s') /\
    admins s' !! adminId = None /\
    (forall i q, projects s' !! i = Some q -> owner q <> adminId) /\
    (forall p q, projects s !! p = Some q -> owner q = adminId -> purged p s').
Proof.
  exists (after_deleteAccount adminId s). split; [reflexivity|].
  rewrite after_deleteAccount_eq; simpl.
  split; [apply lookup_delete_eq|].
  split.
  - intros i q Hq. now apply map_lookup_filter_Some in Hq as [_ Ho].
  - intros p q Hq Ho.
    assert (p ∈ owned_ids adminId s) as Hin
      by (apply elem_of_owned_ids; now exists q).
    unfold purged; simpl. split.
    + apply map_lookup_filter_None. right. intros q' Hq'. simpl.
      rewrite Hq in Hq'. injection Hq' as <-. intros Hne. now apply Hne.
    + repeat split; intros i x Hx; apply map_lookup_filter_Some in Hx as [_ Hout];
        simpl in Hout; intros Heq; rewrite Heq in Hout; now apply Hout.
Qed.

(** X5: [deleteAccount] removes nothing else.  Another admin's document
    stays; a project stays exactly when another admin owns it; a user, a
    session or a log stays exactly when its project is not one the admin
    owns in the store, so a dependent whose project has no document is
    kept too. *)
Theorem deleteAccount_frame (adminId : ObjectId) (s : Store) :
  exists s',
    deleteAccount adminId s = (Ok (mkReply ACCOUNT_DELETED Empty), s') /\
    (forall j, j <> adminId -> admins s' !! j = admins s !! j) /\
    (forall i q, projects s' !! i = Some q <->
                 projects s !! i = Some q /\ owner q <> adminId) /\
    (forall i u, users s' !! i = Some u <->
                 users s !! i = Some u /\
                 forall q, projects s !! user_projectId u = Some q ->
                           owner q <> adminId) /\
    (forall i x, sessions s' !! i = Some x <->
                 sessions s !! i = Some x /\
                 forall q, projects s !! session_projectId x = Some q ->
                           owner q <> adminId) /\
    (forall i l, logs s' !! i = Some l <->
                 logs s !! i = Some l /\
                 forall q, projects s !! log_projectId l = Some q ->
                           owner q <> adminId).
Proof.
  assert (forall p, outside (owned_ids adminId s) p <->
                    forall q, projects s !! p = Some q -> owner q <> adminId)
    as Hout.
  { intros p. unfold outside. rewrite elem_of_owned_ids. split.
    - intros Hn q Hq Ho. apply Hn. now exists q.
    - intros Hn (q & Hq & Ho). exact (Hn q Hq Ho). }
  exists (after_deleteAccount adminId s). split; [reflexivity|].
  rewrite after_deleteAccount_eq; simpl.
  split; [intros j Hj; now apply lookup_delete_ne|].
  split; [intros i q; apply map_lookup_filter_Some|].
  split; [intros i u; rewrite map_lookup_filter_Some; simpl; now rewrite Hout|].
  split; [intros i x; rewrite map_lookup_filter_Some; simpl; now rewrite Hout|].
  intros i l; rewrite map_lookup_filter_Some; simpl; now rewrite Hout.
Qed.

Lemma delete_as_filter {A} (p : ObjectId) (m : gmap ObjectId A) :
  delete p m = filter (fun kv => kv.1 <> p) m.
Proof.
  apply map_eq. intros i. apply option_eq. intros x.
  rewrite map_lookup_filter_Some, lookup_delete_Some. simpl.
  split; intros [H1 H2]; split; congruence.
Qed.

Lemma filter_filter_as {A} (P Q R : ObjectId * A -> Prop)
    `{!forall x, Decision (P x)} `{!forall x, Decision (Q x)}
    `{!forall x, Decision (R x)} (m : gmap ObjectId A) :
  (forall x, R x <-> P x /\ Q x) ->
  filter P (filter Q m) = filter R m.
Proof.
  intros HR. apply map_eq. intros i. apply option_eq. intros x.
  rewrite !map_lookup_filter_Some, HR. tauto.
Qed.

Lemma filter_all {A} (P : ObjectId * A -> Prop) `{!forall x, Decision (P x)}
    (m : gmap ObjectId A) :
  (forall x, P x) -> filter P m = m.
Proof.
  intros HP. apply map_eq. intros i. apply option_eq. intros x.
  rewrite map_lookup_filter_Some. split; [tauto|]. intros Hx. split; [exact Hx|apply HP].
Qed.

(** The store the chains of a list of projects leave, run one after the
    other. *)
Lemma settle_cascades ids s :
  settle (map cascade ids) s =
  mkStore (admins s)
    (filter (fun kv => outside ids kv.1) (projects s))
    (filter (fun kv => outside ids (user_projectId kv.2)) (users s))
    (filter (fun kv => outside ids (session_projectId kv.2)) (sessions s))
    (filter (fun kv => outside ids (log_projectId kv.2)) (logs s)).
Proof.
  revert s. induction ids as [|p ids IH]; intros s.
  - destruct s; simpl. unfold outside.
    f_equal; symmetry; apply filter_all; intros x; apply not_elem_of_nil.
  - change (settle (map cascade (p :: ids)) s)
      with (settle (map cascade ids) (run_writes (cascade p) s)).
    rewrite IH, run_cascade; simpl. rewrite delete_as_filter.
    f_equal; apply filter_filter_as; intros x; unfold outside;
      rewrite not_elem_of_cons; tauto.
Qed.

(** X6: [deleteAccount] ends in the store that the detached chains of
    [deleteAllProjects] for the same admin would leave once all of them
    have run, with the admin document removed as well. *)
Theorem deleteAccount_as_deleteAllProjects (adminId : ObjectId) (s : Store) :
  snd (deleteAccount adminId s) =
  let t := settle (pending (deleteAllProjects adminId s)) s in
  mkStore (delete adminId (admins t)) (projects t) (users t) (sessions t) (logs t).
Proof.
  unfold deleteAccount, bind, modify, ret; simpl.
  rewrite after_deleteAccount_eq.
  change (pending (deleteAllProjects adminId s))
    with (map cascade (owned_ids adminId s)).
  rewrite settle_cascades; simpl. f_equal.
  apply map_eq. intros i. apply option_eq. intros q.
  rewrite !map_lookup_filter_Some. simpl. unfold outside.
  rewrite elem_of_owned_ids. split; intros [Hq Hn]; (split; [exact Hq|]).
  - intros (q' & Hq' & Ho). rewrite Hq in Hq'. injection Hq' as <-.
    now apply Hn.
  - intros Ho. apply Hn. now exists q.
Qed.

(** A store with no orphan keeps none when a set of projects goes with
    everything that names them. *)
Lemma no_orphans_after (s s' : Store) :
  no_orphans s ->
  (forall i u, users s' !! i = Some u ->
               users s !! i = Some u /\
               projects s' !! user_projectId u = projects s !! user_projectId u) ->
  (forall i x, sessions s' !! i = Some x ->
               sessions s !! i = Some x /\
               projects s' !! session_projectId x = projects s !! session_projectId x) ->
  (forall i l, logs s' !! i = Some l ->
               logs s !! i = Some l /\
               projects s' !! log_projectId l = projects s !! log_projectId l) ->
  no_orphans s'.
Proof.
  intros (Hu & Hs & Hl) Hu' Hs' Hl'. repeat split.
  - intros i u Hi. destruct (Hu' i u Hi) as [Hin ->]. exact (Hu i u Hin).
  - intros i x Hi. destruct (Hs' i x Hi) as [Hin ->]. exact (Hs i x Hin).
  - intros i l Hi. destruct (Hl' i l Hi) as [Hin ->]. exact (Hl i l Hin).
Qed.

(** X7: a store in which every user, session and log names an existing
    project is in that state again after a completed [deleteProject] and
    after a [deleteAccount]. *)
Theorem deletes_leave_no_orphans (p adminId : ObjectId) (s : Store) :
  no_orphans s -> p <> "" ->
  no_orphans (snd (deleteProject (Some p) s)) /\
  no_orphans (snd (deleteAccount adminId s)).
Proof.
  intros Hno Hp. split.
  - rewrite deleteProject_run by exact Hp. cbn [snd]. rewrite run_cascade.
    apply (no_orphans_after s); [exact Hno| | |]; simpl;
      intros i x Hx; apply map_lookup_filter_Some in Hx as [Hx Hne];
      (split; [exact Hx|]); apply lookup_delete_ne; simpl in Hne; congruence.
  - unfold deleteAccount, bind, modify, ret; simpl. rewrite after_deleteAccount_eq.
    destruct Hno as (Hu & Hs & Hl).
    assert (forall pr, is_Some (projects s !! pr) ->
                       outside (owned_ids adminId s) pr ->
                       filter (fun kv => owner kv.2 <> adminId) (projects s) !! pr
                       = projects s !! pr) as Hkeep.
    { intros pr [q Hq] Hout. rewrite Hq. apply map_lookup_filter_Some.
      split; [exact Hq|]. simpl. intros Ho. apply Hout.
      apply elem_of_owned_ids. now exists q. }
    apply (no_orphans_after s); [now repeat split| | |]; simpl;
      intros i x Hx; apply map_lookup_filter_Some in Hx as [Hx Hout];
      (split; [exact Hx|]); apply Hkeep; eauto.
Qed.

Lemma deletes_leave_no_orphans_witness :
  no_orphans Sample.db /\ "p1" <> "" /\
  no_orphans (snd (deleteProject (Some "p1") Sample.db)) /\
  no_orphans (snd (deleteAccount "a2" Sample.db)).
Proof.
  assert (Hno : no_orphans Sample.db).
  { split; [|split].
    - assert (map_Forall (fun _ u => is_Some (projects Sample.db !! user_projectId u))
                (users Sample.db)) as Hall
        by (eapply bool_decide_unpack; vm_compute; exact I).
      intros i u Hi. exact (Hall i u Hi).
    - assert (map_Forall
                (fun _ x => is_Some (projects Sample.db !! session_projectId x))
                (sessions Sample.db)) as Hall
        by (eapply bool_decide_unpack; vm_compute; exact I).
      intros i x Hi. exact (Hall i x Hi).
    - assert (map_Forall (fun _ l => is_Some (projects Sample.db !! log_projectId l))
                (logs Sample.db)) as Hall
        by (eapply bool_decide_unpack; vm_compute; exact I).
      intros i l Hi. exact (Hall i l Hi). }
  assert (Hp : "p1" <> "") by discriminate.
  split; [exact Hno|]. split; [exact Hp|].
  exact (deletes_leave_no_orphans "p1" "a2" Sample.db Hno Hp).
Defined.

(** ** Admin accounts *)

Lemma admin_by_email_Some email s i a :
  admin_by_email email s = Some (i, a) ->
  admins s !! i = Some a /\ admin_email a = email.
Proof. intros H. now apply findOne_Some in H. Qed.

Lemma admin_by_email_None email s :
  admin_by_email email s = None <->
  forall i a, admins s !! i = Some a -> admin_email a <> email.
Proof. unfold admin_by_email. now rewrite findOne_None. Qed.

Lemma unique_emails_put i created s :
  unique_emails s ->
  (forall j a, admins s !! j = Some a -> admin_email a <> admin_email created) ->
  unique_emails (put_admin i created s).
Proof.
  intros Hu Hfree a b x y. unfold put_admin; simpl.
  rewrite !lookup_insert.
  destruct (decide (i = a)) as [<-|Ha], (decide (i = b)) as [<-|Hb];
    intros Hx Hy He; simplify_eq.
  - reflexivity.
  - exfalso. now apply (Hfree b y Hy).
  - exfalso. now apply (Hfree a x Hx).
  - exact (Hu a b x y Hx Hy He).
Qed.

Section AccountProofs.

Context {E : External} {I : Imports}.

(** Whatever the request, [createAccount] leaves the store it was given,
    or that one with a single new document whose id was free and whose
    email no document had. *)
Lemma createAccount_store body newId s :
  snd (createAccount body newId s) = s \/
  exists created,
    snd (createAccount body newId s) = put_admin newId created s /\
    admins s !! newId = None /\
    forall i a, admins s !! i = Some a -> admin_email a <> admin_email created.
Proof.
  unfold createAccount, bind, ret, get, modify, throw_if, throw; simpl.
  repeat match goal with
         | |- context [if ?b then _ else _] => destruct b eqn:?; simpl
         end; auto.
  right. eexists. split; [reflexivity|].
  repeat match goal with
         | H : bool_decide _ = false |- _ => apply bool_decide_eq_false in H
         end.
  split.
  - destruct (admins s !! newId) as [a|] eqn:Hid; [|reflexivity].
    exfalso. eauto.
  - intros i a Ha He.
    match goal with
    | H : ~ is_Some (admin_by_email _ _) |- _ =>
        apply H; exact (findOne_is_Some _ _ i a Ha He)
    end.
Qed.

Lemma createAccount_checked name email password newId s :
  name <> "" -> email <> "" -> password <> "" ->
  validateSignupInput (Some name) password email = true ->
  createAccount (mkAccountBody (Some name) (Some email) (Some password)) newId s =
  match admin_by_email email s with
  | Some _ => (Throw (ApiError ALREADY_EXISTS), s)
  | None =>
      match admins s !! newId with
      | Some _ => (Throw MongoServerError, s)
      | None =>
          (Ok (mkReply ACCOUNT_CREATED
                 (OfAdmin (mkAdmin name email "" Js.undefined Js.undefined
                             Js.undefined Js.undefined Js.undefined
                             Js.undefined Js.undefined Js.undefined))),
           put_admin newId
             (mkAdmin name email (storedPassword password) Js.undefined
                Js.undefined Js.undefined Js.undefined Js.undefined
                Js.undefined Js.undefined Js.undefined) s)
      end
  end.
Proof.
  intros Hn He Hp Hv.
  unfold createAccount, bind, ret, get, modify. simpl.
  rewrite (bool_decide_eq_false_2 _ Hn), (bool_decide_eq_false_2 _ He),
    (bool_decide_eq_false_2 _ Hp). simpl. rewrite Hv. simpl.
  destruct (admin_by_email email s) as [r|]; simpl; [reflexivity|].
  destruct (admins s !! newId) as [q|]; simpl; reflexivity.
Qed.

(** X8: [createAccount] keeps admin emails unique and never touches an
    existing admin document.  For a body that passes its checks it throws
    [ALREADY_EXISTS], leaving the store as it was, when an admin has the
    email; otherwise the store then holds under the fresh id the new
    admin, with the password as the model stores it and with no token
    field set, every other document is as it was, and the admin it
    replies with carries no password. *)
Theorem createAccount_unique_email (body : AccountBody) (newId : ObjectId)
    (s : Store) :
  (unique_emails s -> unique_emails (snd (createAccount body newId s))) /\
  (forall i a, admins s !! i = Some a ->
               admins (snd (createAccount body newId s)) !! i = Some a) /\
  (forall name email password,
     body = mkAccountBody (Some name) (Some email) (Some password) ->
     name <> "" -> email <> "" -> password <> "" ->
     validateSignupInput (Some name) password email = true ->
     ((exists i a, admins s !! i = Some a /\ admin_email a = email) ->
      createAccount body newId s = (Throw (ApiError ALREADY_EXISTS), s)) /\
     ((forall i a, admins s !! i = Some a -> admin_email a <> email) ->
      admins s !! newId = None ->
      exists s',
        createAccount body newId s =
        (Ok (mkReply ACCOUNT_CREATED
               (OfAdmin (mkAdmin name email "" Js.undefined Js.undefined
                           Js.undefined Js.undefined Js.undefined
                           Js.undefined Js.undefined Js.undefined))),
         s') /\
        admins s' !! newId
        = Some (mkAdmin name email (storedPassword password) Js.undefined
                  Js.undefined Js.undefined Js.undefined Js.undefined
                  Js.undefined Js.undefined Js.undefined) /\
        (forall j, j <> newId -> admins s' !! j = admins s !! j) /\
        projects s' = projects s /\ users s' = users s /\
        sessions s' = sessions s /\ logs s' = logs s)).
Proof.
  split; [|split].
  - intros Hu.
    destruct (createAccount_store body newId s) as [->|(c & -> & _ & Hfree)];
      [exact Hu|]. now apply unique_emails_put.
  - intros i a Ha.
    destruct (createAccount_store body newId s) as [->|(c & -> & Hid & _)];
      [exact Ha|].
    unfold put_admin; simpl. rewrite lookup_insert_ne; [exact Ha|].
    intros <-. congruence.
  - intros name email password -> Hn He Hp Hv.
    pose proof (createAccount_checked name email password newId s Hn He Hp Hv) as R.
    split.
    + intros (i & a & Ha & Hm).
      destruct (findOne_is_Some (fun kv => admin_email kv.2 = email)
                  (admins s) i a Ha Hm) as [r Hr].
      unfold admin_by_email in R. now rewrite Hr in R.
    + intros Hnone Hid.
      apply admin_by_email_None in Hnone. rewrite Hnone, Hid in R.
      eexists. split; [exact R|].
      split; [cbn; apply lookup_insert_eq|].
      split; [intros j Hj; cbn; now apply lookup_insert_ne|].
      repeat split.
Qed.

(** X9: [updateAdminAccount] changes the fields that the body gives a
    non-empty value for, and nothing else: in the admin document that the
    store then holds the four token fields of the session are as they
    were, so a change of password leaves the session in place, and no
    other document is touched.  A body with no non-empty field
    throws [NOT_FOUND]; with one, an admin that has no document throws the
    [TypeError] of the assignment through [adminFromDB!]. *)
Theorem updateAdminAccount_keeps_session (adminId : ObjectId)
    (body : AccountBody) (s : Store) :
  (Js.falsy (body_name body) = true -> Js.falsy (body_email body) = true ->
   Js.falsy (body_password body) = true ->
   updateAdminAccount adminId body s = (Throw (ApiError NOT_FOUND), s)) /\
  (Js.falsy (body_name body) && Js.falsy (body_email body)
   && Js.falsy (body_password body) = false ->
   (admins s !! adminId = None ->
    updateAdminAccount adminId body s = (Throw TypeError, s)) /\
   (forall a,
      admins s !! adminId = Some a ->
      exists a' s',
        updateAdminAccount adminId body s
        = (Ok (mkReply SUCCESSFUL (OfAdmin (without_tokens a'))), s') /\
        admins s' !! adminId = Some a' /\
        (forall j, j <> adminId -> admins s' !! j = admins s !! j) /\
        projects s' = projects s /\ users s' = users s /\
        sessions s' = sessions s /\ logs s' = logs s /\
        verificationToken a' = verificationToken a /\
        verificationTokenExpiry a' = verificationTokenExpiry a /\
        resetPasswordToken a' = resetPasswordToken a /\
        resetPasswordTokenExpiry a' = resetPasswordTokenExpiry a /\
        refreshToken a' = refreshToken a /\
        refreshTokenExpiry a' = refreshTokenExpiry a /\
        accessToken a' = accessToken a /\
        accessTokenExpiry a' = accessTokenExpiry a /\
        (Js.falsy (body_name body) = true -> admin_name a' = admin_name a) /\
        (Js.falsy (body_email body) = true -> admin_email a' = admin_email a) /\
        (Js.falsy (body_password body) = true ->
         admin_password a' = admin_password a) /\
        (forall v, body_name body = Some v -> v <> "" -> admin_name a' = v) /\
        (forall v, body_email body = Some v -> v <> "" -> admin_email a' = v) /\
        (forall v, body_password body = Some v -> v <> "" ->
                   admin_password a' = storedPassword v))).
Proof.
  split.
  - intros Hn He Hp. unfold updateAdminAccount, bind. now rewrite Hn, He, Hp.
  - intros Hsome. split.
    + intros Ha. unfold updateAdminAccount, bind, get. rewrite Hsome. simpl.
      now rewrite Ha.
    + intros a Ha. exists (edit_admin body a). eexists. split.
      { unfold updateAdminAccount, bind, get. rewrite Hsome. simpl.
        now rewrite Ha. }
      split; [cbn; apply lookup_insert_eq|].
      split; [intros j Hj; cbn; now apply lookup_insert_ne|].
      do 12 (split; [reflexivity|]).
      unfold edit_admin; simpl.
      split; [now intros ->|]. split; [now intros ->|]. split; [now intros ->|].
      split; [intros v -> Hv; now rewrite (falsy_Some_false v Hv)|].
      split; [intros v -> Hv; now rewrite (falsy_Some_false v Hv)|].
      intros v -> Hv; now rewrite (falsy_Some_false v Hv).
Qed.

End AccountProofs.

Lemma createAccount_unique_email_witness :
  createAccount (I := More.imports)
    (mkAccountBody (Some "Eve") (Some "alice@example.org") (Some "pw"))
    "a3" Sample.db
  = (Throw (ApiError ALREADY_EXISTS), Sample.db) /\
  (exists s',
     createAccount (I := More.imports)
       (mkAccountBody (Some "Carol") (Some "carol@example.org") (Some "pw"))
       "a3" Sample.db
     = (Ok (mkReply ACCOUNT_CREATED
              (OfAdmin (mkAdmin "Carol" "carol@example.org" "" Js.undefined
                          Js.undefined Js.undefined Js.undefined Js.undefined
                          Js.undefined Js.undefined Js.undefined))),
        s') /\
     admins s' !! "a3"
     = Some (mkAdmin "Carol" "carol@example.org" "hash-pw" Js.undefined
               Js.undefined Js.undefined Js.undefined Js.undefined
               Js.undefined Js.undefined Js.undefined) /\
     admins s' !! "a1" = Some Sample.alice) /\
  unique_emails
    (snd (createAccount (I := More.imports)
            (mkAccountBody (Some "Carol") (Some "carol@example.org") (Some "pw"))
            "a3" empty_db)).
Proof.
  split; [|split].
  - destruct (createAccount_unique_email (I := More.imports)
                (mkAccountBody (Some "Eve") (Some "alice@example.org") (Some "pw"))
                "a3" Sample.db) as (_ & _ & H).
    destruct (H "Eve" "alice@example.org" "pw") as [Hdup _];
      [reflexivity | discriminate | discriminate | discriminate | reflexivity |].
    apply Hdup. exists "a1", Sample.alice. split; reflexivity.
  - destruct (createAccount_unique_email (I := More.imports)
                (mkAccountBody (Some "Carol") (Some "carol@example.org") (Some "pw"))
                "a3" Sample.db) as (_ & _ & H).
    destruct (H "Carol" "carol@example.org" "pw") as [_ Hnew];
      [reflexivity | discriminate | discriminate | discriminate | reflexivity |].
    assert (map_Forall (fun _ a => admin_email a <> "carol@example.org")
              (admins Sample.db)) as Hall
      by (eapply bool_decide_unpack; vm_compute; exact I).
    destruct Hnew as (s' & Hr & Hst & Hkeep & _);
      [intros i a Ha; exact (Hall i a Ha) | reflexivity |].
    exists s'. split; [exact Hr|]. split; [exact Hst|].
    rewrite Hkeep by discriminate. reflexivity.
  - apply (createAccount_unique_email (I := More.imports)).
    intros i j a b Ha. unfold empty_db in Ha; simpl in Ha.
    now rewrite lookup_empty in Ha.
Defined.

Lemma updateAdminAccount_keeps_session_witness :
  admins Sample.db !! "a1" = Some Sample.alice /\
  exists a' s',
    updateAdminAccount (I := More.imports) "a1"
      (mkAccountBody None (Some "") (Some "new")) Sample.db
    = (Ok (mkReply SUCCESSFUL (OfAdmin (without_tokens a'))), s') /\
    admins s' !! "a1" = Some a' /\
    admin_password a' = "hash-new" /\
    admin_email a' = "alice@example.org" /\
    refreshToken a' = Js.val "jwt.a1" /\
    refreshTokenExpiry a' = Js.val 5000000.
Proof.
  assert (Ha : admins Sample.db !! "a1" = Some Sample.alice) by reflexivity.
  split; [exact Ha|].
  destruct (updateAdminAccount_keeps_session (I := More.imports) "a1"
              (mkAccountBody None (Some "") (Some "new")) Sample.db)
    as [_ H].
  destruct H as [_ H]; [reflexivity|].
  destruct (H Sample.alice Ha)
    as (a' & s' & Hr & Hst & _ & _ & _ & _ & _ & _ & _ & _ & _ & Hrt & Hre
        & _ & _ & _ & Hem & _ & _ & _ & Hpw).
  exists a', s'. split; [exact Hr|]. split; [exact Hst|].
  split; [apply (Hpw "new"); [reflexivity|discriminate]|].
  split; [rewrite Hem; reflexivity|].
  split; [rewrite Hrt; reflexivity|rewrite Hre; reflexivity].
Defined.

(** ** Logging in, refreshing and logging out *)

Section SessionProofs.

Context {E : External} {I : Imports}.

Lemma createLoginSession_checked email password now now' s :
  email <> "" -> password <> "" ->
  validateSignupInput None password email = true ->
  createLoginSession (mkAccountBody None (Some email) (Some password)) now now' s =
  match admin_by_email email s with
  | None => (Throw (ApiError NOT_FOUND), s)
  | Some (adminId, a) =>
      if validatePassword (admin_password a) password
      then
        let a' :=
          set_session (generateRefreshToken adminId (admin_email a))
            (now' + 30 * day) (generateAccessToken adminId (admin_email a))
            (now + day) a in
        (Ok (mkReply SESSION_CREATED (OfAdmin (without_password a')),
             mkCookies (generateAccessToken adminId (admin_email a))
               (generateRefreshToken adminId (admin_email a))),
         put_admin adminId a' s)
      else (Throw (ApiError INCORRECT_PASSWORD), s)
  end.
Proof.
  intros He Hp Hv.
  unfold createLoginSession, bind, ret, get, modify. simpl.
  rewrite (bool_decide_eq_false_2 _ He), (bool_decide_eq_false_2 _ Hp). simpl.
  rewrite Hv. simpl.
  destruct (admin_by_email email s) as [[adminId a]|]; simpl; [|reflexivity].
  now destruct (validatePassword (admin_password a) password).
Qed.

(** X10: for an email and a password that pass the checks of the body,
    [createLoginSession] throws [NOT_FOUND] when no admin has the email and
    [INCORRECT_PASSWORD] when the password does not match the stored one,
    leaving the store as it was.  Otherwise it replies [SESSION_CREATED]:
    the admin document that the store then holds has the access and the
    refresh token that the two cookies carry, which are the ones generated
    for its id and email, an access expiry one day and a refresh expiry
    thirty days after the clock readings, and the other fields it had; no
    other document is touched. *)
Theorem createLoginSession_outcomes (email password : string) (now now' : Z)
    (s : Store) :
  email <> "" -> password <> "" ->
  validateSignupInput None password email = true ->
  ((forall i a, admins s !! i = Some a -> admin_email a <> email) ->
   createLoginSession (mkAccountBody None (Some email) (Some password)) now now' s
   = (Throw (ApiError NOT_FOUND), s)) /\
  (forall adminId a,
     admin_by_email email s = Some (adminId, a) ->
     admins s !! adminId = Some a /\ admin_email a = email /\
     (validatePassword (admin_password a) password = false ->
      createLoginSession (mkAccountBody None (Some email) (Some password))
        now now' s
      = (Throw (ApiError INCORRECT_PASSWORD), s)) /\
     (validatePassword (admin_password a) password = true ->
      exists a' c s',
        createLoginSession (mkAccountBody None (Some email) (Some password))
          now now' s
        = (Ok (mkReply SESSION_CREATED (OfAdmin (without_password a')), c), s') /\
        admins s' !! adminId = Some a' /\
        (forall j, j <> adminId -> admins s' !! j = admins s !! j) /\
        projects s' = projects s /\ users s' = users s /\
        sessions s' = sessions s /\ logs s' = logs s /\
        admin_access_token c = generateAccessToken adminId (admin_email a) /\
        admin_refresh_token c = generateRefreshToken adminId (admin_email a) /\
        accessToken a' = Js.val (admin_access_token c) /\
        refreshToken a' = Js.val (admin_refresh_token c) /\
        accessTokenExpiry a' = Js.val (now + day) /\
        refreshTokenExpiry a' = Js.val (now' + 30 * day) /\
        admin_name a' = admin_name a /\ admin_email a' = admin_email a /\
        admin_password a' = admin_password a /\
        verificationToken a' = verificationToken a /\
        verificationTokenExpiry a' = verificationTokenExpiry a /\
        resetPasswordToken a' = resetPasswordToken a /\
        resetPasswordTokenExpiry a' = resetPasswordTokenExpiry a)).
Proof.
  intros He Hp Hv.
  pose proof (createLoginSession_checked email password now now' s He Hp Hv) as R.
  split.
  - intros Hnone. apply admin_by_email_None in Hnone. now rewrite Hnone in R.
  - intros adminId a Hfound. rewrite Hfound in R.
    destruct (admin_by_email_Some _ _ _ _ Hfound) as [Ha Hm].
    split; [exact Ha|]. split; [exact Hm|]. split.
    + intros Hbad. now rewrite Hbad in R.
    + intros Hgood. rewrite Hgood in R. eexists. eexists. eexists.
      split; [exact R|].
      split; [cbn; apply lookup_insert_eq|].
      split; [intros j Hj; cbn; now apply lookup_insert_ne|].
      repeat split.
Qed.

(** X11: the refresh token of a login is good for thirty days from the
    login.  After a successful [createLoginSession], with a refresh token
    that [jwt.decode] reads back to the admin id, [refreshAccessToken] with
    the refresh cookie of the login mints a new access token at every time
    up to and including the stored expiry, and throws
    [REFRESH_TOKEN_EXPIRED] at every later time. *)
Theorem login_then_refresh (email password : string) (now now' : Z) (s : Store)
    (adminId : ObjectId) (a : Admin) :
  email <> "" -> password <> "" ->
  validateSignupInput None password email = true ->
  admin_by_email email s = Some (adminId, a) ->
  validatePassword (admin_password a) password = true ->
  adminId <> "" ->
  generateRefreshToken adminId (admin_email a) <> "" ->
  jwt_decode (generateRefreshToken adminId (admin_email a))
  = Some (mkClaims (Some adminId)) ->
  exists r c s',
    createLoginSession (mkAccountBody None (Some email) (Some password)) now now' s
    = (Ok (r, c), s') /\
    forall t t',
      (t <= now' + 30 * day ->
       exists r2 s2,
         refreshAccessToken (mkRefreshRequest None (Some (admin_refresh_token c)))
           t t' s'
         = (Ok r2, s2)) /\
      (now' + 30 * day < t ->
       refreshAccessToken (mkRefreshRequest None (Some (admin_refresh_token c)))
         t t' s'
       = (Throw (ApiError REFRESH_TOKEN_EXPIRED), s')).
Proof.
  intros He Hp Hv Hfound Hgood Hid Htok Hdec.
  pose proof (createLoginSession_checked email password now now' s He Hp Hv) as R.
  rewrite Hfound, Hgood in R.
  eexists. eexists. eexists. split; [exact R|].
  intros t t'. simpl.
  rewrite (refresh_decoded _ t t' _ (generateRefreshToken adminId (admin_email a))
             adminId);
    [| reflexivity | exact Htok | now rewrite Hdec | exact Hid].
  unfold put_admin at 1 2; simpl. rewrite lookup_insert_eq. simpl.
  split.
  - intros Hle. rewrite (proj2 (Z.ltb_ge _ _) Hle). eauto.
  - intros Hlt. now rewrite (proj2 (Z.ltb_lt _ _) Hlt).
Qed.

End SessionProofs.

Lemma createLoginSession_outcomes_witness :
  createLoginSession (E := Model.ext) (I := More.imports)
    (mkAccountBody None (Some "nobody@example.org") (Some "a")) 1000 1001 Sample.db
  = (Throw (ApiError NOT_FOUND), Sample.db) /\
  createLoginSession (E := Model.ext) (I := More.imports)
    (mkAccountBody None (Some "alice@example.org") (Some "b")) 1000 1001 Sample.db
  = (Throw (ApiError INCORRECT_PASSWORD), Sample.db) /\
  exists a' c s',
    createLoginSession (E := Model.ext) (I := More.imports)
      (mkAccountBody None (Some "alice@example.org") (Some "a")) 1000 1001 Sample.db
    = (Ok (mkReply SESSION_CREATED (OfAdmin (without_password a')), c), s') /\
    admins s' !! "a1" = Some a' /\
    refreshToken a' = Js.val (admin_refresh_token c) /\
    refreshTokenExpiry a' = Js.val (1001 + 30 * day).
Proof.
  assert (Hfound : admin_by_email "alice@example.org" Sample.db
                   = Some ("a1", Sample.alice)) by (vm_compute; reflexivity).
  split; [|split].
  - apply (createLoginSession_outcomes (E := Model.ext) (I := More.imports));
      [discriminate | discriminate | reflexivity |].
    assert (map_Forall (fun _ a => admin_email a <> "nobody@example.org")
              (admins Sample.db)) as Hall
      by (eapply bool_decide_unpack; vm_compute; exact I).
    intros i a Ha. exact (Hall i a Ha).
  - destruct (createLoginSession_outcomes (E := Model.ext) (I := More.imports)
                "alice@example.org" "b" 1000 1001 Sample.db) as [_ H];
      [discriminate | discriminate | reflexivity |].
    destruct (H "a1" Sample.alice Hfound) as (_ & _ & Hbad & _).
    apply Hbad. reflexivity.
  - destruct (createLoginSession_outcomes (E := Model.ext) (I := More.imports)
                "alice@example.org" "a" 1000 1001 Sample.db) as [_ H];
      [discriminate | discriminate | reflexivity |].
    destruct (H "a1" Sample.alice Hfound) as (_ & _ & _ & Hgood).
    destruct Hgood
      as (a' & c & s' & Hr & Hst & _ & _ & _ & _ & _ & _ & _ & _ & Hrt & _
          & Hre & _); [reflexivity|].
    exists a', c, s'. exact (conj Hr (conj Hst (conj Hrt Hre))).
Defined.

Lemma login_then_refresh_witness :
  admin_by_email "alice@example.org" Sample.db = Some ("a1", Sample.alice) /\
  exists r c s',
    createLoginSession (E := Model.ext) (I := More.imports)
      (mkAccountBody None (Some "alice@example.org") (Some "a")) 1000 1001 Sample.db
    = (Ok (r, c), s') /\
    (exists r2 s2,
       refreshAccessToken (E := Model.ext)
         (mkRefreshRequest None (Some (admin_refresh_token c)))
         (1001 + 30 * day) (1001 + 30 * day) s'
       = (Ok r2, s2)) /\
    refreshAccessToken (E := Model.ext)
      (mkRefreshRequest None (Some (admin_refresh_token c)))
      (1002 + 30 * day) (1002 + 30 * day) s'
    = (Throw (ApiError REFRESH_TOKEN_EXPIRED), s').
Proof.
  assert (Hfound : admin_by_email "alice@example.org" Sample.db
                   = Some ("a1", Sample.alice)) by (vm_compute; reflexivity).
  split; [exact Hfound|].
  destruct (login_then_refresh (E := Model.ext) (I := More.imports)
              "alice@example.org" "a" 1000 1001 Sample.db "a1" Sample.alice)
    as (r & c & s' & Hr & Hwin);
    [discriminate | discriminate | reflexivity | exact Hfound | reflexivity
    | discriminate | discriminate | reflexivity |].
  exists r, c, s'. split; [exact Hr|]. split.
  - apply (Hwin (1001 + 30 * day) (1001 + 30 * day)). lia.
  - apply (Hwin (1002 + 30 * day) (1002 + 30 * day)). lia.
Defined.

(** X12: [deleteLoginSession] can be repeated: a second call replies
    [SESSION_DELETED] again and leaves the store of the first.  It
    touches none of the projects, users, sessions and logs and no other
    admin, and for an admin id that has no document it still replies
    [SESSION_DELETED], over an unchanged store. *)
Theorem deleteLoginSession_idempotent (adminId : ObjectId) (s : Store) :
  exists s',
    deleteLoginSession adminId s = (Ok (mkReply SESSION_DELETED Empty), s') /\
    deleteLoginSession adminId s' = (Ok (mkReply SESSION_DELETED Empty), s') /\
    projects s' = projects s /\ users s' = users s /\
    sessions s' = sessions s /\ logs s' = logs s /\
    (forall j, j <> adminId -> admins s' !! j = admins s !! j) /\
    (admins s !! adminId = None -> s' = s).
Proof.
  eexists. split; [reflexivity|].
  split.
  { unfold deleteLoginSession, bind, modify, ret; simpl. do 2 f_equal.
    apply map_eq. intros j.
    destruct (decide (adminId = j)) as [<-|Hj].
    - rewrite !lookup_alter_eq. now destruct (admins s !! adminId).
    - now rewrite !lookup_alter_ne. }
  do 4 (split; [reflexivity|]).
  split.
  - intros j Hj. simpl. now apply lookup_alter_ne.
  - intros Hnone. destruct s as [ad pr us se lo]; simpl in *. f_equal.
    apply map_eq. intros j.
    destruct (decide (adminId = j)) as [<-|Hj].
    + now rewrite lookup_alter_eq, Hnone.
    + now rewrite lookup_alter_ne.
Qed.

Section RefreshProofs.

Context {E : External}.

(** X13: [refreshAccessToken] trusts the admin id it decodes: the
    presented token is not compared with the stored refresh token.  Two
    requests whose tokens decode to the same admin id get the same reply
    and leave the same store, whatever else the tokens are and whether
    they come in the header or in the cookie. *)
Theorem refresh_trusts_decoded_id (req req' : RefreshRequest) (t t' : string)
    (adminId : ObjectId) (now now' : Z) (s : Store) :
  presented req = Some t -> t <> "" ->
  presented req' = Some t' -> t' <> "" ->
  jwt_decode t ≫= claim_adminId = Some adminId ->
  jwt_decode t' ≫= claim_adminId = Some adminId ->
  adminId <> "" ->
  refreshAccessToken req now now' s = refreshAccessToken req' now now' s.
Proof.
  intros Ht Hne Ht' Hne' Hd Hd' Hid.
  now rewrite (refresh_decoded req now now' s t adminId Ht Hne Hd Hid),
    (refresh_decoded req' now now' s t' adminId Ht' Hne' Hd' Hid).
Qed.

(** X14: a refresh does not use the refresh token up.  After a successful
    [refreshAccessToken] the projects, users, sessions and logs and every
    other admin are as before, and the same request succeeds again at
    every time at which the stored refresh expiry has still not passed,
    and throws [REFRESH_TOKEN_EXPIRED] once it has. *)
Theorem refresh_repeatable (req : RefreshRequest) (tok : string)
    (adminId : ObjectId) (a : Admin) (now now' : Z) (s s' : Store) (r : Reply) :
  presented req = Some tok -> tok <> "" ->
  jwt_decode tok ≫= claim_adminId = Some adminId -> adminId <> "" ->
  admins s !! adminId = Some a ->
  refreshAccessToken req now now' s = (Ok r, s') ->
  projects s' = projects s /\ users s' = users s /\
  sessions s' = sessions s /\ logs s' = logs s /\
  (forall j, j <> adminId -> admins s' !! j = admins s !! j) /\
  forall t t',
    (Js.date_lt (refreshTokenExpiry a) t = false ->
     exists r2 s2, refreshAccessToken req t t' s' = (Ok r2, s2)) /\
    (Js.date_lt (refreshTokenExpiry a) t = true ->
     refreshAccessToken req t t' s'
     = (Throw (ApiError REFRESH_TOKEN_EXPIRED), s')).
Proof.
  intros Ht Hne Hd Hid Ha Hok.
  rewrite (refresh_decoded req now now' s tok adminId Ht Hne Hd Hid), Ha in Hok.
  destruct (Js.date_lt (refreshTokenExpiry a) now); [discriminate|].
  injection Hok as _ <-.
  do 4 (split; [reflexivity|]).
  split; [intros j Hj; now apply lookup_insert_ne|].
  intros t t'.
  rewrite (refresh_decoded req t t' _ tok adminId Ht Hne Hd Hid).
  unfold put_admin at 1 3; simpl. rewrite lookup_insert_eq. simpl.
  split; intros ->; eauto.
Qed.

(** X15: an admin document whose [refreshTokenExpiry] is unset never
    counts as expired: the comparison of [undefined] with the date is
    false, so for a token that decodes to that admin
    [refreshAccessToken] mints an access token at every time, although no
    refresh token was ever stored. *)
Theorem refresh_unset_expiry (req : RefreshRequest) (t : string)
    (adminId : ObjectId) (a : Admin) (now now' : Z) (s : Store) :
  presented req = Some t -> t <> "" ->
  jwt_decode t ≫= claim_adminId = Some adminId -> adminId <> "" ->
  admins s !! adminId = Some a ->
  refreshTokenExpiry a = Js.undefined ->
  exists a',
    refreshAccessToken req now now' s
    = (Ok (mkReply SUCCESSFUL (OfAdmin (without_password a'))),
       put_admin adminId a' s) /\
    accessToken a' = Js.val (generateAccessToken adminId (admin_email a)) /\
    accessTokenExpiry a' = Js.val (now' + day) /\
    refreshToken a' = refreshToken a.
Proof.
  intros Ht Hne Hd Hid Ha Hun.
  rewrite (refresh_decoded req now now' s t adminId Ht Hne Hd Hid), Ha, Hun.
  simpl. eexists. split; [reflexivity|]. repeat split.
Qed.

End RefreshProofs.

Lemma refresh_trusts_decoded_id_witness :
  refreshAccessToken (E := Model.ext)
    (mkRefreshRequest (Some "Bearer jwt.a1") (Some "jwt.a2")) 1000 1001 Sample.db
  = refreshAccessToken (E := Model.ext)
      (mkRefreshRequest None (Some "jwt.a1")) 1000 1001 Sample.db.
Proof.
  apply (refresh_trusts_decoded_id (E := Model.ext) _ _ "jwt.a1" "jwt.a1" "a1");
    first [reflexivity | discriminate].
Defined.

Lemma refresh_repeatable_witness :
  exists r s',
    refreshAccessToken (E := Model.ext) (mkRefreshRequest None (Some "jwt.a1"))
      1000 1001 Sample.db
    = (Ok r, s') /\
    (exists r2 s2,
       refreshAccessToken (E := Model.ext) (mkRefreshRequest None (Some "jwt.a1"))
         2000 2001 s'
       = (Ok r2, s2)) /\
    refreshAccessToken (E := Model.ext) (mkRefreshRequest None (Some "jwt.a1"))
      6000000 6000001 s'
    = (Throw (ApiError REFRESH_TOKEN_EXPIRED), s').
Proof.
  destruct (refreshAccessToken (E := Model.ext)
              (mkRefreshRequest None (Some "jwt.a1")) 1000 1001 Sample.db)
    as [[r|e] s'] eqn:Hr; [|vm_compute in Hr; discriminate].
  exists r, s'. split; [reflexivity|].
  destruct (refresh_repeatable (E := Model.ext)
              (mkRefreshRequest None (Some "jwt.a1")) "jwt.a1" "a1" Sample.alice
              1000 1001 Sample.db s' r)
    as (_ & _ & _ & _ & _ & Hrep);
    [reflexivity | discriminate | reflexivity | discriminate | reflexivity
    | exact Hr |].
  split.
  - apply (Hrep 2000 2001). reflexivity.
  - apply (Hrep 6000000 6000001). reflexivity.
Defined.

Lemma refresh_unset_expiry_witness :
  admins Sample.db !! "a2" = Some Sample.bob /\
  refreshTokenExpiry Sample.bob = Js.undefined /\
  exists a',
    refreshAccessToken (E := Model.ext) (mkRefreshRequest None (Some "jwt.a2"))
      9000000 9000001 Sample.db
    = (Ok (mkReply SUCCESSFUL (OfAdmin (without_password a'))),
       put_admin "a2" a' Sample.db) /\
    accessTokenExpiry a' = Js.val (9000001 + day).
Proof.
  split; [reflexivity|]. split; [reflexivity|].
  destruct (refresh_unset_expiry (E := Model.ext)
              (mkRefreshRequest None (Some "jwt.a2")) "jwt.a2" "a2" Sample.bob
              9000000 9000001 Sample.db)
    as (a' & Hr & _ & He & _);
    [reflexivity | discriminate | reflexivity | discriminate | reflexivity
    | reflexivity |].
  exists a'. exact (conj Hr He).
Defined.

(** ** Updating a project *)

Lemma save_project_run projectId change t s :
  save_project projectId change t s =
  match projects s !! projectId with
  | None => (Throw (ApiError NOT_FOUND), s)
  | Some p =>
      (Ok (mkReply t (OfProject (change p))), put_project projectId (change p) s)
  end.
Proof.
  unfold save_project, bind, get. now destruct (projects s !! projectId).
Qed.

Lemma save_project_updates projectId change t (kept : Project -> Project -> Prop) :
  (forall p, kept p (change p)) ->
  updates_project projectId (save_project projectId change t) t kept.
Proof.
  intros Hk s. rewrite save_project_run.
  destruct (projects s !! projectId) as [p|] eqn:Hp; [right|left; eauto].
  exists p, (change p). split; [reflexivity|]. split; [reflexivity|].
  split; [cbn; apply lookup_insert_eq|].
  split; [intros q Hq; cbn; now apply lookup_insert_ne|].
  repeat split. apply Hk.
Qed.

Lemma checked_object_run {A} (body : option (gmap string A)) validate s :
  (exists e, checked_object body validate s = (Throw e, s)) \/
  (exists o, body = Some o /\ o <> ∅ /\ validate o = None /\
             checked_object body validate s = (Ok o, s)).
Proof.
  unfold checked_object. destruct body as [o|]; [|left; eauto].
  unfold bind, throw_if. destruct (decide (o = ∅)) as [->|Hne].
  - left. rewrite bool_decide_eq_true_2 by reflexivity. simpl. eauto.
  - rewrite (bool_decide_eq_false_2 _ Hne). simpl.
    destruct (validate o) as [e|] eqn:Hv; [left; eauto|].
    right. exists o. auto.
Qed.

Section UpdateProofs.

Context {E : External} {I : Imports}.

Lemma createNewProjectKey_updates projectId :
  updates_project projectId (createNewProjectKey projectId) CREATED
    (fun p p' =>
       p' = set_projectKey (projectKey p') p /\
       projectKey p' = signProjectKey projectId (owner p)).
Proof. now apply save_project_updates. Qed.

Lemma updateAppName_updates projectId name :
  updates_project projectId (updateAppName projectId name) SUCCESSFUL
    (fun p p' => p' = set_appName (appName p') p /\ name = Some (appName p')).
Proof.
  intros s. unfold updateAppName, bind, throw_if.
  destruct name as [v|]; simpl; [|left; eauto].
  destruct (bool_decide (v = "")); simpl; [left; eauto|].
  destruct (ZAppName v); simpl; [|left; eauto].
  now apply save_project_updates.
Qed.

Lemma updateAppEmail_updates projectId email :
  updates_project projectId (updateAppEmail projectId email) SUCCESSFUL
    (fun p p' => p' = set_appEmail (appEmail p') p /\ email = Some (appEmail p')).
Proof.
  intros s. unfold updateAppEmail, bind, throw_if.
  destruct email as [v|]; simpl; [|left; eauto].
  destruct (bool_decide (v = "")); simpl; [left; eauto|].
  destruct (ZEmail v); simpl; [|left; eauto].
  now apply save_project_updates.
Qed.

Lemma updateLoginMethods_updates projectId methods :
  updates_project projectId (updateLoginMethods projectId methods) SUCCESSFUL
    (fun p p' =>
       p' = set_loginMethods (loginMethods (config p')) p /\
       methods = Some (loginMethods (config p'))).
Proof.
  intros s. unfold updateLoginMethods, bind.
  destruct (checked_object_run methods validateLoginMethods s)
    as [[e ->]|(o & -> & _ & _ & ->)]; [left; eauto|].
  now apply save_project_updates.
Qed.

Lemma updateSecurity_updates projectId limits :
  updates_project projectId (updateSecurity projectId limits) SUCCESSFUL
    (fun p p' =>
       p' = set_security (security (config p')) p /\
       exists o, limits = Some o /\ security (config p') = castSecurity o).
Proof.
  intros s. unfold updateSecurity, bind.
  destruct (checked_object_run limits validateSecurityObject s)
    as [[e ->]|(o & -> & _ & _ & ->)]; [left; eauto|].
  apply save_project_updates. intros p. split; [reflexivity|]. now exists o.
Qed.

Lemma updateEmailTemplates_updates projectId templates :
  updates_project projectId (updateEmailTemplates projectId templates) SUCCESSFUL
    (fun p p' =>
       p' = set_emailTemplates (emailTemplates (config p')) p /\
       templates = Some (emailTemplates (config p'))).
Proof.
  intros s. unfold updateEmailTemplates, bind.
  destruct (checked_object_run templates validateEmailTemplates s)
    as [[e ->]|(o & -> & _ & _ & ->)]; [left; eauto|].
  now apply save_project_updates.
Qed.

(** X16: each handler that updates a project writes one field of one
    project, or nothing.  On every store it either throws, leaving the
    store as it was, or finds the project and replies, [createNewProjectKey]
    with [CREATED] and the five others with [SUCCESSFUL], with the document
    that the store then holds under the id.  That document is the one
    before with the newly signed key ([createNewProjectKey]), the app name
    or app email of the body, or the login methods, the security settings
    as the schema casts them, or the email templates of the body, and is
    otherwise unchanged; no other document of the store changes. *)
Theorem project_updates_write_one_field (projectId : ObjectId)
    (name email : option string) (methods : option (gmap string bool))
    (limits : option (gmap string Z)) (templates : option (gmap string string)) :
  updates_project projectId (createNewProjectKey projectId) CREATED
    (fun p p' =>
       p' = set_projectKey (projectKey p') p /\
       projectKey p' = signProjectKey projectId (owner p)) /\
  updates_project projectId (updateAppName projectId name) SUCCESSFUL
    (fun p p' => p' = set_appName (appName p') p /\ name = Some (appName p')) /\
  updates_project projectId (updateAppEmail projectId email) SUCCESSFUL
    (fun p p' => p' = set_appEmail (appEmail p') p /\ email = Some (appEmail p')) /\
  updates_project projectId (updateLoginMethods projectId methods) SUCCESSFUL
    (fun p p' =>
       p' = set_loginMethods (loginMethods (config p')) p /\
       methods = Some (loginMethods (config p'))) /\
  updates_project projectId (updateSecurity projectId limits) SUCCESSFUL
    (fun p p' =>
       p' = set_security (security (config p')) p /\
       exists o, limits = Some o /\ security (config p') = castSecurity o) /\
  updates_project projectId (updateEmailTemplates projectId templates) SUCCESSFUL
    (fun p p' =>
       p' = set_emailTemplates (emailTemplates (config p')) p /\
       templates = Some (emailTemplates (config p'))).
Proof.
  split; [apply createNewProjectKey_updates|].
  split; [apply updateAppName_updates|].
  split; [apply updateAppEmail_updates|].
  split; [apply updateLoginMethods_updates|].
  split; [apply updateSecurity_updates|].
  apply updateEmailTemplates_updates.
Qed.

Lemma getProject_found projectId s p :
  projectId <> "" -> projects s !! projectId = Some p ->
  getProject (Some projectId) s = (Ok (mkReply SUCCESSFUL (OfProject p)), s).
Proof.
  intros Hne Hp. unfold getProject, bind, get.
  rewrite (falsy_Some_false _ Hne). simpl. now rewrite Hp.
Qed.

Lemma updates_read_back projectId h t kept :
  projectId <> "" -> updates_project projectId h t kept -> read_back projectId h.
Proof.
  intros Hne Hup s r s' Hok.
  destruct (Hup s) as [[e He]|(p & p' & Hp & Hr & _)]; [congruence|].
  rewrite Hr in Hok. injection Hok as <- <-.
  exists p'. split; [reflexivity|].
  apply getProject_found; [exact Hne|]. apply lookup_insert_eq.
Qed.

(** X17: what an update replies with can be read back.  After any of the
    six update handlers has succeeded on a project, [getProject] for that
    project replies [SUCCESSFUL] with the very document the update replied
    with, over the same store. *)
Theorem update_then_getProject (projectId : ObjectId)
    (name email : option string) (methods : option (gmap string bool))
    (limits : option (gmap string Z)) (templates : option (gmap string string)) :
  projectId <> "" ->
  read_back projectId (createNewProjectKey projectId) /\
  read_back projectId (updateAppName projectId name) /\
  read_back projectId (updateAppEmail projectId email) /\
  read_back projectId (updateLoginMethods projectId methods) /\
  read_back projectId (updateSecurity projectId limits) /\
  read_back projectId (updateEmailTemplates projectId templates).
Proof.
  intros Hne.
  split; [exact (updates_read_back _ _ _ _ Hne (createNewProjectKey_updates _))|].
  split; [exact (updates_read_back _ _ _ _ Hne (updateAppName_updates _ _))|].
  split; [exact (updates_read_back _ _ _ _ Hne (updateAppEmail_updates _ _))|].
  split; [exact (updates_read_back _ _ _ _ Hne (updateLoginMethods_updates _ _))|].
  split; [exact (updates_read_back _ _ _ _ Hne (updateSecurity_updates _ _))|].
  exact (updates_read_back _ _ _ _ Hne (updateEmailTemplates_updates _ _)).
Qed.

(** X18: a reset after an update.  After a successful
    [updateEmailTemplates] with the object [o],
    [resetEmailTemplateToDefault] for a template name of the enumeration
    leaves the project with [o] less that key and nothing else changed;
    after a successful [updateSecurity], [resetSecuritySettingToDefault]
    replies as it does, and leaves the store it leaves, when called on the
    store before the update. *)
Theorem reset_after_update (projectId : ObjectId) (s s1 : Store) (r : Reply) :
  (forall o t,
     updateEmailTemplates projectId (Some o) s = (Ok r, s1) ->
     t ∈ EmailTemplateName ->
     exists p1 s2,
       projects s1 !! projectId = Some p1 /\
       emailTemplates (config p1) = o /\
       resetEmailTemplateToDefault projectId t s1
       = (Ok (mkReply SUCCESSFUL Empty), s2) /\
       projects s2 !! projectId = Some (set_emailTemplates (delete t o) p1)) /\
  (forall limits,
     updateSecurity projectId limits s = (Ok r, s1) ->
     resetSecuritySettingToDefault projectId s1
     = resetSecuritySettingToDefault projectId s).
Proof.
  split.
  - intros o t Hok Hin.
    destruct (updateEmailTemplates_updates projectId (Some o) s)
      as [[e He]|(p & p' & Hp & Hr & _ & _ & _ & _ & _ & _ & Hk & Ho)];
      [congruence|].
    rewrite Hr in Hok. injection Hok as _ <-. injection Ho as ->.
    assert (projects (put_project projectId p' s) !! projectId = Some p') as Hp'
      by apply lookup_insert_eq.
    exists p'. eexists. split; [exact Hp'|]. split; [reflexivity|].
    split; [exact (resetEmailTemplate_found _ _ _ _ Hin Hp')|].
    apply lookup_insert_eq.
  - intros limits Hok.
    destruct (updateSecurity_updates projectId limits s)
      as [[e He]|(p & p' & Hp & Hr & _ & _ & _ & _ & _ & _ & Hk & _)];
      [congruence|].
    rewrite Hr in Hok. injection Hok as _ <-.
    rewrite (resetSecurity_found projectId s p Hp).
    rewrite (resetSecurity_found projectId _ p' (lookup_insert_eq _ _ _)).
    rewrite put_project_twice.
    destruct p as [n o a e [lm sec et] k], p' as [n' o' a' e' [lm' sec' et'] k'].
    unfold set_security, set_config in Hk; simpl in Hk. simplify_eq.
    reflexivity.
Qed.

End UpdateProofs.

Lemma update_then_getProject_witness :
  "p1" <> "" /\
  exists p',
    updateAppName (E := Model.ext) "p1" (Some "Store") Sample.db
    = (Ok (mkReply SUCCESSFUL (OfProject p')), put_project "p1" p' Sample.db) /\
    appName p' = "Store" /\
    getProject (Some "p1") (put_project "p1" p' Sample.db)
    = (Ok (mkReply SUCCESSFUL (OfProject p')), put_project "p1" p' Sample.db).
Proof.
  assert (Hne : "p1" <> "") by discriminate.
  split; [exact Hne|].
  destruct (update_then_getProject (E := Model.ext) (I := More.imports)
              "p1" (Some "Store") None None None None Hne)
    as (_ & Hback & _).
  assert (Hr : updateAppName (E := Model.ext) "p1" (Some "Store") Sample.db
               = (Ok (mkReply SUCCESSFUL (OfProject (set_appName "Store" Sample.shop1))),
                  put_project "p1" (set_appName "Store" Sample.shop1) Sample.db))
    by (vm_compute; reflexivity).
  destruct (Hback _ _ _ Hr) as (p' & Hd & Hg). simpl in Hd. injection Hd as <-.
  exists (set_appName "Store" Sample.shop1).
  split; [exact Hr|]. split; [reflexivity|exact Hg].
Defined.

Lemma reset_after_update_witness :
  "welcome" ∈ EmailTemplateName (External := Model.ext) /\
  exists r s1 p1 s2,
    updateEmailTemplates (I := More.imports) "p1"
      (Some {[ "welcome" := "Hi"; "resetPassword" := "Again" ]}) Sample.db
    = (Ok r, s1) /\
    projects s1 !! "p1" = Some p1 /\
    resetEmailTemplateToDefault (E := Model.ext) "p1" "welcome" s1
    = (Ok (mkReply SUCCESSFUL Empty), s2) /\
    projects s2 !! "p1"
    = Some (set_emailTemplates
              (delete "welcome" {[ "welcome" := "Hi"; "resetPassword" := "Again" ]})
              p1).
Proof.
  assert (Hin : "welcome" ∈ EmailTemplateName (External := Model.ext))
    by (eapply bool_decide_unpack; vm_compute; exact I).
  split; [exact Hin|].
  destruct (updateEmailTemplates (I := More.imports) "p1"
              (Some {[ "welcome" := "Hi"; "resetPassword" := "Again" ]}) Sample.db)
    as [[r|e] s1] eqn:Hr; [|vm_compute in Hr; discriminate].
  destruct (reset_after_update (E := Model.ext) (I := More.imports)
              "p1" Sample.db s1 r) as [Hreset _].
  destruct (Hreset _ "welcome" Hr Hin) as (p1 & s2 & Hp1 & _ & Hres & Hp2).
  exists r, s1, p1, s2. exact (conj eq_refl (conj Hp1 (conj Hres Hp2))).
Defined.

(** ** Reading projects *)

(** X19: [getAllProjects] never throws: its test of the array that
    [Project.find] returns cannot fail, so an admin who owns no project
    gets [SUCCESSFUL] with an empty list, not [NOT_FOUND].  The list it
    replies with, which is also the one [dashboard] replies with, holds
    each project of the store that the admin owns, once, and no other. *)
Theorem getAllProjects_owned (adminId : ObjectId) (s : Store) :
  exists l,
    getAllProjects adminId s = (Ok (mkAnswer SUCCESSFUL l), s) /\
    dashboard adminId s = (Ok (mkAnswer SUCCESSFUL l), s) /\
    (forall i p, (i, p) ∈ l <-> projects s !! i = Some p /\ owner p = adminId) /\
    NoDup l.*1 /\
    ((forall i p, projects s !! i = Some p -> owner p <> adminId) -> l = []).
Proof.
  exists (projects_of adminId s).
  split; [reflexivity|]. split; [reflexivity|].
  split; [|split].
  - intros i p. unfold projects_of.
    rewrite elem_of_map_to_list. apply map_lookup_filter_Some.
  - apply NoDup_fst_map_to_list.
  - intros Hnone. unfold projects_of. apply map_to_list_empty_iff.
    apply map_empty. intros i. apply map_lookup_filter_None. right.
    intros p Hp. simpl. exact (Hnone i p Hp).
Qed.

Lemma size_filter_zero {A} (P : ObjectId * A -> Prop)
    `{!forall x, Decision (P x)} (m : gmap ObjectId A) :
  size (filter P m) = 0%nat <-> forall i x, m !! i = Some x -> ~ P (i, x).
Proof.
  rewrite map_size_empty_iff, map_empty. split.
  - intros Hall i x Hx HP. specialize (Hall i).
    apply map_lookup_filter_None in Hall as [Hn|Hn]; [congruence|].
    exact (Hn x Hx HP).
  - intros Hall i. apply map_lookup_filter_None. right.
    intros x Hx. exact (Hall i x Hx).
Qed.

(** X20: [projectOverview] counts the users of the project, and reads
    only.  The number it replies with is the number of user documents
    that name the project: the length of a list that holds the id of each
    such user once, and no other id.  It is zero exactly when no user
    names the project; it is zero after [deleteProject] of that project,
    and [deleteProject] of another project leaves it as it was. *)
Theorem projectOverview_counts (projectId : ObjectId) (s : Store) :
  exists n,
    projectOverview projectId s = (Ok (mkAnswer SUCCESSFUL n), s) /\
    (exists ids : list ObjectId,
       NoDup ids /\ length ids = n /\
       forall i, i ∈ ids <->
                 exists u, users s !! i = Some u /\ user_projectId u = projectId) /\
    (n = 0%nat <->
     forall i u, users s !! i = Some u -> user_projectId u <> projectId) /\
    (projectId <> "" ->
     fst (projectOverview projectId (snd (deleteProject (Some projectId) s)))
     = Ok (mkAnswer SUCCESSFUL 0%nat)) /\
    (forall q, q <> "" -> q <> projectId ->
     fst (projectOverview projectId (snd (deleteProject (Some q) s)))
     = Ok (mkAnswer SUCCESSFUL n)).
Proof.
  eexists. split; [reflexivity|].
  split; [|split; [|split]].
  - exists (map_to_list
              (filter (fun kv => user_projectId kv.2 = projectId) (users s))).*1.
    split; [apply NoDup_fst_map_to_list|].
    split; [now rewrite length_fmap, length_map_to_list|].
    intros i. rewrite list_elem_of_fmap. split.
    + intros ([j u] & -> & Hin). apply elem_of_map_to_list in Hin.
      apply map_lookup_filter_Some in Hin as [Hu Hp]. now exists u.
    + intros (u & Hu & Hp). exists (i, u). split; [reflexivity|].
      apply elem_of_map_to_list. now apply map_lookup_filter_Some.
  - rewrite size_filter_zero. split; intros Hall i u Hu; exact (Hall i u Hu).
  - intros Hne. rewrite deleteProject_run by exact Hne.
    unfold projectOverview, bind, get, ret. cbn [fst snd]. do 2 f_equal.
    apply size_filter_zero. intros i u Hu.
    destruct (purged_run_cascade projectId s) as (_ & Hus & _).
    exact (Hus i u Hu).
  - intros q Hq Hne. rewrite deleteProject_run by exact Hq.
    unfold projectOverview, bind, get, ret. cbn [fst snd]. do 3 f_equal.
    rewrite run_cascade; simpl. apply filter_filter_as.
    intros [i u]; simpl. split; [|tauto]. intros ->. split; [reflexivity|].
    congruence.
Qed.

Lemma projectOverview_counts_witness :
  "p1" <> "" /\ "p2" <> "" /\ "p2" <> "p1" /\
  projectOverview "p1" Sample.db = (Ok (mkAnswer SUCCESSFUL 1%nat), Sample.db) /\
  fst (projectOverview "p1" (snd (deleteProject (Some "p1") Sample.db)))
  = Ok (mkAnswer SUCCESSFUL 0%nat) /\
  fst (projectOverview "p1" (snd (deleteProject (Some "p2") Sample.db)))
  = Ok (mkAnswer SUCCESSFUL 1%nat).
Proof.
  assert (H1 : "p1" <> "") by discriminate.
  assert (H2 : "p2" <> "") by discriminate.
  assert (H3 : "p2" <> "p1") by discriminate.
  split; [exact H1|]. split; [exact H2|]. split; [exact H3|].
  destruct (projectOverview_counts "p1" Sample.db)
    as (n & Hr & _ & _ & Hzero & Hother).
  assert (n = 1%nat) as ->.
  { vm_compute in Hr. now injection Hr as <-. }
  split; [exact Hr|]. split; [exact (Hzero H1)|exact (Hother "p2" H2 H3)].
Defined.

(** ** Project names across all handlers *)

Lemma unique_names_sub (s s' : Store) :
  (forall i p, projects s' !! i = Some p -> projects s !! i = Some p) ->
  unique_names s -> unique_names s'.
Proof.
  intros Hsub Hu i j p q Hp Hq. exact (Hu i j p q (Hsub i p Hp) (Hsub j q Hq)).
Qed.

Lemma unique_names_same (s s' : Store) :
  projects s' = projects s -> unique_names s -> unique_names s'.
Proof. intros Heq. apply unique_names_sub. now rewrite Heq. Qed.

Lemma unique_names_update projectId p p' s :
  unique_names s -> projects s !! projectId = Some p ->
  projectName p' = projectName p -> owner p' = owner p ->
  unique_names (put_project projectId p' s).
Proof.
  intros Hu Hp Hn Ho a b x y. unfold put_project; simpl.
  rewrite !lookup_insert.
  destruct (decide (projectId = a)) as [<-|Ha], (decide (projectId = b)) as [<-|Hb];
    intros Hx Hy Hox Hnx; simplify_eq.
  - reflexivity.
  - apply (Hu projectId b p y Hp Hy); congruence.
  - apply (Hu a projectId x p Hx Hp); congruence.
  - exact (Hu a b x y Hx Hy Hox Hnx).
Qed.

Lemma updates_keep_unique projectId h t (kept : Project -> Project -> Prop) s :
  updates_project projectId h t kept ->
  (forall p p', kept p p' -> projectName p' = projectName p /\ owner p' = owner p) ->
  unique_names s -> unique_names (snd (h s)).
Proof.
  intros Hup Hk Hu.
  destruct (Hup s) as [[e ->]|(p & p' & Hp & Hr & Hkept)]; [exact Hu|].
  rewrite Hr. do 6 apply proj2 in Hkept.
  destruct (Hk p p' Hkept) as [Hn Ho].
  now apply (unique_names_update projectId p).
Qed.

Section AllCalls.

Context {E : External} {I : Imports}.

Lemma after_keeps_unique (c : Call) (s : Store) :
  unique_names s -> unique_names (after c s).
Proof.
  intros Hu. destruct c; simpl.
  - now apply createProject_keeps_unique.
  - apply (updates_keep_unique _ _ _ _ _ (createNewProjectKey_updates _));
      [|exact Hu]. now intros p p' [-> _].
  - apply (updates_keep_unique _ _ _ _ _ (updateAppName_updates _ _));
      [|exact Hu]. now intros p p' [-> _].
  - apply (updates_keep_unique _ _ _ _ _ (updateAppEmail_updates _ _));
      [|exact Hu]. now intros p p' [-> _].
  - apply (updates_keep_unique _ _ _ _ _ (updateLoginMethods_updates _ _));
      [|exact Hu]. now intros p p' [-> _].
  - apply (updates_keep_unique _ _ _ _ _ (updateSecurity_updates _ _));
      [|exact Hu]. now intros p p' [-> _].
  - apply (updates_keep_unique _ _ _ _ _ (updateEmailTemplates_updates _ _));
      [|exact Hu]. now intros p p' [-> _].
  - destruct (decide (emailTemplate ∈ EmailTemplateName)) as [Hin|Hout].
    + destruct (projects s !! projectId) as [p|] eqn:Hp.
      * rewrite (resetEmailTemplate_found _ _ _ _ Hin Hp). simpl.
        now apply (unique_names_update projectId p).
      * now rewrite (resetEmailTemplate_missing _ _ _ Hin Hp).
    + now rewrite (resetEmailTemplate_bad_name _ _ _ Hout).
  - destruct (projects s !! projectId) as [p|] eqn:Hp.
    + rewrite (resetSecurity_found _ _ _ Hp). simpl.
      now apply (unique_names_update projectId p).
    + now rewrite (resetSecurity_missing _ _ Hp).
  - destruct (Js.falsy projectId) eqn:Hf.
    + unfold deleteProject, bind. now rewrite Hf.
    + destruct projectId as [p|]; [|discriminate].
      rewrite deleteProject_run
        by (simpl in Hf; now apply bool_decide_eq_false in Hf).
      cbn [snd]. rewrite run_cascade. revert Hu. apply unique_names_sub; simpl.
      intros i q Hq. now apply lookup_delete_Some in Hq as [_ Hq].
  - change (pending (deleteAllProjects adminId s))
      with (map cascade (owned_ids adminId s)).
    rewrite settle_cascades. revert Hu. apply unique_names_sub; simpl.
    intros i q. apply filter_lookup_inv.
  - unfold deleteAccount, bind, modify, ret; simpl.
    rewrite after_deleteAccount_eq. revert Hu. apply unique_names_sub; simpl.
    intros i q. apply filter_lookup_inv.
  - revert Hu. apply unique_names_same.
    now destruct (createAccount_store body newId s) as [->|(a & -> & _)].
  - revert Hu. apply unique_names_same.
    unfold updateAdminAccount, bind, get, modify, throw_if, throw, ret.
    destruct (_ && _); simpl; [reflexivity|].
    now destruct (admins s !! adminId).
  - revert Hu. apply unique_names_same.
    unfold createLoginSession, bind, get, modify, throw_if, throw, ret.
    destruct (_ || _); simpl; [reflexivity|].
    destruct (negb _); simpl; [reflexivity|].
    destruct (admin_by_email _ s) as [[i a]|]; simpl; [|reflexivity].
    now destruct (negb _).
  - reflexivity || (revert Hu; now apply unique_names_same).
  - revert Hu. apply unique_names_same.
    unfold refreshAccessToken, bind, get, modify, throw_if, throw, ret.
    destruct (Js.falsy (presented req)); simpl; [reflexivity|].
    destruct (Js.falsy _); simpl; [reflexivity|].
    destruct (admins s !! _) as [a|]; simpl; [|reflexivity].
    now destruct (Js.date_lt _ _).
  - revert Hu. apply unique_names_same.
    unfold verifyUserFromConsole, bind, get, modify, throw_if, throw, ret.
    destruct (_ && _); simpl; [reflexivity|].
    now destruct (findOne _ (users s)) as [[i u]|].
Qed.

(** X21: the pairs of owner and project name are unique in every store
    that the handlers build.  Starting from the empty store, after any
    sequence of calls to the handlers that write (creating, re-keying,
    updating, resetting and deleting projects, deleting all projects of an
    admin or an admin account, creating and updating admins, logging in
    and out, refreshing, verifying a user), no two project documents share
    owner and name; and each single call keeps that property. *)
Theorem unique_names_always (calls : list Call) :
  unique_names (fold_left (fun s c => after c s) calls empty_db) /\
  forall c s, unique_names s -> unique_names (after c s).
Proof.
  split; [|intros c s; apply after_keeps_unique].
  assert (forall s0, unique_names s0 ->
            unique_names (fold_left (fun s c => after c s) calls s0)) as Hall.
  { induction calls as [|c calls IH]; intros s0 H0; [exact H0|].
    simpl. apply IH. now apply after_keeps_unique. }
  apply Hall, unique_names_empty.
Qed.

End AllCalls.

(** ** The presented refresh token *)

Lemma strip_prefix_append (p t : string) : Js.strip_prefix p (p +:+ t) = Some t.
Proof.
  induction p as [|a p IH]; simpl; [now destruct t|].
  now rewrite bool_decide_eq_true_2.
Qed.

Lemma remove_first_unfold (p s : string) :
  Js.remove_first p s =
  match Js.strip_prefix p s with
  | Some rest => rest
  | None =>
      match s with
      | String c r => String c (Js.remove_first p r)
      | EmptyString => EmptyString
      end
  end.
Proof. now destruct s. Qed.

(** X22: which refresh token a request presents.  A header
    [Bearer <token>] with a non-empty token presents that token, whatever
    the cookie holds; with no [authorization] header, with an empty one or
    with one that is [Bearer ] alone, the cookie is what is presented. *)
Theorem presented_token (t : string) (cookie : option string) :
  t <> "" ->
  presented (mkRefreshRequest (Some ("Bearer " +:+ t)) cookie) = Some t /\
  presented (mkRefreshRequest None cookie) = cookie /\
  presented (mkRefreshRequest (Some "") cookie) = cookie /\
  presented (mkRefreshRequest (Some "Bearer ") cookie) = cookie.
Proof.
  intros Hne. split; [|repeat split].
  change (presented (mkRefreshRequest (Some ("Bearer " +:+ t)) cookie))
    with (Js.or_else (Some (Js.remove_first "Bearer " ("Bearer " +:+ t))) cookie).
  rewrite remove_first_unfold, strip_prefix_append. unfold Js.or_else.
  now rewrite (falsy_Some_false t Hne).
Qed.

Lemma presented_token_witness :
  "jwt.a1" <> "" /\
  presented (mkRefreshRequest (Some "Bearer jwt.a1") (Some "jwt.a2"))
  = Some "jwt.a1" /\
  presented (mkRefreshRequest (Some "Bearer ") (Some "jwt.a2")) = Some "jwt.a2".
Proof.
  assert (Hne : "jwt.a1" <> "") by discriminate.
  split; [exact Hne|].
  destruct (presented_token "jwt.a1" (Some "jwt.a2") Hne) as (H1 & _ & _ & H4).
  exact (conj H1 H4).
Defined.

(** ** The rows of a log page *)

Lemma answers_inv q l :
  answers q l = true ->
  (forall p, q_projectId q = Some p -> log_projectId l = p) /\
  (forall u, q_userId q = Some u -> log_userId l = Some u) /\
  (forall c, q_eventCode q = Some c -> log_eventCode l = c).
Proof.
  unfold answers. rewrite !andb_true_iff. intros [[Hp Hu] Hc].
  split; [|split].
  - intros p Hq. rewrite Hq in Hp. now apply bool_decide_eq_true in Hp.
  - intros u Hq. rewrite Hq in Hu. now apply bool_decide_eq_true in Hu.
  - intros c Hq. rewrite Hq in Hc. now apply bool_decide_eq_true in Hc.
Qed.

Section LogScope.

Context {E : External}.

(** X23: whose logs a page holds, for queries whose pages hold rows of
    the collection.  For a request the user-auth middleware has put a
    user id on, every log that [getLogsByUserId] or
    [getUserLogsByEventCode] replies with is of that user, whatever user
    id the body names, and of the project of the request; every log that
    an event-code query replies with has the event code asked for; and the
    three handlers leave the store as it was. *)
Theorem log_pages_scoped (req : LogRequest) (s s' : Store) (r : Reply) :
  pages_hold_rows ->
  (forall u,
     req_user_id req = Some u -> u <> "" ->
     getLogsByUserId req s = (Ok r, s') ->
     s' = s /\
     exists page,
       data r = OfLogs page /\
       forall l, l ∈ page ->
         log_userId l = Some u /\
         (forall p, req_project_id req = Some p -> log_projectId l = p)) /\
  (forall u,
     req_user_id req = Some u ->
     getUserLogsByEventCode req s = (Ok r, s') ->
     s' = s /\
     exists page c,
       data r = OfLogs page /\ req_query_eventCode req = Some c /\
       forall l, l ∈ page ->
         log_userId l = Some u /\ log_eventCode l = c /\
         (forall p, req_project_id req = Some p -> log_projectId l = p)) /\
  (getLogsByEventCode req s = (Ok r, s') ->
   s' = s /\
   exists page c,
     data r = OfLogs page /\ req_query_eventCode req = Some c /\
     forall l, l ∈ page ->
       log_eventCode l = c /\
       (forall p, req_project_id req = Some p -> log_projectId l = p)).
Proof.
  intros Hrows. split; [|split].
  - intros u Hu Hne Hok. rewrite getLogsByUserId_run in Hok.
    destruct (validateLogInput _); [|discriminate].
    injection Hok as <- <-. split; [reflexivity|].
    eexists. split; [reflexivity|]. intros l Hl.
    destruct (Hrows _ s l (or_introl Hl)) as (i & _ & Ha).
    destruct (answers_inv _ _ Ha) as (Hp & Hus & _).
    split; [|exact Hp]. apply Hus. simpl. unfold Args.userId.
    now rewrite Hu, (falsy_Some_false u Hne).
  - intros u Hu Hok.
    destruct (Js.falsy (req_query_eventCode req)) eqn:Hf.
    { rewrite (getUserLogsByEventCode_no_code req s Hf) in Hok. discriminate. }
    rewrite (getUserLogsByEventCode_run req s Hf) in Hok.
    destruct (validateLogInput _); [|discriminate].
    injection Hok as <- <-. split; [reflexivity|].
    destruct (req_query_eventCode req) as [c|] eqn:Hc; [|discriminate].
    eexists. exists c. split; [reflexivity|]. split; [reflexivity|].
    intros l Hl.
    destruct (Hrows _ s l (or_intror (or_intror Hl))) as (i & _ & Ha).
    destruct (answers_inv _ _ Ha) as (Hp & Hus & Hev).
    split; [apply Hus; exact Hu|]. split; [apply Hev; exact Hc|exact Hp].
  - intros Hok.
    destruct (Js.falsy (req_query_eventCode req)) eqn:Hf.
    { rewrite (getLogsByEventCode_no_code req s Hf) in Hok. discriminate. }
    rewrite (getLogsByEventCode_run req s Hf) in Hok.
    destruct (validateLogInput _); [|discriminate].
    injection Hok as <- <-. split; [reflexivity|].
    destruct (req_query_eventCode req) as [c|] eqn:Hc; [|discriminate].
    eexists. exists c. split; [reflexivity|]. split; [reflexivity|].
    intros l Hl.
    destruct (Hrows _ s l (or_intror (or_introl Hl))) as (i & _ & Ha).
    destruct (answers_inv _ _ Ha) as (Hp & _ & Hev).
    split; [apply Hev; exact Hc|exact Hp].
Qed.

End LogScope.

Lemma log_pages_scoped_witness :
  pages_hold_rows (H := Model.ext) /\
  exists r,
    getLogsByUserId (E := Model.ext)
      (mkLogRequest (Some "u1") (Some "p1") None
         (mkLogBody (Some "u2") (Some 1) (Some 10) None None)) Sample.db
    = (Ok r, Sample.db) /\
    exists page,
      data r = OfLogs page /\
      forall l, l ∈ page -> log_userId l = Some "u1".
Proof.
  pose proof Model_pages_hold_rows as Hrows.
  split; [exact Hrows|].
  destruct (getLogsByUserId (E := Model.ext)
              (mkLogRequest (Some "u1") (Some "p1") None
                 (mkLogBody (Some "u2") (Some 1) (Some 10) None None)) Sample.db)
    as [[r|e] s'] eqn:Hr; [|vm_compute in Hr; discriminate].
  destruct (log_pages_scoped (E := Model.ext)
              (mkLogRequest (Some "u1") (Some "p1") None
                 (mkLogBody (Some "u2") (Some 1) (Some 10) None None))
              Sample.db s' r Hrows) as [Huser _].
  destruct (Huser "u1") as (-> & page & Hd & Hall);
    [reflexivity | discriminate | exact Hr |].
  exists r. split; [reflexivity|]. exists page. split; [exact Hd|].
  intros l Hl. now apply Hall.
Defined.

(** ** What [createProject] writes *)

Section CreateProjectWrites.

Context {E : External}.

Lemma createProject_result adminId body newId rnd s :
  (exists e, createProject adminId body newId rnd s = (Throw e, s)) \/
  (exists created,
     createProject adminId body newId rnd s
     = (Ok (mkReply CREATED (OfProject created)), put_project newId created s) /\
     owner created = adminId /\
     projectKey created = signProjectKey newId adminId /\
     body_projectName body = Some (projectName created) /\
     body_config body = Some (config created) /\
     projects s !! newId = None).
Proof.
  destruct body as [[pn|] [cfg|] [an|] [ae|]];
    unfold createProject, orelse, blank, bind, ret, get, modify, throw_if, throw;
    simpl;
    repeat match goal with
           | |- context [if ?b then _ else _] => destruct b eqn:?; simpl
           | |- context [validateProjectConfig ?c] =>
               destruct (validateProjectConfig c); simpl
           end; eauto.
  right. eexists. split; [now rewrite put_project_twice|].
  do 4 (split; [reflexivity|]).
  match goal with
  | H : bool_decide (is_Some (projects s !! newId)) = false |- _ =>
      apply bool_decide_eq_false in H;
      destruct (projects s !! newId) as [q|]; [exfalso; eauto|reflexivity]
  end.
Qed.

(** X24: [createProject] only ever adds one project.  Whatever the
    request, every project document of the store is kept as it is, and the
    admins, users, sessions and logs are untouched; when it replies, the
    document it replies with is stored under a fresh id, is owned by the
    admin of the request, has the name and the configuration of the body,
    and carries the signed key, not the temporary one. *)
Theorem createProject_only_adds (adminId : ObjectId) (body : ProjectBody)
    (newId : ObjectId) (rnd : string) (s : Store) :
  (forall i q, projects s !! i = Some q ->
               projects (snd (createProject adminId body newId rnd s)) !! i
               = Some q) /\
  admins (snd (createProject adminId body newId rnd s)) = admins s /\
  users (snd (createProject adminId body newId rnd s)) = users s /\
  sessions (snd (createProject adminId body newId rnd s)) = sessions s /\
  logs (snd (createProject adminId body newId rnd s)) = logs s /\
  (forall r,
     fst (createProject adminId body newId rnd s) = Ok r ->
     exists created,
       r = mkReply CREATED (OfProject created) /\
       projects s !! newId = None /\
       projects (snd (createProject adminId body newId rnd s)) !! newId
       = Some created /\
       owner created = adminId /\
       body_projectName body = Some (projectName created) /\
       body_config body = Some (config created) /\
       projectKey created = signProjectKey newId adminId).
Proof.
  destruct (createProject_result adminId body newId rnd s)
    as [[e ->]|(c & -> & Ho & Hk & Hn & Hc & Hfree)]; simpl.
  - repeat split; try reflexivity; [auto|discriminate].
  - split.
    + intros i q Hq. rewrite lookup_insert_ne; [exact Hq|]. congruence.
    + do 4 (split; [reflexivity|]).
      intros r [= <-]. exists c.
      split; [reflexivity|]. split; [exact Hfree|].
      split; [apply lookup_insert_eq|]. auto.
Qed.

End CreateProjectWrites.

(** ** The routes *)

Lemma endpoints_chain (m : Mount) (e : Route) :
  e ∈ endpoints m ->
  exists r, r ∈ mount_router m /\
            route_chain e = mount_chain m ++ route_chain r /\
            route_path e = mount_prefix m +:+ route_path r /\
            route_handler e = route_handler r.
Proof.
  unfold endpoints. intros Hin. apply list_elem_of_In, in_map_iff in Hin.
  destruct Hin as (r & <- & Hr). exists r. apply list_elem_of_In in Hr. auto.
Qed.

(** X25: which middlewares stand before which endpoint.  In the admin
    router a route that validates the project authenticates the admin
    first, and the routes with no admin authentication are the account
    creation, the login and the token refresh.  In the application,
    whatever the two project routers hold, every endpoint under the user
    mount runs [validateProject] first and every endpoint under the two
    project mounts runs [authenticateAdmin] first; the admin mount adds no
    middleware of its own. *)
Theorem routes_guarded (projectRouter multipleProjectsRouter : list Route) :
  forallb (fun r => admin_before_project (route_chain r)) adminRouter = true /\
  map route_handler
    (List.filter (fun r => negb (existsb is_authenticateAdmin (route_chain r)))
       adminRouter)
  = ["createAccount"; "createLoginSession"; "refreshAccessToken"] /\
  forall m e,
    m ∈ app projectRouter multipleProjectsRouter -> e ∈ endpoints m ->
    (mount_prefix m = "/api/v1/user" ->
     head (route_chain e) = Some validateProject) /\
    (mount_prefix m = "/api/v1/project" \/ mount_prefix m = "/api/v1/projects" ->
     head (route_chain e) = Some authenticateAdmin) /\
    (mount_prefix m = "/api/v1/admin" ->
     exists r, r ∈ adminRouter /\ route_chain e = route_chain r /\
               route_handler e = route_handler r).
Proof.
  split; [reflexivity|]. split; [reflexivity|].
  intros m e Hm He.
  destruct (endpoints_chain m e He) as (r & Hr & Hc & _ & Hh).
  unfold app in Hm.
  repeat (apply elem_of_cons in Hm as [->|Hm]); [| | | |now apply elem_of_nil in Hm];
    simpl in *; (split; [|split]); try discriminate;
    try (intros _; now rewrite Hc);
    try (intros [?|?]; discriminate);
    try (intros [_|_]; now rewrite Hc).
  intros _. exists r. auto.
Qed.

(** ** The further properties on the sample database *)

Lemma deleteAccount_complete_witness :
  projects Sample.db !! "p1" = Some Sample.shop1 /\
  owner Sample.shop1 = "a1" /\
  exists s',
    deleteAccount "a1" Sample.db = (Ok (mkReply ACCOUNT_DELETED Empty), s') /\
    admins s' !! "a1" = None /\
    purged "p1" s'.
Proof.
  split; [reflexivity|]. split; [reflexivity|].
  destruct (deleteAccount_complete "a1" Sample.db) as (s' & Hr & Ha & _ & Hp).
  exists s'. split; [exact Hr|]. split; [exact Ha|].
  apply (Hp "p1" Sample.shop1); reflexivity.
Defined.

Lemma deleteAccount_frame_witness :
  exists s',
    deleteAccount "a1" Sample.db = (Ok (mkReply ACCOUNT_DELETED Empty), s') /\
    admins s' !! "a2" = Some Sample.bob /\
    projects s' !! "p2" = Some Sample.shop2 /\
    users s' !! "u2" = Some Sample.u2.
Proof.
  destruct (deleteAccount_frame "a1" Sample.db) as (s' & Hr & Ha & Hp & Hu & _).
  exists s'. split; [exact Hr|].
  split; [rewrite Ha by discriminate; reflexivity|].
  split; [apply Hp; split; [reflexivity|discriminate]|].
  apply Hu. split; [reflexivity|].
  intros q Hq. vm_compute in Hq. injection Hq as <-. discriminate.
Defined.

Lemma deleteLoginSession_idempotent_witness :
  admins Sample.db !! "a9" = None /\
  deleteLoginSession "a9" Sample.db
  = (Ok (mkReply SESSION_DELETED Empty), Sample.db).
Proof.
  assert (Hn : admins Sample.db !! "a9" = None) by reflexivity.
  split; [exact Hn|].
  destruct (deleteLoginSession_idempotent "a9" Sample.db)
    as (s' & Hr & _ & _ & _ & _ & _ & _ & Hsame).
  now rewrite <- (Hsame Hn) at 2.
Defined.

Lemma getAllProjects_owned_witness :
  exists l,
    getAllProjects "a9" Sample.db = (Ok (mkAnswer SUCCESSFUL l), Sample.db) /\
    l = [].
Proof.
  destruct (getAllProjects_owned "a9" Sample.db) as (l & Hr & _ & _ & _ & Hnil).
  exists l. split; [exact Hr|]. apply Hnil.
  assert (map_Forall (fun _ p => owner p <> "a9") (projects Sample.db)) as Hall
    by (eapply bool_decide_unpack; vm_compute; exact I).
  intros i p Hp. exact (Hall i p Hp).
Defined.

Lemma unique_names_always_witness :
  unique_names
    (fold_left (fun s c => after (H := Model.ext) (H0 := More.imports) c s)
       [ CreateProject "a1" (Sample.body "shop") "p1" "0.1";
         CreateProject "a1" (Sample.body "shop") "p2" "0.2";
         UpdateAppName "p1" (Some "Store");
         DeleteAccount "a1" ]
       empty_db).
Proof.
  exact (proj1 (unique_names_always (E := Model.ext) (I := More.imports) _)).
Defined.

Lemma createProject_only_adds_witness :
  exists r created,
    fst (createProject (E := Model.ext) "a3" (Sample.body "shop") "p3" "0.42"
           Sample.db) = Ok r /\
    r = mkReply CREATED (OfProject created) /\
    owner created = "a3" /\
    projectKey created = "key.p3.a3" /\
    projects (snd (createProject (E := Model.ext) "a3" (Sample.body "shop") "p3"
                     "0.42" Sample.db)) !! "p1"
    = Some Sample.shop1.
Proof.
  destruct (createProject_only_adds (E := Model.ext) "a3" (Sample.body "shop")
              "p3" "0.42" Sample.db) as (Hkeep & _ & _ & _ & _ & Hnew).
  destruct (fst (createProject (E := Model.ext) "a3" (Sample.body "shop") "p3"
                   "0.42" Sample.db)) as [r|e] eqn:Hr;
    [|vm_compute in Hr; discriminate].
  destruct (Hnew r eq_refl) as (c & -> & _ & _ & Ho & _ & _ & Hk).
  exists (mkReply CREATED (OfProject c)), c.
  split; [reflexivity|]. split; [reflexivity|]. split; [exact Ho|].
  split; [rewrite Hk; reflexivity|].
  apply Hkeep. reflexivity.
Defined.

Lemma routes_guarded_witness :
  mkRoute "/api/v1/user/sessions" GET [validateProject; authenticateUser]
    "getAllLoginSessions"
  ∈ endpoints (mkMount "/api/v1/user" [validateProject] userRouter) /\
  head (route_chain
          (mkRoute "/api/v1/user/sessions" GET [validateProject; authenticateUser]
             "getAllLoginSessions"))
  = Some validateProject.
Proof.
  assert (He : mkRoute "/api/v1/user/sessions" GET
                 [validateProject; authenticateUser] "getAllLoginSessions"
               ∈ endpoints (mkMount "/api/v1/user" [validateProject] userRouter))
    by (do 7 right; left).
  split; [exact He|].
  destruct (routes_guarded [] []) as (_ & _ & H).
  destruct (H (mkMount "/api/v1/user" [validateProject] userRouter)
              (mkRoute "/api/v1/user/sessions" GET
                 [validateProject; authenticateUser] "getAllLoginSessions"))
    as (Hu & _); [left | exact He |].
  now apply Hu.
Defined.

(** ** The current admin and the console *)

Section CurrentAdmin.

Context {E : External} {I : Imports}.

(** X26: what [getCurrentAdmin] shows after the session handlers.  After a
    successful [createLoginSession] it replies with the admin document
    that the store then holds, less the password and the four
    verification and reset fields, which the payload of the login, less
    the password only, still shows; the access and the refresh token that
    the cookies carry stay in, since its projection does not name them.
    After [deleteLoginSession] it replies with the four token fields
    null and the name and email as they were, and after [deleteAccount] it
    throws [NOT_FOUND]. *)
Theorem getCurrentAdmin_follows (adminId : ObjectId) (s : Store) :
  (forall email password now now' a r c s',
     email <> "" -> password <> "" ->
     validateSignupInput None password email = true ->
     admin_by_email email s = Some (adminId, a) ->
     createLoginSession (mkAccountBody None (Some email) (Some password))
       now now' s = (Ok (r, c), s') ->
     exists a' shown,
       admins s' !! adminId = Some a' /\
       data r = OfAdmin (without_password a') /\
       verificationToken (without_password a') = verificationToken a /\
       verificationTokenExpiry (without_password a') = verificationTokenExpiry a /\
       resetPasswordToken (without_password a') = resetPasswordToken a /\
       resetPasswordTokenExpiry (without_password a')
       = resetPasswordTokenExpiry a /\
       getCurrentAdmin adminId s' = (Ok (mkReply SUCCESSFUL (OfAdmin shown)), s') /\
       accessToken shown = Js.val (admin_access_token c) /\
       refreshToken shown = Js.val (admin_refresh_token c) /\
       accessTokenExpiry shown = accessTokenExpiry a' /\
       refreshTokenExpiry shown = refreshTokenExpiry a' /\
       admin_name shown = admin_name a /\ admin_email shown = admin_email a /\
       admin_password shown = "" /\
       verificationToken shown = Js.undefined /\
       verificationTokenExpiry shown = Js.undefined /\
       resetPasswordToken shown = Js.undefined /\
       resetPasswordTokenExpiry shown = Js.undefined) /\
  (forall a,
     admins s !! adminId = Some a ->
     exists shown,
       getCurrentAdmin adminId (snd (deleteLoginSession adminId s))
       = (Ok (mkReply SUCCESSFUL (OfAdmin shown)),
          snd (deleteLoginSession adminId s)) /\
       tokens_null shown /\
       admin_name shown = admin_name a /\ admin_email shown = admin_email a) /\
  getCurrentAdmin adminId (snd (deleteAccount adminId s))
  = (Throw (ApiError NOT_FOUND), snd (deleteAccount adminId s)).
Proof.
  split; [|split].
  - intros email password now now' a r c s' He Hp Hv Hfound Hlogin.
    rewrite (createLoginSession_checked email password now now' s He Hp Hv),
      Hfound in Hlogin.
    destruct (validatePassword (admin_password a) password); [|discriminate].
    injection Hlogin as <- <- <-.
    eexists. eexists.
    split; [cbn; apply lookup_insert_eq|].
    do 5 (split; [reflexivity|]).
    split.
    + unfold getCurrentAdmin, bind, get, ret. cbn [put_admin admins].
      now rewrite lookup_insert_eq.
    + repeat split.
  - intros a Ha. eexists. split.
    + unfold getCurrentAdmin, bind, get, ret. cbn.
      rewrite lookup_alter_eq, Ha. reflexivity.
    + repeat split.
  - unfold getCurrentAdmin, bind, get, throw. cbn.
    now rewrite lookup_delete_eq.
Qed.

End CurrentAdmin.

Lemma getCurrentAdmin_follows_witness :
  admin_by_email "alice@example.org" Sample.db = Some ("a1", Sample.alice) /\
  verificationToken Sample.alice = Js.val "vt-a" /\
  (exists r c s' shown,
     createLoginSession (E := Model.ext) (I := More.imports)
       (mkAccountBody None (Some "alice@example.org") (Some "a")) 1000 1001
       Sample.db
     = (Ok (r, c), s') /\
     getCurrentAdmin "a1" s' = (Ok (mkReply SUCCESSFUL (OfAdmin shown)), s') /\
     refreshToken shown = Js.val (admin_refresh_token c) /\
     verificationToken shown = Js.undefined) /\
  exists shown,
    getCurrentAdmin "a1" (snd (deleteLoginSession "a1" Sample.db))
    = (Ok (mkReply SUCCESSFUL (OfAdmin shown)),
       snd (deleteLoginSession "a1" Sample.db)) /\
    tokens_null shown /\ admin_email shown = admin_email Sample.alice.
Proof.
  assert (Hfound : admin_by_email "alice@example.org" Sample.db
                   = Some ("a1", Sample.alice)) by (vm_compute; reflexivity).
  assert (Ha : admins Sample.db !! "a1" = Some Sample.alice) by reflexivity.
  split; [exact Hfound|]. split; [reflexivity|].
  destruct (getCurrentAdmin_follows (E := Model.ext) (I := More.imports)
              "a1" Sample.db) as (Hlogin & Hlogout & _).
  split.
  - destruct (createLoginSession (E := Model.ext) (I := More.imports)
                (mkAccountBody None (Some "alice@example.org") (Some "a"))
                1000 1001 Sample.db) as [[[r c]|e] s'] eqn:Hl;
      [|vm_compute in Hl; discriminate].
    destruct (Hlogin "alice@example.org" "a" 1000 1001 Sample.alice r c s')
      as (a' & shown & _ & _ & _ & _ & _ & _ & Hg & _ & Hrt & _ & _ & _ & _
          & _ & Hvt & _);
      [discriminate | discriminate | reflexivity | exact Hfound | exact Hl |].
    exists r, c, s', shown. exact (conj eq_refl (conj Hg (conj Hrt Hvt))).
  - destruct (Hlogout Sample.alice Ha) as (shown & Hr & Hn & _ & He).
    exists shown. split; [exact Hr|]. split; [exact Hn|exact He].
Defined.


